(** * Quantum key distribution scripts: B92, BB84 and E91

    A shallow embedding of the protocol logic of [b92.py], [bb84.py] and
    [e91.py], followed by the properties proved about it.

    Conventions.
    - A Python [int] is a [Z]; a one-character string held in a list is an
      [ascii]; a Python [str] is a [string]; a Python [list] is a [list].
    - A Python call that may raise returns [Py.res]: [Ok v] or [Raise e].
    - [random.random()] and [random.randint] read a tape of draws through a
      cursor that is passed along explicitly.
    - Console output ([print]) is not modelled; console input is modelled by
      the values the validating prompt loops let through. *)

From Stdlib Require Import ZArith QArith List String Ascii Bool Lia.
From Stdlib Require Import Uint63 PrimFloat.
From stdpp Require Import base list strings.
Import ListNotations.

Local Open Scope Z_scope.

(* ===================================================================== *)
(** * Part I: the programs                                                *)
(* ===================================================================== *)

(** ** Python values that raise *)

Module Py.

Inductive exn : Type :=
| ValueError (msg : string)
| IndexError (msg : string).

Inductive res (A : Type) : Type :=
| Ok (a : A)
| Raise (e : exn).

Arguments Ok {A} a.
Arguments Raise {A} e.

Definition bind {A B : Type} (m : res A) (k : A -> res B) : res B :=
  match m with
  | Ok a => k a
  | Raise e => Raise e
  end.

(** [l[i]] for a list and a non-negative index. *)
Definition getitem {A : Type} (l : list A) (i : nat) : res A :=
  match l !! i with
  | Some v => Ok v
  | None => Raise (IndexError "list index out of range")
  end.

(** [s[i]] for a string and a non-negative index. *)
Definition str_getitem (s : string) (i : nat) : res ascii :=
  match String.get i s with
  | Some c => Ok c
  | None => Raise (IndexError "string index out of range")
  end.

(** [for x in xs: body], the loop state threaded through. *)
Fixpoint for_each {A S : Type} (xs : list A) (body : S -> A -> res S) (s : S)
  : res S :=
  match xs with
  | [] => Ok s
  | v :: rest => bind (body s v) (for_each rest body)
  end.

(** [for i in range(n): body]. *)
Definition for_range {S : Type} (n : nat) (body : S -> nat -> res S) (s : S)
  : res S :=
  for_each (seq 0 n) body s.

(** [int(c)] for a one-character string. *)
Definition int_of_char (c : ascii) : res Z :=
  if Ascii.eqb c "0" then Ok 0
  else if Ascii.eqb c "1" then Ok 1
  else if Ascii.eqb c "2" then Ok 2
  else if Ascii.eqb c "3" then Ok 3
  else if Ascii.eqb c "4" then Ok 4
  else if Ascii.eqb c "5" then Ok 5
  else if Ascii.eqb c "6" then Ok 6
  else if Ascii.eqb c "7" then Ok 7
  else if Ascii.eqb c "8" then Ok 8
  else if Ascii.eqb c "9" then Ok 9
  else Raise (ValueError "invalid literal for int() with base 10").

End Py.

#[global] Instance res_bind : MBind Py.res := fun A B k m => Py.bind m k.
#[global] Instance res_ret : MRet Py.res := fun A a => Py.Ok a.

(** ** The circuit library the scripts call

    [QuantumCircuit] records what the scripts build.  [run_shot] is a model of
    the external simulator backend ([AerSimulator], one shot) for the gates
    the scripts emit on the all-zero start state: every gate acts on one
    qubit, so each qubit stays in one of the four states below (up to a
    global phase, which a measurement does not see).  A measurement of a
    superposed qubit takes its outcome from a tape of coins. *)

Module Qiskit.

Inductive instruction : Type :=
| x (q : nat)
| h (q : nat)
| z (q : nat)
| measure (q c : nat).

Record QuantumCircuit : Type := {
  num_qubits : nat;
  num_clbits : nat;
  data : list instruction
}.

(** [QuantumCircuit(n, c)] *)
Definition new (n c : nat) : QuantumCircuit :=
  {| num_qubits := n; num_clbits := c; data := [] |}.

(** [qc.x(i)], [qc.h(i)], [qc.z(i)], [qc.measure(i, j)]: append in place.
    The loops of the scripts call them with [i] below the number of qubits
    whenever the sequences they walk have the length the prompts give
    them. *)
Definition append (qc : QuantumCircuit) (ins : instruction) : QuantumCircuit :=
  {| num_qubits := num_qubits qc;
     num_clbits := num_clbits qc;
     data := data qc ++ [ins] |}.

(** [qc.compose(other)] *)
Definition compose (qc other : QuantumCircuit) : QuantumCircuit :=
  {| num_qubits := num_qubits qc;
     num_clbits := num_clbits qc;
     data := data qc ++ data other |}.

(** The circuit with further instructions appended. *)
Definition with_data (qc : QuantumCircuit) (more : list instruction) : QuantumCircuit :=
  {| num_qubits := num_qubits qc; num_clbits := num_clbits qc;
     data := data qc ++ more |}.

Inductive ket : Type := Ket0 | Ket1 | KetPlus | KetMinus.

Definition apply_x (k : ket) : ket :=
  match k with
  | Ket0 => Ket1 | Ket1 => Ket0 | KetPlus => KetPlus | KetMinus => KetMinus
  end.

Definition apply_h (k : ket) : ket :=
  match k with
  | Ket0 => KetPlus | Ket1 => KetMinus | KetPlus => Ket0 | KetMinus => Ket1
  end.

Definition apply_z (k : ket) : ket :=
  match k with
  | Ket0 => Ket0 | Ket1 => Ket1 | KetPlus => KetMinus | KetMinus => KetPlus
  end.

Record shot : Type := {
  qubits : list ket;
  clbits : list bool;
  coins : nat -> bool;
  flips : nat
}.

Definition on_qubit (f : ket -> ket) (q : nat) (s : shot) : shot :=
  {| qubits := alter f q (qubits s);
     clbits := clbits s;
     coins := coins s;
     flips := flips s |}.

Definition ket_of_bool (b : bool) : ket := if b then Ket1 else Ket0.

Definition do_measure (q c : nat) (s : shot) : shot :=
  match qubits s !! q with
  | Some Ket0 =>
      {| qubits := qubits s; clbits := <[c := false]> (clbits s);
         coins := coins s; flips := flips s |}
  | Some Ket1 =>
      {| qubits := qubits s; clbits := <[c := true]> (clbits s);
         coins := coins s; flips := flips s |}
  | Some _ =>
      let b := coins s (flips s) in
      {| qubits := <[q := ket_of_bool b]> (qubits s);
         clbits := <[c := b]> (clbits s);
         coins := coins s; flips := S (flips s) |}
  | None => s
  end.

Definition exec (s : shot) (ins : instruction) : shot :=
  match ins with
  | x q => on_qubit apply_x q s
  | h q => on_qubit apply_h q s
  | z q => on_qubit apply_z q s
  | measure q c => do_measure q c s
  end.

Definition start (cs : nat -> bool) (qc : QuantumCircuit) : shot :=
  {| qubits := replicate (num_qubits qc) Ket0;
     clbits := replicate (num_clbits qc) false;
     coins := cs; flips := 0 |}.

Definition char_of_bool (b : bool) : ascii := if b then "1"%char else "0"%char.

(** The bit string of one shot: classical bit 0 is the rightmost
    character. *)
Definition run_shot (cs : nat -> bool) (qc : QuantumCircuit) : string :=
  string_of_list_ascii
    (rev (map char_of_bool (clbits (fold_left exec (data qc) (start cs qc))))).

End Qiskit.

(** ** bb84.py *)

Module BB84.
Import Py Qiskit.

(** The state of [random]: the draws [random.random()] will return, each in
    the half-open interval from 0 to 1, and how many were taken. *)
Record rng : Type := { tape : nat -> Q; cursor : nat }.

Definition random (g : rng) : Q * rng :=
  (tape g (cursor g), {| tape := tape g; cursor := S (cursor g) |}).

(** [r < p] on rationals; every finite float and every int is one. *)
Definition Qltb (r p : Q) : bool := negb (Qle_bool p r).

Definition Sam_step (Sam_bits Sam_bases : list Z) (qc : QuantumCircuit) (i : nat)
  : res QuantumCircuit :=
  bit ← getitem Sam_bits i;
  basis ← getitem Sam_bases i;
  if basis =? 0 then
    if bit =? 1 then Ok (append qc (x i)) else Ok qc
  else
    if bit =? 0 then Ok (append qc (h i))
    else Ok (append (append qc (h i)) (z i)).

Definition Sam_transmission_multi_qubit (Sam_bits Sam_bases : list Z)
  : res (list QuantumCircuit) :=
  let num_bits := length Sam_bits in
  let num_qubits := num_bits in
  qc ← for_range num_qubits (Sam_step Sam_bits Sam_bases)
          (new num_qubits num_qubits);
  Ok ([] ++ [qc]).

Definition Ron_step (Ron_bases : list Z) (qc : QuantumCircuit) (i : nat)
  : res QuantumCircuit :=
  basis ← getitem Ron_bases i;
  let qc := if basis =? 1 then append qc (h i) else qc in
  Ok (append qc (measure i i)).

(** Lines 67-72: one draw per measured bit. *)
Fixpoint noise_loop (measured_bits : list Z) (noise_probability : Q)
  (noisy_results : list Z) (g : rng) : list Z * rng :=
  match measured_bits with
  | [] => (noisy_results, g)
  | bit :: rest =>
      let (r, g') := random g in
      if Qltb r noise_probability
      then noise_loop rest noise_probability (noisy_results ++ [1 - bit]) g'
      else noise_loop rest noise_probability (noisy_results ++ [bit]) g'
  end.

(** [[int(bit) for bit in reversed(measured_str)]] *)
Fixpoint ints_of_chars (cs : list ascii) : res (list Z) :=
  match cs with
  | [] => Ok []
  | c :: rest =>
      v ← int_of_char c;
      vs ← ints_of_chars rest;
      Ok (v :: vs)
  end.

Section Backend.
(** One shot of the simulator on a circuit: the key of [get_counts]. *)
Variable simulator : QuantumCircuit -> string.

Definition Ron_measure (transmitted_circuits : list QuantumCircuit)
  (Ron_bases : list Z) : res (list Z) :=
  qc ← getitem transmitted_circuits 0;
  let num_qubits := num_qubits qc in
  qc ← for_range num_qubits (Ron_step Ron_bases) qc;
  let measured_str := simulator qc in
  ints_of_chars (rev (list_ascii_of_string measured_str)).

Definition Ron_measurement_multi_qubit_with_noise
  (transmitted_circuits : list QuantumCircuit) (Ron_bases : list Z)
  (noise_probability : Q) (g : rng) : res (list Z * rng) :=
  measured_bits ← Ron_measure transmitted_circuits Ron_bases;
  Ok (noise_loop measured_bits noise_probability [] g).
End Backend.

Definition reconcile_step (Sam_bases Ron_bases Sam_bits Ron_results : list Z)
  (keys : list Z * list Z) (i : nat) : res (list Z * list Z) :=
  let (shared_key_Sam, shared_key_Ron) := keys in
  sb ← getitem Sam_bases i;
  rb ← getitem Ron_bases i;
  if sb =? rb then
    b ← getitem Sam_bits i;
    r ← getitem Ron_results i;
    Ok (shared_key_Sam ++ [b], shared_key_Ron ++ [r])
  else Ok (shared_key_Sam, shared_key_Ron).

Definition basis_reconciliation (Sam_bases Ron_bases Sam_bits Ron_results : list Z)
  : res (list Z * list Z) :=
  for_range (length Sam_bases)
    (reconcile_step Sam_bases Ron_bases Sam_bits Ron_results) ([], []).

(** The main script from Sam's step on, for the bits and bases the prompts
    return and a given [noise_level] (the script fixes it to 0). *)
Definition main (simulator : QuantumCircuit -> string) (noise_level : Q)
  (Sam_bits Sam_bases Ron_bases : list Z) (g : rng)
  : res (list Z * list Z * rng) :=
  Sam_transmitted_circuits ← Sam_transmission_multi_qubit Sam_bits Sam_bases;
  measured ← Ron_measurement_multi_qubit_with_noise simulator
                Sam_transmitted_circuits Ron_bases noise_level g;
  let (Ron_measured_results, g') := measured : list Z * rng in
  keys ← basis_reconciliation Sam_bases Ron_bases Sam_bits Ron_measured_results;
  Ok (keys, g').

(** What the prompts [get_user_bits_multi] and [get_user_bases_multi] let
    through: [num_bits] values, each 0 or 1. *)
Definition binary (v : Z) : bool := (v =? 0) || (v =? 1).

Definition user_input_ok (num_bits : nat) (vs : list Z) : bool :=
  (length vs =? num_bits)%nat && forallb binary vs.

(** Reconciliation as the specification words it: the values at the
    positions where the two basis sequences agree, in index order. *)
Definition matching_positions (sender_bases receiver_bases : list Z) : list nat :=
  filter (fun i => sender_bases !! i = receiver_bases !! i)
    (seq 0 (length sender_bases)).

Definition pick (values : list Z) (positions : list nat) : list Z :=
  omap (fun i => values !! i) positions.

Definition reconcile_spec (sender_bases receiver_bases sender_values
  receiver_values : list Z) : list Z * list Z :=
  (pick sender_values (matching_positions sender_bases receiver_bases),
   pick receiver_values (matching_positions sender_bases receiver_bases)).

(** The noise step as the specification words it: outcome [k] is flipped
    when its own draw, the [k]-th from the cursor on, is below the
    probability. *)
Definition flipped_by (g : rng) (p : Q) (k : nat) (bit : Z) : Z :=
  if Qltb (tape g (cursor g + k)) p then 1 - bit else bit.

Definition advance (g : rng) (n : nat) : rng :=
  {| tape := tape g; cursor := cursor g + n |}.

Definition unit_draws (g : rng) : Prop :=
  forall k, (0 <= tape g k)%Q /\ (tape g k < 1)%Q.

(** What the two loops append to the circuit, and what the simulator makes
    of it: the gates of position [i], the state Sam leaves a qubit in, the
    state Ron measures, and the bits of the shot. *)

Definition Sam_gates (i : nat) (bit basis : Z) : list instruction :=
  if basis =? 0 then (if bit =? 1 then [x i] else [])
  else if bit =? 0 then [h i] else [h i; z i].

Fixpoint Sam_data (i : nat) (bits bases : list Z) : list instruction :=
  match bits, bases with
  | bit :: bits', basis :: bases' =>
      Sam_gates i bit basis ++ Sam_data (S i) bits' bases'
  | _, _ => []
  end.

Definition Ron_gates (i : nat) (basis : Z) : list instruction :=
  if basis =? 1 then [h i; measure i i] else [measure i i].

Fixpoint Ron_data (i : nat) (bases : list Z) : list instruction :=
  match bases with
  | basis :: bases' => Ron_gates i basis ++ Ron_data (S i) bases'
  | [] => []
  end.

Definition prepared (bit basis : Z) : ket :=
  if basis =? 0 then (if bit =? 1 then Ket1 else Ket0)
  else if bit =? 0 then KetPlus else KetMinus.

Definition rotated (basis : Z) (k : ket) : ket :=
  if basis =? 1 then apply_h k else k.

Fixpoint outcomes (kets : list ket) (bases : list Z) (cs : nat -> bool)
  (n : nat) : list bool :=
  match kets, bases with
  | k :: kets', basis :: bases' =>
      match rotated basis k with
      | Ket0 => false :: outcomes kets' bases' cs n
      | Ket1 => true :: outcomes kets' bases' cs n
      | _ => cs n :: outcomes kets' bases' cs (S n)
      end
  | _, _ => []
  end.

Definition Z_of_bool (b : bool) : Z := if b then 1 else 0.

End BB84.

(** ** b92.py *)

Module B92.
Import Py Qiskit.

(** [enumerate(xs)] *)
Definition enumerate {A : Type} (xs : list A) : list (nat * A) :=
  zip (seq 0 (length xs)) xs.

Definition encode_step (qc : QuantumCircuit) (entry : nat * (ascii * Z))
  : res QuantumCircuit :=
  let '(i, (bit, basis)) := entry in
  if basis =? 0 then
    if Ascii.eqb bit "1"
    then Raise (ValueError "Inconsistent input: bit '1' with basis '0' in B92")
    else Ok qc
  else if basis =? 1 then
    if Ascii.eqb bit "0"
    then Raise (ValueError "Inconsistent input: bit '0' with basis '1' in B92")
    else Ok (append qc (h i))
  else Raise (ValueError "Invalid Alice's basis. Must be 0 or 1 for B92.").

Definition encode_b92_with_alice_basis (alice_bits : list ascii)
  (alice_bases : list Z) : res QuantumCircuit :=
  for_each (enumerate (zip alice_bits alice_bases)) encode_step
    (new (length alice_bits) (length alice_bits)).

Definition measure_step (meas : QuantumCircuit) (entry : nat * Z)
  : res QuantumCircuit :=
  let (i, basis) := entry in
  if basis =? 0 then Ok (append meas (measure i i))
  else if basis =? 1 then Ok (append (append meas (h i)) (measure i i))
  else Raise (ValueError "Invalid measurement basis. Must be 0 or 1.").

(** The quantum channel: the circuits handed to the simulator so far. *)
Definition channel : Type := list QuantumCircuit.

Section Backend.
(** One shot of the simulator on a circuit: [get_memory(...)[0]]. *)
Variable simulator : QuantumCircuit -> string.

Definition measure_b92 (circuit : QuantumCircuit) (num_qubits : nat)
  (measurement_bases : list Z) (ch : channel) : res (string * channel) :=
  meas ← for_each (enumerate measurement_bases) measure_step
           (new num_qubits num_qubits);
  let combined_circuit := compose circuit meas in
  Ok (simulator combined_circuit, ch ++ [combined_circuit]).
End Backend.

Definition sent_state_step (alice_sent_states : list ascii) (basis : Z)
  : res (list ascii) :=
  if basis =? 0 then Ok (alice_sent_states ++ ["H"%char])
  else if basis =? 1 then Ok (alice_sent_states ++ ["+"%char])
  else Raise (ValueError "Invalid Alice's basis.").

(** Lines 117-129: Bob keeps only conclusive measurements. *)
Definition sift_step (alice_sent_states : list ascii)
  (bob_measurement_bases : list Z) (bob_measurements : string)
  (kept : list ascii * list nat) (i : nat) : res (list ascii * list nat) :=
  let (bob_received_bits, bob_conclusive_indices) := kept in
  alice_state ← getitem alice_sent_states i;
  bob_basis ← getitem bob_measurement_bases i;
  bob_result ← str_getitem bob_measurements i;
  if Ascii.eqb alice_state "H" && (bob_basis =? 1) && Ascii.eqb bob_result "1"
  then Ok (bob_received_bits ++ ["0"%char], bob_conclusive_indices ++ [i])
  else if Ascii.eqb alice_state "+" && (bob_basis =? 0) && Ascii.eqb bob_result "1"
  then Ok (bob_received_bits ++ ["1"%char], bob_conclusive_indices ++ [i])
  else Ok (bob_received_bits, bob_conclusive_indices).

Definition sift (num_bits : nat) (alice_sent_states : list ascii)
  (bob_measurement_bases : list Z) (bob_measurements : string)
  : res (list ascii * list nat) :=
  for_range num_bits
    (sift_step alice_sent_states bob_measurement_bases bob_measurements)
    ([], []).

(** [[alice_bits[i] for i in bob_conclusive_indices]] *)
Definition agreed_key (alice_bits : list ascii) (bob_conclusive_indices : list nat)
  : res (list ascii) :=
  for_each bob_conclusive_indices
    (fun key i => bit ← getitem alice_bits i; Ok (key ++ [bit])) [].

(** The protocol from the point where the prompts have returned
    [num_bits], [alice_bases], [alice_bits] and [bob_measurement_bases]. *)
Definition b92_protocol_user_input_bases_bits_bob
  (simulator : QuantumCircuit -> string) (num_bits : nat)
  (alice_bases : list Z) (alice_bits : list ascii)
  (bob_measurement_bases : list Z) (ch : channel)
  : res (string * string * channel) :=
  alice_sent_states ← for_each alice_bases sent_state_step [];
  match encode_b92_with_alice_basis alice_bits alice_bases with
  | Raise (ValueError e) => Ok (""%string, ""%string, ch)
  | Raise e => Raise e
  | Ok quantum_channel =>
      measured ← measure_b92 simulator quantum_channel num_bits
                   bob_measurement_bases ch;
      let (bob_measurements, ch') := measured : string * channel in
      kept ← sift num_bits alice_sent_states bob_measurement_bases
               bob_measurements;
      let (bob_received_bits, bob_conclusive_indices) :=
        kept : list ascii * list nat in
      agreed_alice_key ← agreed_key alice_bits bob_conclusive_indices;
      let final_key_alice := string_of_list_ascii agreed_alice_key in
      let final_key_bob := string_of_list_ascii bob_received_bits in
      Ok (final_key_alice, final_key_bob, ch')
  end.

(** What the prompts let through: [get_user_alice_bases] and
    [get_user_bob_bases] return [num_bits] integers, each 0 or 1;
    [get_user_alice_bits] returns [num_bits] characters, each '0' or '1'. *)
Definition bases_ok (num_bits : nat) (bases : list Z) : bool :=
  (length bases =? num_bits)%nat && forallb (fun b => (b =? 0) || (b =? 1)) bases.

Definition bits_ok (num_bits : nat) (bits : list ascii) : bool :=
  (length bits =? num_bits)%nat
  && forallb (fun c => Ascii.eqb c "0" || Ascii.eqb c "1") bits.

(** The two conclusive patterns of the specification, with the key bit
    each one yields; every other combination yields none. *)
Definition key_bit (state : ascii) (basis : Z) (outcome : ascii) : option ascii :=
  if decide ((state, basis, outcome) = ("H"%char, 1, "1"%char)) then Some "0"%char
  else if decide ((state, basis, outcome) = ("+"%char, 0, "1"%char)) then Some "1"%char
  else None.

Definition key_bit_at (states : list ascii) (bases : list Z) (outcomes : string)
  (i : nat) : option ascii :=
  state ← states !! i;
  basis ← bases !! i;
  outcome ← String.get i outcomes;
  key_bit state basis outcome.

Definition conclusive_positions (num_bits : nat) (states : list ascii)
  (bases : list Z) (outcomes : string) : list nat :=
  filter (fun i => is_Some (key_bit_at states bases outcomes i)) (seq 0 num_bits).

Definition receiver_bits (num_bits : nat) (states : list ascii)
  (bases : list Z) (outcomes : string) : list ascii :=
  omap (key_bit_at states bases outcomes) (seq 0 num_bits).

(** The pairing rule of the specification: bit '1' does not pair with basis
    0 and bit '0' does not pair with basis 1. *)
Definition violates (bit : ascii) (basis : Z) : bool :=
  (Ascii.eqb bit "1" && (basis =? 0)) || (Ascii.eqb bit "0" && (basis =? 1)).

(** The first position that violates the pairing rule, if there is one. *)
Fixpoint first_violation (bits : list ascii) (bases : list Z) : option nat :=
  match bits, bases with
  | bit :: bits', basis :: bases' =>
      if violates bit basis then Some 0%nat
      else S <$> first_violation bits' bases'
  | _, _ => None
  end.

(** The message of the error raised for a violating bit. *)
Definition violation_message (bit : ascii) : string :=
  if Ascii.eqb bit "1"
  then "Inconsistent input: bit '1' with basis '0' in B92"%string
  else "Inconsistent input: bit '0' with basis '1' in B92"%string.

(** Every basis is 0 or 1. *)
Definition binary_bases (bases : list Z) : Prop :=
  forall i basis, bases !! i = Some basis -> basis = 0 \/ basis = 1.

(** The state label the protocol records for a basis. *)
Definition state_of_basis (basis : Z) : ascii :=
  if basis =? 0 then "H"%char else "+"%char.

(** The qubit an instruction acts on, and the preparation of qubit [i]: the
    instructions of the circuit that act on it. *)
Definition target (ins : instruction) : nat :=
  match ins with
  | x q | h q | z q | measure q _ => q
  end.

Definition preparation (qc : QuantumCircuit) (i : nat) : list instruction :=
  filter (fun ins => target ins = i) (data qc).

(** The loop of [encode_b92_with_alice_basis] by recursion on the two
    lists, from position [i] on: the gates appended, or the error. *)
Fixpoint encode_trace (i : nat) (bits : list ascii) (bases : list Z)
  : res (list instruction) :=
  match bits, bases with
  | bit :: bits', basis :: bases' =>
      if basis =? 0 then
        if Ascii.eqb bit "1"
        then Raise (ValueError "Inconsistent input: bit '1' with basis '0' in B92")
        else encode_trace (S i) bits' bases'
      else if basis =? 1 then
        if Ascii.eqb bit "0"
        then Raise (ValueError "Inconsistent input: bit '0' with basis '1' in B92")
        else gates ← encode_trace (S i) bits' bases'; Ok (h i :: gates)
      else Raise (ValueError "Invalid Alice's basis. Must be 0 or 1 for B92.")
  | _, _ => Ok []
  end.

(** The Hadamard gates of the basis-1 positions, from position [i] on. *)
Fixpoint h_gates (i : nat) (bases : list Z) : list instruction :=
  match bases with
  | basis :: bases' => (if basis =? 1 then [h i] else []) ++ h_gates (S i) bases'
  | [] => []
  end.

End B92.

(** ** e91.py *)

Module E91.
Import Py.

(** One Bell test sample: ((alice_basis_idx, alice_result),
    (bob_basis_idx, bob_result)). *)
Definition sample : Type := (Z * string) * (Z * string).

(** [float(v)] for an integer below 2^53 in absolute value. *)
Definition float_of_Z (v : Z) : float :=
  match v with
  | Z0 => PrimFloat.zero
  | Zpos _ => PrimFloat.of_uint63 (Uint63.of_Z v)
  | Zneg _ => PrimFloat.opp (PrimFloat.of_uint63 (Uint63.of_Z (- v)))
  end.

(** [np.mean] of a list of ints, each 1 or -1: the sum is accumulated in
    double precision, where it is exact, and divided by the count. *)
Definition np_mean (values : list Z) : float :=
  PrimFloat.div (float_of_Z (foldr Z.add 0 values))
                (float_of_Z (Z.of_nat (length values))).

Definition np_sqrt (v : float) : float := PrimFloat.sqrt v.

Definition in_chsh_set (alice_basis_idx bob_basis_idx : Z) : bool :=
  ((alice_basis_idx =? 0) && (bob_basis_idx =? 1))
  || ((alice_basis_idx =? 0) && (bob_basis_idx =? 2))
  || ((alice_basis_idx =? 1) && (bob_basis_idx =? 2))
  || ((alice_basis_idx =? 1) && (bob_basis_idx =? 0))
  || ((alice_basis_idx =? 2) && (bob_basis_idx =? 0))
  || ((alice_basis_idx =? 2) && (bob_basis_idx =? 1)).

Fixpoint collect (bell_data : list sample) (correlations : list Z) : list Z :=
  match bell_data with
  | [] => correlations
  | ((alice_basis_idx, alice_result), (bob_basis_idx, bob_result)) :: rest =>
      let a_val := if String.eqb alice_result "0" then 1 else -1 in
      let b_val := if String.eqb bob_result "0" then 1 else -1 in
      if in_chsh_set alice_basis_idx bob_basis_idx
      then collect rest (correlations ++ [a_val * b_val])
      else collect rest correlations
  end.

Definition evaluate_bell_statistic (bell_data : list sample) : float :=
  let correlations := collect bell_data [] in
  match correlations with
  | _ :: _ => PrimFloat.mul (np_mean correlations) (np_sqrt (float_of_Z 2))
  | [] => float_of_Z 0
  end.

(** The state of [random]: the draws [random.randint(0, 1)] will return
    and how many were taken. *)
Record rng : Type := { tape : nat -> Z; cursor : nat }.

Definition randint01 (g : rng) : Z * rng :=
  (tape g (cursor g), {| tape := tape g; cursor := S (cursor g) |}).

(** [[random.randint(0, 1) for _ in range(n)]] *)
Fixpoint draw_key (n : nat) (key : list Z) (g : rng) : list Z * rng :=
  match n with
  | O => (key, g)
  | S n' => let (b, g') := randint01 g in draw_key n' (key ++ [b]) g'
  end.

Definition bell_violation_threshold : float := 2%float.

(** [abs(bell_statistic) > bell_violation_threshold] *)
Definition violated (bell_test_data : list sample) : bool :=
  PrimFloat.ltb bell_violation_threshold
    (PrimFloat.abs (evaluate_bell_statistic bell_test_data)).

(** The protocol from the point where [get_bell_test_input_from_user] has
    returned [bell_test_data]. *)
Definition e91_protocol_qiskit_user_input (bell_test_data : list sample)
  (g : rng) : list Z * list Z * rng :=
  match bell_test_data with
  | [] => ([], [], g)
  | _ :: _ =>
      if violated bell_test_data then
        let (hypothetical_key, g') :=
          draw_key (length bell_test_data / 2) [] g in
        (hypothetical_key, hypothetical_key, g')
      else ([], [], g)
  end.

(** The estimator as the specification words it: outcome '0' maps to +1
    and '1' to -1; the correlated set holds the ordered pairs of basis
    indices among 0, 1 and 2 except (0,0), (1,1) and (2,2); the statistic is
    the mean of the products of the samples in the set, times the square
    root of 2, and 0 when there is none. *)
Definition mapped (outcome : string) : Z :=
  if String.eqb outcome "0" then 1 else -1.

Definition basis_index (v : Z) : bool := (v =? 0) || (v =? 1) || (v =? 2).

Definition off_diagonal (s : sample) : bool :=
  let '((a, _), (b, _)) := s in
  basis_index a && basis_index b && negb (a =? b).

Definition product (s : sample) : Z :=
  let '((_, alice_result), (_, bob_result)) := s in
  mapped alice_result * mapped bob_result.

Definition contributions (samples : list sample) : list Z :=
  map product (List.filter off_diagonal samples).

Definition statistic_spec (samples : list sample) : float :=
  match contributions samples with
  | [] => PrimFloat.zero
  | _ :: _ => PrimFloat.mul (np_mean (contributions samples)) (PrimFloat.sqrt 2)
  end.

(** The next [n] draws of [random.randint(0, 1)] and the state after them. *)
Definition drawn (g : rng) (n : nat) : list Z :=
  map (fun k => tape g (cursor g + k)%nat) (seq 0 n).

Definition advance (g : rng) (n : nat) : rng :=
  {| tape := tape g; cursor := cursor g + n |}.

End E91.

(** ** Standard input

    The prompt loops read lines with [input()].  Standard input is the list
    of the lines still to come; [input()] takes the first one and raises
    [EOFError] when there is none.  What a prompt prints is not modelled. *)

Module Console.

Inductive outcome (A : Type) : Type :=
| Got (v : A) (rest : list string)
| EOFError
| Raised (e : Py.exn).

Arguments Got {A} v rest.
Arguments EOFError {A}.
Arguments Raised {A} e.

Definition io (A : Type) : Type := list string -> outcome A.

Definition bind {A B : Type} (m : io A) (k : A -> io B) : io B :=
  fun stdin =>
    match m stdin with
    | Got v rest => k v rest
    | EOFError => EOFError
    | Raised e => Raised e
    end.

Definition ret {A : Type} (v : A) : io A := fun stdin => Got v stdin.

(** A computation that reads nothing. *)
Definition lift {A : Type} (r : Py.res A) : io A :=
  fun stdin =>
    match r with
    | Py.Ok v => Got v stdin
    | Py.Raise e => Raised e
    end.

End Console.

Notation "'let*' x ':=' m 'in' k" := (Console.bind m (fun x => k))
  (at level 10, x name, m at level 100, k at level 200, only parsing).

(** ** bb84.py: the prompts and the script *)

Module BB84_script.
Import Py Qiskit Console.

(** [c in '01'] for one character [c]. *)
Definition in_01 (c : ascii) : bool := Ascii.eqb c "0" || Ascii.eqb c "1".

Fixpoint get_user_bits_multi (num_bits : nat) (stdin : list string)
  : outcome (list Z) :=
  match stdin with
  | [] => EOFError
  | bits_str :: rest =>
      if (String.length bits_str =? num_bits)%nat
         && forallb in_01 (list_ascii_of_string bits_str)
      then match BB84.ints_of_chars (list_ascii_of_string bits_str) with
           | Ok bits => Got bits rest
           | Raise e => Raised e
           end
      else get_user_bits_multi num_bits rest
  end.

Fixpoint get_user_bases_multi (num_bits : nat) (stdin : list string)
  : outcome (list Z) :=
  match stdin with
  | [] => EOFError
  | bases_str :: rest =>
      if (String.length bases_str =? num_bits)%nat
         && forallb in_01 (list_ascii_of_string bases_str)
      then match BB84.ints_of_chars (list_ascii_of_string bases_str) with
           | Ok bases => Got bases rest
           | Raise e => Raised e
           end
      else get_user_bases_multi num_bits rest
  end.

Definition num_bits : nat := 29.
Definition noise_level : Q := 0.

(** A line the two prompts accept, and the list they return for it. *)
Definition acceptable (num_bits : nat) (line : string) : Prop :=
  String.length line = num_bits
  /\ forall c, In c (list_ascii_of_string line) -> c = "0"%char \/ c = "1"%char.

Definition digits (line : string) : list Z :=
  map (fun c => if Ascii.eqb c "1" then 1 else 0) (list_ascii_of_string line).

(** Lines 86-119.  The result: the two shared keys, whether the script
    prints "Shared keys match!", and the state of [random]. *)
Definition script (simulator : QuantumCircuit -> string) (g : BB84.rng)
  : io (list Z * list Z * bool * BB84.rng) :=
  let* Sam_bits := get_user_bits_multi num_bits in
  let* Sam_bases := get_user_bases_multi num_bits in
  let* Sam_transmitted_circuits :=
    lift (BB84.Sam_transmission_multi_qubit Sam_bits Sam_bases) in
  let* Ron_bases := get_user_bases_multi num_bits in
  let* measured :=
    lift (BB84.Ron_measurement_multi_qubit_with_noise simulator
            Sam_transmitted_circuits Ron_bases noise_level g) in
  let* keys :=
    lift (BB84.basis_reconciliation Sam_bases Ron_bases Sam_bits (fst measured)) in
  ret (fst keys, snd keys, bool_decide (fst keys = snd keys), snd measured).

End BB84_script.

(** ** b92.py: the prompts and the script *)

Module B92_script.
Import Py Qiskit Console.

Definition in_01 (c : ascii) : bool := Ascii.eqb c "0" || Ascii.eqb c "1".

Section Prompts.
(** [s.strip()] and [int(s)], the latter [None] when it raises
    [ValueError]; both belong to Python and are taken as given. *)
Variable strip : string -> string.
Variable py_int : string -> option Z.

Fixpoint get_user_alice_bases (num_bits : nat) (stdin : list string)
  : outcome (list Z) :=
  match stdin with
  | [] => EOFError
  | line :: rest =>
      let bases_str := strip line in
      if (String.length bases_str =? num_bits)%nat
         && forallb in_01 (list_ascii_of_string bases_str)
      then match BB84.ints_of_chars (list_ascii_of_string bases_str) with
           | Ok bases => Got bases rest
           | Raise e => Raised e
           end
      else get_user_alice_bases num_bits rest
  end.

Fixpoint get_user_alice_bits (num_bits : nat) (stdin : list string)
  : outcome (list ascii) :=
  match stdin with
  | [] => EOFError
  | line :: rest =>
      let bits_str := strip line in
      if (String.length bits_str =? num_bits)%nat
         && forallb in_01 (list_ascii_of_string bits_str)
      then Got (list_ascii_of_string bits_str) rest
      else get_user_alice_bits num_bits rest
  end.

Fixpoint get_user_bob_bases (num_bits : nat) (stdin : list string)
  : outcome (list Z) :=
  match stdin with
  | [] => EOFError
  | line :: rest =>
      let bases_str := strip line in
      if (String.length bases_str =? num_bits)%nat
         && forallb in_01 (list_ascii_of_string bases_str)
      then match BB84.ints_of_chars (list_ascii_of_string bases_str) with
           | Ok bases => Got bases rest
           | Raise e => Raised e
           end
      else get_user_bob_bases num_bits rest
  end.

(** Lines 74-82: the number of transmissions. *)
Fixpoint read_num_bits (stdin : list string) : outcome Z :=
  match stdin with
  | [] => EOFError
  | line :: rest =>
      match py_int line with
      | Some num_bits =>
          if 0 <? num_bits then Got num_bits rest else read_num_bits rest
      | None => read_num_bits rest
      end
  end.

(** [b92_protocol_user_input_bases_bits_bob()] with its prompts. *)
Definition protocol (simulator : QuantumCircuit -> string) (ch : B92.channel)
  : io (string * string * B92.channel) :=
  let* n := read_num_bits in
  let num_bits := Z.to_nat n in
  let* alice_bases := get_user_alice_bases num_bits in
  let* alice_bits := get_user_alice_bits num_bits in
  let* bob_measurement_bases := get_user_bob_bases num_bits in
  lift (B92.b92_protocol_user_input_bases_bits_bob simulator num_bits
          alice_bases alice_bits bob_measurement_bases ch).
End Prompts.

Inductive verdict : Type := Successful | Failed | PotentialErrors.

(** Lines 150-155: which of the three closing messages is printed. *)
Definition closing_message (alice_final_key bob_final_key : string) : verdict :=
  if bool_decide (alice_final_key = bob_final_key)
     && negb (bool_decide (alice_final_key = ""%string))
  then Successful
  else if bool_decide (alice_final_key = ""%string) then Failed
  else PotentialErrors.

(** The gates [measure_b92] puts on the measuring circuit, from position
    [i] on, and the state the encoding leaves a qubit in. *)
Fixpoint measure_data (i : nat) (bases : list Z) : list instruction :=
  match bases with
  | basis :: bases' =>
      (if basis =? 1 then [h i; measure i i] else [measure i i])
      ++ measure_data (S i) bases'
  | [] => []
  end.

Definition sent_ket (basis : Z) : ket :=
  if basis =? 1 then KetPlus else Ket0.

End B92_script.

(** ** e91.py: the prompts, the script and the Bell pairs *)

Module E91_script.
Import Py Console.

Section Prompts.
(** [int(s)], [None] when it raises [ValueError]. *)
Variable py_int : string -> option Z.

(** [v in [0, 1, 2]] and [s in ['0', '1']]. *)
Definition basis_index_ok (v : Z) : bool := (v =? 0) || (v =? 1) || (v =? 2).
Definition result_ok (s : string) : bool := String.eqb s "0" || String.eqb s "1".

(** Lines 91-116: the loop that asks for one pair until the four answers
    are all valid.  An answer that is refused sends the loop back to its
    first question. *)
Fixpoint read_pair (stdin : list string) : outcome E91.sample :=
  match stdin with
  | [] => EOFError
  | line1 :: rest1 =>
      match py_int line1 with
      | None => read_pair rest1
      | Some alice_basis_idx =>
          if negb (basis_index_ok alice_basis_idx) then read_pair rest1
          else
            match rest1 with
            | [] => EOFError
            | alice_result :: rest2 =>
                if negb (result_ok alice_result) then read_pair rest2
                else
                  match rest2 with
                  | [] => EOFError
                  | line3 :: rest3 =>
                      match py_int line3 with
                      | None => read_pair rest3
                      | Some bob_basis_idx =>
                          if negb (basis_index_ok bob_basis_idx) then read_pair rest3
                          else
                            match rest3 with
                            | [] => EOFError
                            | bob_result :: rest4 =>
                                if negb (result_ok bob_result) then read_pair rest4
                                else Got ((alice_basis_idx, alice_result),
                                          (bob_basis_idx, bob_result)) rest4
                            end
                      end
                  end
            end
      end
  end.

Fixpoint pairs_loop (num_pairs : nat) (bell_data : list E91.sample)
  (stdin : list string) : outcome (list E91.sample) :=
  match num_pairs with
  | O => Got bell_data stdin
  | S n =>
      match read_pair stdin with
      | Got s rest => pairs_loop n (bell_data ++ [s]) rest
      | EOFError => EOFError
      | Raised e => Raised e
      end
  end.

Definition get_bell_test_input_from_user (num_pairs : nat)
  : io (list E91.sample) :=
  pairs_loop num_pairs [].

(** Lines 121-129: the number of pairs. *)
Fixpoint read_num_pairs (stdin : list string) : outcome Z :=
  match stdin with
  | [] => EOFError
  | line :: rest =>
      match py_int line with
      | Some num_pairs =>
          if num_pairs <=? 0 then read_num_pairs rest else Got num_pairs rest
      | None => read_num_pairs rest
      end
  end.

(** [e91_protocol_qiskit_user_input()] with its prompts. *)
Definition protocol (g : E91.rng) : io (list Z * list Z * E91.rng) :=
  let* n := read_num_pairs in
  let* bell_test_data := get_bell_test_input_from_user (Z.to_nat n) in
  ret (E91.e91_protocol_qiskit_user_input bell_test_data g).
End Prompts.

(** A sample the prompts accept: basis indices among 0, 1 and 2, results
    '0' or '1'. *)
Definition sample_ok (s : E91.sample) : bool :=
  let '((alice_basis_idx, alice_result), (bob_basis_idx, bob_result)) := s in
  basis_index_ok alice_basis_idx && result_ok alice_result
  && basis_index_ok bob_basis_idx && result_ok bob_result.

(** Lines 155-161: whether the script reports a successful exchange. *)
Definition reports_success (alice_key bob_key : list Z) : bool :=
  negb (bool_decide (alice_key = [])) && negb (bool_decide (bob_key = []))
  && (length alice_key =? length bob_key)%nat.

End E91_script.

Module Bell.

Inductive gate : Type :=
| h (q : nat)
| cx (control target : nat)
| z (q : nat)
| x (q : nat).

Record QuantumCircuit : Type := {
  num_qubits : nat;
  num_clbits : nat;
  data : list gate
}.

Definition append (qc : QuantumCircuit) (g : gate) : QuantumCircuit :=
  {| num_qubits := num_qubits qc; num_clbits := num_clbits qc;
     data := data qc ++ [g] |}.

Definition create_bell_pair (state : string) : QuantumCircuit :=
  let qc := {| num_qubits := 2; num_clbits := 2; data := [] |} in
  if String.eqb state "phi_plus" then
    append (append qc (h 0)) (cx 0 1)
  else if String.eqb state "phi_minus" then
    append (append (append qc (h 0)) (cx 0 1)) (z 1)
  else if String.eqb state "psi_plus" then
    append (append (append qc (h 0)) (cx 0 1)) (x 1)
  else if String.eqb state "psi_minus" then
    append (append (append (append qc (h 0)) (cx 0 1)) (z 0)) (x 1)
  else qc.

(** The state of two qubits: the amplitude of each basis state, written
    [a_q0q1], times the square root of 2 to the power [halvings]. *)
Record amplitudes : Type := {
  a_00 : Z; a_10 : Z; a_01 : Z; a_11 : Z;
  halvings : nat
}.

Definition ground : amplitudes :=
  {| a_00 := 1; a_10 := 0; a_01 := 0; a_11 := 0; halvings := 0 |}.

Definition apply (s : amplitudes) (g : gate) : amplitudes :=
  match g with
  | h 0 => {| a_00 := a_00 s + a_10 s; a_10 := a_00 s - a_10 s;
              a_01 := a_01 s + a_11 s; a_11 := a_01 s - a_11 s;
              halvings := S (halvings s) |}
  | h 1 => {| a_00 := a_00 s + a_01 s; a_01 := a_00 s - a_01 s;
              a_10 := a_10 s + a_11 s; a_11 := a_10 s - a_11 s;
              halvings := S (halvings s) |}
  | x 0 => {| a_00 := a_10 s; a_10 := a_00 s; a_01 := a_11 s; a_11 := a_01 s;
              halvings := halvings s |}
  | x 1 => {| a_00 := a_01 s; a_01 := a_00 s; a_10 := a_11 s; a_11 := a_10 s;
              halvings := halvings s |}
  | z 0 => {| a_00 := a_00 s; a_10 := - a_10 s; a_01 := a_01 s; a_11 := - a_11 s;
              halvings := halvings s |}
  | z 1 => {| a_00 := a_00 s; a_10 := a_10 s; a_01 := - a_01 s; a_11 := - a_11 s;
              halvings := halvings s |}
  | cx 0 1 => {| a_00 := a_00 s; a_10 := a_11 s; a_01 := a_01 s; a_11 := a_10 s;
                 halvings := halvings s |}
  | cx 1 0 => {| a_00 := a_00 s; a_10 := a_10 s; a_01 := a_11 s; a_11 := a_01 s;
                 halvings := halvings s |}
  | _ => s
  end.

Definition state_of (qc : QuantumCircuit) : amplitudes :=
  fold_left apply (data qc) ground.

End Bell.

(* ===================================================================== *)
(** * Part II: properties                                                 *)
(* ===================================================================== *)

(** ** Python loops and lookups *)

Section PyFacts.
Import Py.

Lemma getitem_Some {A : Type} (l : list A) (i : nat) (v : A) :
  l !! i = Some v -> getitem l i = Ok v.
Proof. unfold getitem. intros ->. reflexivity. Qed.

Lemma getitem_lt {A : Type} (l : list A) (i : nat) :
  (i < length l)%nat -> exists v, l !! i = Some v /\ getitem l i = Ok v.
Proof.
  intros Hi. destruct (lookup_lt_is_Some_2 l i Hi) as [v Hv].
  exists v. split; [exact Hv | now apply getitem_Some].
Qed.

Lemma getitem_ge {A : Type} (l : list A) (i : nat) :
  (length l <= i)%nat ->
  getitem l i = Raise (IndexError "list index out of range").
Proof.
  intros Hi. unfold getitem. now rewrite (lookup_ge_None_2 l i Hi).
Qed.

Lemma for_each_app {A S : Type} (xs ys : list A) (body : S -> A -> res S) (s : S) :
  for_each (xs ++ ys) body s = Py.bind (for_each xs body s) (for_each ys body).
Proof.
  revert s. induction xs as [|v xs IH]; intros s; simpl; [reflexivity|].
  destruct (body s v) as [s'|e]; simpl; [apply IH | reflexivity].
Qed.

Lemma bind_Ok {A B : Type} (a : A) (k : A -> res B) : (Ok a ≫= k) = k a.
Proof. reflexivity. Qed.

Lemma bind_Raise {A B : Type} (e : exn) (k : A -> res B) :
  (Raise e ≫= k) = Raise e.
Proof. reflexivity. Qed.
End PyFacts.

(** ** bb84.py: reconciliation *)

Section Reconciliation.
Import Py BB84.

Variables Sam_bases Ron_bases Sam_bits Ron_results : list Z.

Local Abbreviation step := (reconcile_step Sam_bases Ron_bases Sam_bits Ron_results).
Local Abbreviation agree := (fun i : nat => Sam_bases !! i = Ron_bases !! i).

Lemma reconcile_step_in_range (ks kr : list Z) (i : nat) :
  (i < length Sam_bases)%nat -> (i < length Ron_bases)%nat ->
  (i < length Sam_bits)%nat -> (i < length Ron_results)%nat ->
  step (ks, kr) i = Ok (ks ++ pick Sam_bits (filter agree [i]),
                        kr ++ pick Ron_results (filter agree [i])).
Proof.
  intros H1 H2 H3 H4. unfold reconcile_step.
  destruct (getitem_lt _ _ H1) as (sb & Hsb & ->).
  destruct (getitem_lt _ _ H2) as (rb & Hrb & ->).
  destruct (getitem_lt _ _ H3) as (b & Hb & Eb).
  destruct (getitem_lt _ _ H4) as (r & Hr & Er).
  rewrite !bind_Ok.
  destruct (Z.eqb_spec sb rb) as [->|Hne].
  - rewrite Eb, Er, !bind_Ok.
    rewrite filter_cons_True by congruence.
    unfold pick. simpl. now rewrite Hb, Hr.
  - rewrite filter_cons_False by congruence.
    unfold pick. simpl. now rewrite !app_nil_r.
Qed.

Lemma pick_app (vs : list Z) (ps qs : list nat) :
  pick vs (ps ++ qs) = pick vs ps ++ pick vs qs.
Proof. unfold pick. apply omap_app. Qed.

Lemma reconcile_loop (k : nat) : forall (a : nat) (ks kr : list Z),
  (a + k <= length Sam_bases)%nat -> (a + k <= length Ron_bases)%nat ->
  (a + k <= length Sam_bits)%nat -> (a + k <= length Ron_results)%nat ->
  for_each (seq a k) step (ks, kr)
  = Ok (ks ++ pick Sam_bits (filter agree (seq a k)),
        kr ++ pick Ron_results (filter agree (seq a k))).
Proof.
  induction k as [|k IH]; intros a ks kr H1 H2 H3 H4.
  - simpl. now rewrite !app_nil_r.
  - cbn [seq for_each].
    rewrite reconcile_step_in_range by lia. cbn [Py.bind].
    rewrite IH by lia.
    change (a :: seq (S a) k) with ([a] ++ seq (S a) k).
    now rewrite filter_app, !pick_app, !app_assoc.
Qed.

Lemma pick_length (vs : list Z) (ps : list nat) :
  Forall (fun i => (i < length vs)%nat) ps -> length (pick vs ps) = length ps.
Proof.
  induction 1 as [|i ps Hi _ IH]; [reflexivity|].
  unfold pick in *. cbn [omap list_omap].
  destruct (lookup_lt_is_Some_2 vs i Hi) as [v ->]. cbn [length]. now rewrite IH.
Qed.

Lemma matching_positions_lt :
  Forall (fun i => (i < length Sam_bases)%nat) (matching_positions Sam_bases Ron_bases).
Proof.
  unfold matching_positions. apply list.Forall_forall. intros i Hi.
  apply list_elem_of_filter in Hi. destruct Hi as [_ Hi].
  apply elem_of_seq in Hi. lia.
Qed.

Lemma reconcile_step_raises (keys : list Z * list Z) (i : nat) (e : exn) :
  step keys i = Raise e -> e = IndexError "list index out of range".
Proof.
  unfold reconcile_step, getitem. destruct keys as [ks kr].
  destruct (Sam_bases !! i); simpl; [|congruence].
  destruct (Ron_bases !! i); simpl; [|congruence].
  destruct (_ =? _); [|congruence].
  destruct (Sam_bits !! i); simpl; [|congruence].
  destruct (Ron_results !! i); simpl; congruence.
Qed.

Lemma reconcile_loop_short (k : nat) : forall (a : nat) (keys : list Z * list Z),
  (a + k <= length Sam_bases)%nat ->
  (a <= length Ron_bases < a + k)%nat ->
  for_each (seq a k) step keys = Raise (IndexError "list index out of range").
Proof.
  induction k as [|k IH]; intros a keys H1 H2; [lia|].
  cbn [seq for_each]. destruct (step keys a) as [keys'|e] eqn:E.
  - cbn [Py.bind]. apply IH; [lia|]. split; [|lia].
    destruct (decide (length Ron_bases <= a)%nat) as [Hle|]; [|lia].
    exfalso. revert E. unfold reconcile_step. destruct keys.
    destruct (getitem_lt Sam_bases a) as (sb & _ & ->); [lia|].
    rewrite (getitem_ge Ron_bases a Hle). discriminate.
  - cbn [Py.bind]. f_equal. eapply reconcile_step_raises, E.
Qed.
End Reconciliation.

(** The scenario of the specification. *)
Example basis_reconciliation_scenario :
  BB84.basis_reconciliation [0;1;0;1] [0;0;0;1] [1;0;1;1] [1;1;1;1]
  = Py.Ok ([1;1;1], [1;1;1])
  /\ BB84.matching_positions [0;1;0;1] [0;0;0;1] = [0%nat; 2%nat; 3%nat].
Proof. split; reflexivity. Qed.

(** C2. For four sequences of equal length, [basis_reconciliation] returns
    the values of the sender and of the receiver at the positions where the
    two basis sequences agree, in index order; the two keys have the same
    length.  The result is a function of the four arguments alone. *)
Theorem basis_reconciliation_sifts (Sam_bases Ron_bases Sam_bits Ron_results : list Z) :
  length Ron_bases = length Sam_bases ->
  length Sam_bits = length Sam_bases ->
  length Ron_results = length Sam_bases ->
  BB84.basis_reconciliation Sam_bases Ron_bases Sam_bits Ron_results
  = Py.Ok (BB84.reconcile_spec Sam_bases Ron_bases Sam_bits Ron_results)
  /\ length (fst (BB84.reconcile_spec Sam_bases Ron_bases Sam_bits Ron_results))
     = length (snd (BB84.reconcile_spec Sam_bases Ron_bases Sam_bits Ron_results)).
Proof.
  intros H1 H2 H3. split.
  - unfold BB84.basis_reconciliation, Py.for_range.
    rewrite reconcile_loop by lia. reflexivity.
  - unfold BB84.reconcile_spec. cbn [fst snd].
    rewrite !pick_length; [reflexivity| |].
    + rewrite H3. apply matching_positions_lt.
    + rewrite H2. apply matching_positions_lt.
Qed.

Lemma basis_reconciliation_sifts_witness :
  length [0;0;0;1] = length [0;1;0;1]
  /\ BB84.basis_reconciliation [0;1;0;1] [0;0;0;1] [1;0;1;1] [1;1;1;1]
     = Py.Ok ([1;1;1], [1;1;1]).
Proof.
  split; [reflexivity|].
  exact (proj1 (basis_reconciliation_sifts [0;1;0;1] [0;0;0;1] [1;0;1;1] [1;1;1;1]
                  eq_refl eq_refl eq_refl)).
Defined.

(** C6, the claim fails: the four sequences differ in length and the call
    returns a result. *)
Lemma basis_reconciliation_accepts_misaligned :
  ~ (length [0; 1] = length [0] /\ length [1; 0] = length [0]
     /\ length [1; 1] = length [0])
  /\ BB84.basis_reconciliation [0] [0; 1] [1; 0] [1; 1] = Py.Ok ([1], [1]).
Proof. split; [intros (H & _); discriminate H | reflexivity]. Qed.

(** C6, as the code has it.  [basis_reconciliation] makes no length check.
    It visits the positions of [Sam_bases]: when the other three sequences
    are at least that long it returns the sifted keys of those positions and
    ignores what lies beyond; when [Ron_bases] is shorter it stops with
    Python's [IndexError]. *)
Theorem basis_reconciliation_unchecked_lengths
  (Sam_bases Ron_bases Sam_bits Ron_results : list Z) :
  ((length Sam_bases <= length Ron_bases)%nat ->
   (length Sam_bases <= length Sam_bits)%nat ->
   (length Sam_bases <= length Ron_results)%nat ->
   BB84.basis_reconciliation Sam_bases Ron_bases Sam_bits Ron_results
   = Py.Ok (BB84.reconcile_spec Sam_bases Ron_bases Sam_bits Ron_results))
  /\ ((length Ron_bases < length Sam_bases)%nat ->
      BB84.basis_reconciliation Sam_bases Ron_bases Sam_bits Ron_results
      = Py.Raise (Py.IndexError "list index out of range")).
Proof.
  split.
  - intros H1 H2 H3. unfold BB84.basis_reconciliation, Py.for_range.
    rewrite reconcile_loop by lia. reflexivity.
  - intros H. unfold BB84.basis_reconciliation, Py.for_range.
    apply reconcile_loop_short; lia.
Qed.

Lemma basis_reconciliation_unchecked_lengths_witness :
  BB84.basis_reconciliation [0; 1] [0; 1; 1] [1; 0; 0] [1; 1] = Py.Ok ([1; 0], [1; 1])
  /\ BB84.basis_reconciliation [0; 1] [0] [1; 0] [1; 1]
     = Py.Raise (Py.IndexError "list index out of range").
Proof.
  split.
  - apply (proj1 (basis_reconciliation_unchecked_lengths
                    [0; 1] [0; 1; 1] [1; 0; 0] [1; 1])); simpl; lia.
  - apply (proj2 (basis_reconciliation_unchecked_lengths
                    [0; 1] [0] [1; 0] [1; 1])); simpl; lia.
Defined.

Section Noise.
Import Py BB84.

Lemma noise_loop_spec (p : Q) (measured_bits : list Z) :
  forall (noisy_results : list Z) (g : rng),
  noise_loop measured_bits p noisy_results g
  = (noisy_results ++ imap (flipped_by g p) measured_bits,
     advance g (length measured_bits)).
Proof.
  induction measured_bits as [|bit rest IH]; intros acc g.
  - cbn. rewrite app_nil_r. destruct g as [t c]. unfold advance. cbn.
    now rewrite Nat.add_0_r.
  - cbn [noise_loop random imap length].
    assert (Hadv : advance {| tape := tape g; cursor := S (cursor g) |} (length rest)
                   = advance g (S (length rest))).
    { unfold advance. cbn. f_equal. lia. }
    assert (Himap : imap (flipped_by {| tape := tape g; cursor := S (cursor g) |} p) rest
                    = imap (flipped_by g p ∘ S) rest).
    { apply imap_ext. intros k v _. unfold flipped_by. cbn.
      now replace (S (cursor g + k)) with (cursor g + S k)%nat by lia. }
    unfold flipped_by at 1. rewrite Nat.add_0_r.
    destruct (Qltb (tape g (cursor g)) p);
      rewrite IH, Hadv, Himap, <- app_assoc; reflexivity.
Qed.

Lemma Qltb_true (r p : Q) : (r < p)%Q -> Qltb r p = true.
Proof.
  intros H. unfold Qltb. destruct (Qle_bool p r) eqn:E; [|reflexivity].
  apply Qle_bool_iff in E. exfalso. eapply Qlt_not_le; eauto.
Qed.

Lemma Qltb_false (r p : Q) : (p <= r)%Q -> Qltb r p = false.
Proof.
  intros H. unfold Qltb. apply Qle_bool_iff in H. now rewrite H.
Qed.

Lemma imap_flipped_all (g : rng) (p : Q) (bits : list Z) :
  BB84.unit_draws g -> (1 <= p)%Q ->
  imap (flipped_by g p) bits = map (fun bit => 1 - bit) bits.
Proof.
  intros Hg Hp. rewrite <- (imap_const (fun bit => 1 - bit)).
  apply imap_ext. intros k v _. unfold flipped_by.
  rewrite Qltb_true; [reflexivity|].
  destruct (Hg (cursor g + k)%nat) as [_ H]. eapply Qlt_le_trans; eauto.
Qed.

Lemma imap_flipped_none (g : rng) (p : Q) (bits : list Z) :
  BB84.unit_draws g -> (p <= 0)%Q ->
  imap (flipped_by g p) bits = bits.
Proof.
  intros Hg Hp. rewrite <- (list_fmap_id bits) at 2.
  rewrite <- (imap_const id).
  apply imap_ext. intros k v _. unfold flipped_by.
  rewrite Qltb_false; [reflexivity|].
  destruct (Hg (cursor g + k)%nat) as [H _]. eapply Qle_trans; eauto.
Qed.
End Noise.


Section Circuits.
Import Py Qiskit BB84.

Lemma with_data_nil qc : with_data qc [] = qc.
Proof. destruct qc. unfold with_data. cbn. now rewrite app_nil_r. Qed.

Lemma with_data_app qc l1 l2 :
  with_data (with_data qc l1) l2 = with_data qc (l1 ++ l2).
Proof. unfold with_data. cbn. now rewrite app_assoc. Qed.

Lemma Sam_step_data (Sam_bits Sam_bases : list Z) qc i bit basis :
  Sam_bits !! i = Some bit -> Sam_bases !! i = Some basis ->
  Sam_step Sam_bits Sam_bases qc i = Ok (with_data qc (Sam_gates i bit basis)).
Proof.
  intros Hb Hs. unfold Sam_step.
  rewrite (getitem_Some _ _ _ Hb), (getitem_Some _ _ _ Hs), !bind_Ok.
  unfold Sam_gates. destruct qc as [n c d].
  destruct (basis =? 0), (bit =? 1), (bit =? 0); unfold with_data, append; cbn;
    now rewrite <- ?app_assoc, ?app_nil_r.
Qed.

Lemma Sam_loop_data (bits : list Z) : forall (bases pb ps : list Z) qc,
  length pb = length ps -> length bits = length bases ->
  for_each (seq (length pb) (length bits))
    (Sam_step (pb ++ bits) (ps ++ bases)) qc
  = Ok (with_data qc (Sam_data (length pb) bits bases)).
Proof.
  induction bits as [|bit bits IH]; intros bases pb ps qc Hp Hl.
  - cbn. now rewrite with_data_nil.
  - destruct bases as [|basis bases]; [discriminate|].
    cbn [length seq for_each Sam_data].
    rewrite (Sam_step_data _ _ _ _ bit basis).
    + cbn [Py.bind].
      specialize (IH bases (pb ++ [bit]) (ps ++ [basis])).
      rewrite !length_app in IH. cbn [length] in IH.
      rewrite <- !app_assoc in IH. cbn [app] in IH.
      replace (length pb + 1)%nat with (S (length pb)) in IH by lia.
      rewrite IH, ?with_data_app; [reflexivity| lia |]. cbn in Hl. lia.
    + apply list_lookup_middle. reflexivity.
    + apply list_lookup_middle. exact Hp.
Qed.

Lemma Ron_step_data (Ron_bases : list Z) qc i basis :
  Ron_bases !! i = Some basis ->
  Ron_step Ron_bases qc i = Ok (with_data qc (Ron_gates i basis)).
Proof.
  intros Hb. unfold Ron_step. rewrite (getitem_Some _ _ _ Hb), bind_Ok.
  unfold Ron_gates. destruct (basis =? 1); unfold with_data, append; cbn;
    now rewrite <- ?app_assoc.
Qed.

Lemma Ron_loop_data (bases : list Z) : forall (ps : list Z) qc,
  for_each (seq (length ps) (length bases)) (Ron_step (ps ++ bases)) qc
  = Ok (with_data qc (Ron_data (length ps) bases)).
Proof.
  induction bases as [|basis bases IH]; intros ps qc.
  - cbn. now rewrite with_data_nil.
  - cbn [length seq for_each Ron_data].
    rewrite (Ron_step_data _ _ _ basis) by now apply list_lookup_middle.
    cbn [Py.bind]. specialize (IH (ps ++ [basis])).
    rewrite length_app in IH. cbn [length] in IH.
    rewrite <- app_assoc in IH. cbn [app] in IH.
    replace (length ps + 1)%nat with (S (length ps)) in IH by lia.
    now rewrite IH, with_data_app.
Qed.
End Circuits.

Section Simulation.
Import Qiskit BB84.

Lemma alter_middle {A : Type} (f : A -> A) (pre rest : list A) (v : A) :
  alter f (length pre) (pre ++ v :: rest) = pre ++ f v :: rest.
Proof.
  replace (length pre) with (length pre + 0)%nat by lia.
  now rewrite alter_app_r.
Qed.

Lemma insert_middle {A : Type} (pre rest : list A) (v w : A) (i : nat) :
  length pre = i -> <[i := w]> (pre ++ v :: rest) = pre ++ w :: rest.
Proof.
  intros <-. replace (length pre) with (length pre + 0)%nat by lia.
  now rewrite insert_app_r.
Qed.

Lemma exec_Sam_gates (pre rest : list ket) (s : shot) (bit basis : Z) :
  qubits s = pre ++ Ket0 :: rest ->
  fold_left exec (Sam_gates (length pre) bit basis) s
  = {| qubits := pre ++ prepared bit basis :: rest;
       clbits := clbits s; coins := coins s; flips := flips s |}.
Proof.
  destruct s as [qs cl cs n]. cbn. intros ->.
  unfold Sam_gates, prepared.
  destruct (basis =? 0), (bit =? 1), (bit =? 0); cbn; unfold on_qubit; cbn;
    now rewrite ?alter_middle, ?alter_middle.
Qed.

Lemma exec_Sam_data (bits : list Z) : forall (bases : list Z) (pre : list ket) (s : shot),
  length bits = length bases ->
  qubits s = pre ++ replicate (length bits) Ket0 ->
  fold_left exec (Sam_data (length pre) bits bases) s
  = {| qubits := pre ++ zip_with prepared bits bases;
       clbits := clbits s; coins := coins s; flips := flips s |}.
Proof.
  induction bits as [|bit bits IH]; intros bases pre s Hl Hq.
  - destruct s. cbn in *. now rewrite Hq.
  - destruct bases as [|basis bases]; [discriminate|].
    cbn [Sam_data]. rewrite fold_left_app.
    rewrite (exec_Sam_gates pre (replicate (length bits) Ket0)) by exact Hq.
    specialize (IH bases (pre ++ [prepared bit basis])).
    rewrite length_app in IH. cbn [length] in IH.
    replace (length pre + 1)%nat with (S (length pre)) in IH by lia.
    rewrite IH; cbn.
    + now rewrite <- app_assoc.
    + cbn in Hl. lia.
    + now rewrite <- app_assoc.
Qed.

Lemma exec_Ron_data (bases : list Z) :
  forall (kets pre : list ket) (cpre : list bool) (s : shot),
  length kets = length bases -> length cpre = length pre ->
  qubits s = pre ++ kets ->
  clbits s = cpre ++ replicate (length bases) false ->
  clbits (fold_left exec (Ron_data (length pre) bases) s)
  = cpre ++ outcomes kets bases (coins s) (flips s).
Proof.
  induction bases as [|basis bases IH]; intros kets pre cpre s Hl Hc Hq Hcl.
  - destruct kets; [|discriminate]. cbn in *. exact Hcl.
  - destruct kets as [|k kets]; [discriminate|].
    cbn [Ron_data outcomes]. rewrite fold_left_app.
    destruct s as [qs cl cs n]. cbn in Hq, Hcl. subst qs cl.
    cbn [coins flips].
    assert (Hstep : exists k',
      fold_left exec (Ron_gates (length pre) basis)
        {| qubits := pre ++ k :: kets;
           clbits := cpre ++ false :: replicate (length bases) false;
           coins := cs; flips := n |}
      = match rotated basis k with
        | Ket0 => {| qubits := pre ++ k' :: kets;
                     clbits := cpre ++ false :: replicate (length bases) false;
                     coins := cs; flips := n |}
        | Ket1 => {| qubits := pre ++ k' :: kets;
                     clbits := cpre ++ true :: replicate (length bases) false;
                     coins := cs; flips := n |}
        | _ => {| qubits := pre ++ k' :: kets;
                  clbits := cpre ++ cs n :: replicate (length bases) false;
                  coins := cs; flips := S n |}
        end).
    { unfold Ron_gates, rotated.
      destruct (basis =? 1); cbn [fold_left exec]; unfold on_qubit, do_measure;
        cbn [qubits clbits coins flips];
        rewrite ?alter_middle, ?list_lookup_middle by reflexivity.
      - destruct k; cbn [apply_h]; rewrite ?insert_middle by auto; eauto.
      - destruct k; rewrite ?insert_middle by auto; eauto. }
    destruct Hstep as [k' ->].
    specialize (IH kets (pre ++ [k'])).
    rewrite length_app in IH. cbn [length] in IH.
    replace (length pre + 1)%nat with (S (length pre)) in IH by lia.
    cbn in Hl.
    destruct (rotated basis k).
    + rewrite (IH (cpre ++ [false])); cbn;
        rewrite <- ?app_assoc, ?length_app; cbn; try reflexivity; lia.
    + rewrite (IH (cpre ++ [true])); cbn;
        rewrite <- ?app_assoc, ?length_app; cbn; try reflexivity; lia.
    + rewrite (IH (cpre ++ [cs n])); cbn;
        rewrite <- ?app_assoc, ?length_app; cbn; try reflexivity; lia.
    + rewrite (IH (cpre ++ [cs n])); cbn;
        rewrite <- ?app_assoc, ?length_app; cbn; try reflexivity; lia.
Qed.
End Simulation.

Section Pipeline.
Import Py Qiskit BB84.

Lemma user_input_ok_inv (n : nat) (vs : list Z) :
  user_input_ok n vs = true ->
  length vs = n /\ forall i v, vs !! i = Some v -> v = 0 \/ v = 1.
Proof.
  unfold user_input_ok. intros H. apply andb_prop in H as [Hn Hall].
  split; [now apply Nat.eqb_eq|].
  intros i v Hv. rewrite forallb_forall in Hall.
  specialize (Hall v). unfold binary in Hall.
  assert (Hin : In v vs).
  { apply list_elem_of_In. eapply list_elem_of_lookup_2; eauto. }
  apply Hall, orb_prop in Hin. destruct Hin as [H|H]; apply Z.eqb_eq in H; auto.
Qed.

Lemma ints_of_chars_bools (bs : list bool) :
  ints_of_chars (map char_of_bool bs) = Ok (map Z_of_bool bs).
Proof.
  induction bs as [|b bs IH]; [reflexivity|].
  cbn [map ints_of_chars]. rewrite IH. now destruct b.
Qed.

Lemma outcomes_match (bits : list Z) :
  forall (sbases rbases : list Z) (cs : nat -> bool) (n j : nat) (bit basis : Z),
  bits !! j = Some bit -> sbases !! j = Some basis -> rbases !! j = Some basis ->
  bit = 0 \/ bit = 1 -> basis = 0 \/ basis = 1 ->
  map Z_of_bool (outcomes (zip_with prepared bits sbases) rbases cs n) !! j
  = Some bit.
Proof.
  induction bits as [|b bits IH]; intros sbases rbases cs n j bit basis Hb Hs Hr Hbit Hbasis.
  - destruct j; discriminate.
  - destruct sbases as [|sb sbases]; [destruct j; discriminate|].
    destruct rbases as [|rb rbases]; [destruct j; discriminate|].
    cbn [zip_with outcomes]. destruct j as [|j].
    + cbn in Hb, Hs, Hr. injection Hb as ->. injection Hs as ->. injection Hr as ->.
      destruct Hbit as [-> | ->], Hbasis as [-> | ->]; reflexivity.
    + cbn in Hb, Hs, Hr.
      destruct (rotated rb (prepared b sb)); cbn [map]; cbn [lookup list_lookup];
        eapply IH; eauto.
Qed.

Lemma outcomes_length (kets : list ket) :
  forall (bases : list Z) (cs : nat -> bool) (n : nat),
  length kets = length bases -> length (outcomes kets bases cs n) = length bases.
Proof.
  induction kets as [|k kets IH]; intros [|basis bases] cs n Hl;
    try discriminate; [reflexivity|].
  cbn [outcomes]. cbn in Hl.
  destruct (rotated basis k); cbn [length]; rewrite IH; auto.
Qed.

Lemma Sam_transmission_data (Sam_bits Sam_bases : list Z) :
  length Sam_bits = length Sam_bases ->
  Sam_transmission_multi_qubit Sam_bits Sam_bases
  = Ok [ {| num_qubits := length Sam_bits; num_clbits := length Sam_bits;
            data := Sam_data 0 Sam_bits Sam_bases |} ].
Proof.
  intros Hl. unfold Sam_transmission_multi_qubit, for_range.
  rewrite (Sam_loop_data Sam_bits Sam_bases [] []) by auto.
  reflexivity.
Qed.

Lemma Ron_measure_run_shot (cs : nat -> bool) (Sam_bits Sam_bases Ron_bases : list Z) :
  length Sam_bits = length Sam_bases -> length Sam_bits = length Ron_bases ->
  Ron_measure (run_shot cs)
    [ {| num_qubits := length Sam_bits; num_clbits := length Sam_bits;
         data := Sam_data 0 Sam_bits Sam_bases |} ] Ron_bases
  = Ok (map Z_of_bool
          (outcomes (zip_with prepared Sam_bits Sam_bases) Ron_bases cs 0)).
Proof.
  intros Hs Hr. unfold Ron_measure, for_range. cbn [getitem lookup list_lookup].
  rewrite bind_Ok. cbn [num_qubits]. rewrite Hr.
  rewrite (Ron_loop_data Ron_bases []), bind_Ok.
  unfold run_shot, with_data, start. cbn [data num_qubits num_clbits length].
  rewrite fold_left_app.
  rewrite (exec_Sam_data Sam_bits Sam_bases []) by (cbn; congruence).
  cbn [app qubits clbits coins flips].
  rewrite (exec_Ron_data Ron_bases (zip_with prepared Sam_bits Sam_bases) [] []);
    cbn [app qubits clbits coins flips length]; try reflexivity.
  - rewrite list_ascii_of_string_of_list_ascii, rev_involutive.
    apply ints_of_chars_bools.
  - rewrite length_zip_with. lia.
Qed.

Lemma pick_fmap (f : Z -> Z) (vs : list Z) (ps : list nat) :
  pick (map f vs) ps = map f (pick vs ps).
Proof.
  unfold pick. induction ps as [|i ps IH]; [reflexivity|].
  cbn [omap list_omap]. rewrite IH.
  change (map f vs) with (f <$> vs). rewrite list_lookup_fmap.
  now destruct (vs !! i).
Qed.

Lemma pick_ext (vs ws : list Z) (ps : list nat) :
  (forall i, i ∈ ps -> vs !! i = ws !! i) -> pick vs ps = pick ws ps.
Proof.
  unfold pick. induction ps as [|i ps IH]; intros H; [reflexivity|].
  cbn [omap list_omap]. rewrite (H i) by left.
  rewrite IH; [reflexivity|]. intros k Hk. apply H. now right.
Qed.

Lemma measured_at_matching (cs : nat -> bool) (num_bits : nat)
  (Sam_bits Sam_bases Ron_bases : list Z) (i : nat) :
  user_input_ok num_bits Sam_bits = true ->
  user_input_ok num_bits Sam_bases = true ->
  user_input_ok num_bits Ron_bases = true ->
  i ∈ matching_positions Sam_bases Ron_bases ->
  map Z_of_bool (outcomes (zip_with prepared Sam_bits Sam_bases) Ron_bases cs 0) !! i
  = Sam_bits !! i.
Proof.
  intros Hb Hs Hr Hi.
  apply user_input_ok_inv in Hb as [Lb Bb], Hs as [Ls Bs], Hr as [Lr _].
  apply list_elem_of_filter in Hi as [Heq Hi]. apply elem_of_seq in Hi.
  destruct (lookup_lt_is_Some_2 Sam_bits i) as [bit Hbit]; [lia|].
  destruct (lookup_lt_is_Some_2 Sam_bases i) as [basis Hbasis]; [lia|].
  rewrite Hbit. eapply outcomes_match; eauto. congruence.
Qed.
End Pipeline.

(** C8. With noise probability 1, for the bits and bases the prompts let
    through, every run on the simulator returns as the receiver's key the
    complement [1 - b] of each bit [b] of the sender's key, the sender's key
    being the sender's bits at the positions where the bases agree.  With
    noise probability 0 the noise step returns the measured bits as they
    are. *)
Theorem bb84_noise_one_complements (cs : nat -> bool) (num_bits : nat)
  (Sam_bits Sam_bases Ron_bases : list Z) (g : BB84.rng) :
  BB84.user_input_ok num_bits Sam_bits = true ->
  BB84.user_input_ok num_bits Sam_bases = true ->
  BB84.user_input_ok num_bits Ron_bases = true ->
  BB84.unit_draws g ->
  BB84.main (Qiskit.run_shot cs) 1 Sam_bits Sam_bases Ron_bases g
  = Py.Ok (BB84.pick Sam_bits (BB84.matching_positions Sam_bases Ron_bases),
           map (fun b => 1 - b)
             (BB84.pick Sam_bits (BB84.matching_positions Sam_bases Ron_bases)),
           BB84.advance g num_bits)
  /\ forall measured_bits : list Z,
       BB84.noise_loop measured_bits 0 [] g
       = (measured_bits, BB84.advance g (length measured_bits)).
Proof.
  intros Hb Hs Hr Hg. split.
  - destruct (user_input_ok_inv _ _ Hb) as [Lb _].
    destruct (user_input_ok_inv _ _ Hs) as [Ls _].
    destruct (user_input_ok_inv _ _ Hr) as [Lr _].
    unfold BB84.main.
    rewrite Sam_transmission_data, bind_Ok by congruence.
    unfold BB84.Ron_measurement_multi_qubit_with_noise.
    rewrite Ron_measure_run_shot, !bind_Ok by congruence.
    rewrite noise_loop_spec, imap_flipped_all by (auto; easy).
    cbn [app]. unfold BB84.basis_reconciliation, Py.for_range.
    assert (Lo : length (BB84.outcomes (zip_with BB84.prepared Sam_bits Sam_bases)
                           Ron_bases cs 0) = num_bits).
    { rewrite outcomes_length; [exact Lr|]. rewrite length_zip_with. lia. }
    rewrite reconcile_loop by (rewrite ?length_map; lia).
    rewrite bind_Ok. cbn [app]. rewrite pick_fmap.
    rewrite (pick_ext (map BB84.Z_of_bool _) Sam_bits)
      by (intros i Hi; eapply measured_at_matching; eauto).
    rewrite length_map, Lo. reflexivity.
  - intros measured. rewrite noise_loop_spec, imap_flipped_none by (auto; easy).
    reflexivity.
Qed.

Lemma bb84_noise_one_complements_witness :
  BB84.user_input_ok 4 [0;1;1;0] = true
  /\ BB84.main (Qiskit.run_shot (fun _ => true)) 1 [0;1;1;0] [0;1;0;1] [0;1;1;1]
       {| BB84.tape := fun _ => (1#2)%Q; BB84.cursor := 0 |}
     = Py.Ok ([0;1;0], [1;0;1],
              {| BB84.tape := fun _ => (1#2)%Q; BB84.cursor := 4 |}).
Proof.
  split; [reflexivity|].
  refine (proj1 (bb84_noise_one_complements (fun _ => true) 4
                   [0;1;1;0] [0;1;0;1] [0;1;1;1]
                   {| BB84.tape := fun _ => (1#2)%Q; BB84.cursor := 0 |}
                   eq_refl eq_refl eq_refl _)).
  intros k. split; unfold Qle, Qlt; simpl; lia.
Defined.

(** With noise probability 0 the two sifted keys are the same. *)
Lemma bb84_noiseless_keys_agree (cs : nat -> bool) (num_bits : nat)
  (Sam_bits Sam_bases Ron_bases : list Z) (g : BB84.rng) :
  BB84.user_input_ok num_bits Sam_bits = true ->
  BB84.user_input_ok num_bits Sam_bases = true ->
  BB84.user_input_ok num_bits Ron_bases = true ->
  BB84.unit_draws g ->
  BB84.main (Qiskit.run_shot cs) 0 Sam_bits Sam_bases Ron_bases g
  = Py.Ok (BB84.pick Sam_bits (BB84.matching_positions Sam_bases Ron_bases),
           BB84.pick Sam_bits (BB84.matching_positions Sam_bases Ron_bases),
           BB84.advance g num_bits).
Proof.
  intros Hb Hs Hr Hg.
  destruct (user_input_ok_inv _ _ Hb) as [Lb _].
  destruct (user_input_ok_inv _ _ Hs) as [Ls _].
  destruct (user_input_ok_inv _ _ Hr) as [Lr _].
  unfold BB84.main.
  rewrite Sam_transmission_data, bind_Ok by congruence.
  unfold BB84.Ron_measurement_multi_qubit_with_noise.
  rewrite Ron_measure_run_shot, !bind_Ok by congruence.
  rewrite noise_loop_spec, imap_flipped_none by (auto; easy).
  cbn [app]. unfold BB84.basis_reconciliation, Py.for_range.
  assert (Lo : length (BB84.outcomes (zip_with BB84.prepared Sam_bits Sam_bases)
                         Ron_bases cs 0) = num_bits).
  { rewrite outcomes_length; [exact Lr|]. rewrite length_zip_with. lia. }
  rewrite reconcile_loop by (rewrite ?length_map; lia).
  rewrite bind_Ok. cbn [app].
  rewrite (pick_ext (map BB84.Z_of_bool _) Sam_bits)
    by (intros i Hi; eapply measured_at_matching; eauto).
  rewrite length_map, Lo. reflexivity.
Qed.

(** C7, the claim fails: 2 lies outside the interval from 0 to 1, and the
    script runs to its end with it and returns keys. *)
Lemma noise_probability_two_accepted :
  ~ ((0 <= 2)%Q /\ (2 <= 1)%Q)
  /\ BB84.main (Qiskit.run_shot (fun _ => true)) 2 [0;1;1;0] [0;1;0;1] [0;1;1;1]
       {| BB84.tape := fun _ => (1#2)%Q; BB84.cursor := 0 |}
     = Py.Ok ([0;1;0], [1;0;1],
              {| BB84.tape := fun _ => (1#2)%Q; BB84.cursor := 4 |}).
Proof.
  split; [|reflexivity].
  intros [_ H]. unfold Qle in H. simpl in H. lia.
Qed.

(** C7, as the code has it.  The noise probability is never checked: for
    every value of it, inside the interval from 0 to 1 or not, the
    measurement returns whenever the simulator's answer can be read, and
    outcome [k] is flipped exactly when its own draw, the [k]-th one, is
    below the probability.  With draws from 0 up to but not including 1, a
    probability of 1 or more flips every outcome and a probability of 0 or
    less flips none. *)
Theorem noise_probability_unchecked (simulator : Qiskit.QuantumCircuit -> string)
  (transmitted_circuits : list Qiskit.QuantumCircuit) (Ron_bases : list Z)
  (noise_probability : Q) (g : BB84.rng) (measured_bits : list Z) :
  BB84.Ron_measure simulator transmitted_circuits Ron_bases = Py.Ok measured_bits ->
  BB84.Ron_measurement_multi_qubit_with_noise simulator transmitted_circuits
    Ron_bases noise_probability g
  = Py.Ok (imap (BB84.flipped_by g noise_probability) measured_bits,
           BB84.advance g (length measured_bits))
  /\ (BB84.unit_draws g -> (1 <= noise_probability)%Q ->
      imap (BB84.flipped_by g noise_probability) measured_bits
      = map (fun bit => 1 - bit) measured_bits)
  /\ (BB84.unit_draws g -> (noise_probability <= 0)%Q ->
      imap (BB84.flipped_by g noise_probability) measured_bits = measured_bits).
Proof.
  intros Hm. split; [|split].
  - unfold BB84.Ron_measurement_multi_qubit_with_noise.
    rewrite Hm, bind_Ok, noise_loop_spec. reflexivity.
  - apply imap_flipped_all.
  - apply imap_flipped_none.
Qed.

Lemma noise_probability_unchecked_witness :
  BB84.Ron_measurement_multi_qubit_with_noise (Qiskit.run_shot (fun _ => true))
    [ {| Qiskit.num_qubits := 2; Qiskit.num_clbits := 2;
         Qiskit.data := [Qiskit.x 0] |} ] [0; 0] 2
    {| BB84.tape := fun _ => (1#2)%Q; BB84.cursor := 0 |}
  = Py.Ok ([0; 1], {| BB84.tape := fun _ => (1#2)%Q; BB84.cursor := 2 |}).
Proof.
  exact (proj1 (noise_probability_unchecked (Qiskit.run_shot (fun _ => true))
                  [ {| Qiskit.num_qubits := 2; Qiskit.num_clbits := 2;
                       Qiskit.data := [Qiskit.x 0] |} ] [0; 0] 2
                  {| BB84.tape := fun _ => (1#2)%Q; BB84.cursor := 0 |}
                  [1; 0] eq_refl)).
Defined.

(** ** b92.py: sifting *)

Section Sifting.
Import Py B92.

Variables (alice_sent_states : list ascii) (bob_measurement_bases : list Z)
  (bob_measurements : string).

Local Abbreviation step :=
  (sift_step alice_sent_states bob_measurement_bases bob_measurements).
Local Abbreviation key_at :=
  (key_bit_at alice_sent_states bob_measurement_bases bob_measurements).

Lemma str_getitem_Some (s : string) (i : nat) (c : ascii) :
  String.get i s = Some c -> str_getitem s i = Ok c.
Proof. unfold str_getitem. now intros ->. Qed.

Lemma string_get_lt (s : string) (i : nat) :
  (i < String.length s)%nat -> exists c, String.get i s = Some c.
Proof.
  revert i. induction s as [|c s IH]; intros i Hi; cbn in Hi; [lia|].
  destruct i as [|i]; cbn; [eauto|]. apply IH. lia.
Qed.

Lemma key_bit_cases (state : ascii) (basis : Z) (outcome : ascii) :
  key_bit state basis outcome
  = if Ascii.eqb state "H" && (basis =? 1) && Ascii.eqb outcome "1"
    then Some "0"%char
    else if Ascii.eqb state "+" && (basis =? 0) && Ascii.eqb outcome "1"
    then Some "1"%char
    else None.
Proof.
  unfold key_bit.
  destruct (decide _) as [E|E].
  { injection E as -> -> ->. reflexivity. }
  destruct (decide _) as [E'|E'].
  { injection E' as -> -> ->. reflexivity. }
  destruct (Ascii.eqb_spec state "H"), (Ascii.eqb_spec state "+"),
    (Z.eqb_spec basis 1), (Z.eqb_spec basis 0), (Ascii.eqb_spec outcome "1");
    subst; cbn [andb]; try reflexivity; congruence.
Qed.

Lemma sift_step_in_range (bits : list ascii) (idxs : list nat) (i : nat) :
  (i < length alice_sent_states)%nat -> (i < length bob_measurement_bases)%nat ->
  (i < String.length bob_measurements)%nat ->
  step (bits, idxs) i
  = Ok (bits ++ omap key_at [i], idxs ++ filter (fun i => is_Some (key_at i)) [i]).
Proof.
  intros H1 H2 H3. unfold sift_step.
  destruct (getitem_lt _ _ H1) as (s & Hs & ->).
  destruct (getitem_lt _ _ H2) as (b & Hb & ->).
  destruct (string_get_lt _ _ H3) as (o & Ho).
  rewrite (str_getitem_Some _ _ _ Ho), !bind_Ok.
  assert (Hk : key_at i = key_bit s b o).
  { unfold key_bit_at. rewrite Hs, Hb, Ho. reflexivity. }
  rewrite key_bit_cases in Hk.
  destruct (Ascii.eqb s "H" && (b =? 1) && Ascii.eqb o "1").
  - rewrite filter_cons_True by (rewrite Hk; eauto).
    cbn [omap list_omap]. now rewrite Hk.
  - destruct (Ascii.eqb s "+" && (b =? 0) && Ascii.eqb o "1").
    + rewrite filter_cons_True by (rewrite Hk; eauto).
      cbn [omap list_omap]. now rewrite Hk.
    + rewrite filter_cons_False by (rewrite Hk; intros [? ?]; discriminate).
      cbn [omap list_omap]. rewrite Hk. now rewrite !app_nil_r.
Qed.

Lemma sift_loop (k : nat) : forall (a : nat) (bits : list ascii) (idxs : list nat),
  (a + k <= length alice_sent_states)%nat ->
  (a + k <= length bob_measurement_bases)%nat ->
  (a + k <= String.length bob_measurements)%nat ->
  for_each (seq a k) step (bits, idxs)
  = Ok (bits ++ omap key_at (seq a k),
        idxs ++ filter (fun i => is_Some (key_at i)) (seq a k)).
Proof.
  induction k as [|k IH]; intros a bits idxs H1 H2 H3.
  - cbn. now rewrite !app_nil_r.
  - cbn [seq for_each].
    rewrite sift_step_in_range by lia. cbn [Py.bind].
    rewrite IH by lia.
    change (a :: seq (S a) k) with ([a] ++ seq (S a) k).
    now rewrite filter_app, omap_app, !app_assoc.
Qed.

Lemma omap_filter_length {A B : Type} (f : A -> option B) (l : list A) :
  length (omap f l) = length (filter (fun v => is_Some (f v)) l).
Proof.
  induction l as [|v l IH]; [reflexivity|]. cbn [omap list_omap].
  destruct (f v) as [w|] eqn:E.
  - rewrite filter_cons_True by (rewrite E; eauto). cbn. now rewrite IH.
  - rewrite filter_cons_False by (rewrite E; intros [? ?]; discriminate).
    exact IH.
Qed.
End Sifting.

Lemma key_bit_Some (state : ascii) (basis : Z) (outcome key : ascii) :
  B92.key_bit state basis outcome = Some key
  <-> (state = "H"%char /\ basis = 1 /\ outcome = "1"%char /\ key = "0"%char)
      \/ (state = "+"%char /\ basis = 0 /\ outcome = "1"%char /\ key = "1"%char).
Proof.
  unfold B92.key_bit. split.
  - destruct (decide _) as [E|_].
    { injection E as -> -> ->. intros [= <-]. left. auto. }
    destruct (decide _) as [E|_]; [|discriminate].
    injection E as -> -> ->. intros [= <-]. right. auto.
  - intros [(-> & -> & -> & ->) | (-> & -> & -> & ->)]; reflexivity.
Qed.

(** The scenario of the specification: states H and +, receiver bases 1 and
    0, outcomes "11". *)
Example b92_sift_scenario :
  B92.sift 2 ["H"; "+"]%char [1; 0] "11" = Py.Ok (["0"; "1"]%char, [0%nat; 1%nat])
  /\ B92.b92_protocol_user_input_bases_bits_bob (fun _ => "11"%string) 2
       [0; 1] ["0"; "1"]%char [1; 0] []
     = Py.Ok ("01"%string, "01"%string,
              [ {| Qiskit.num_qubits := 2; Qiskit.num_clbits := 2;
                   Qiskit.data := [Qiskit.h 1; Qiskit.h 0; Qiskit.measure 0 0;
                                   Qiskit.measure 1 1] |} ]).
Proof. split; reflexivity. Qed.

(** C1. For sent-state labels, receiver bases and raw outcomes of the same
    length, the sifting loop keeps at position [i] the key bit of the
    combination found there: '0' for (H, 1, '1'), '1' for (+, 0, '1') and
    nothing for any other combination.  The list of conclusive indices is
    the list of the positions that gave a key bit, in increasing order, and
    the receiver's bits are their key bits in the same order. *)
Theorem b92_sift_conclusive (num_bits : nat) (alice_sent_states : list ascii)
  (bob_measurement_bases : list Z) (bob_measurements : string) :
  length alice_sent_states = num_bits ->
  length bob_measurement_bases = num_bits ->
  String.length bob_measurements = num_bits ->
  B92.sift num_bits alice_sent_states bob_measurement_bases bob_measurements
  = Py.Ok (B92.receiver_bits num_bits alice_sent_states bob_measurement_bases
             bob_measurements,
           B92.conclusive_positions num_bits alice_sent_states
             bob_measurement_bases bob_measurements)
  /\ length (B92.receiver_bits num_bits alice_sent_states bob_measurement_bases
               bob_measurements)
     = length (B92.conclusive_positions num_bits alice_sent_states
                 bob_measurement_bases bob_measurements)
  /\ forall (state : ascii) (basis : Z) (outcome key : ascii),
       B92.key_bit state basis outcome = Some key
       <-> (state = "H"%char /\ basis = 1 /\ outcome = "1"%char /\ key = "0"%char)
           \/ (state = "+"%char /\ basis = 0 /\ outcome = "1"%char
               /\ key = "1"%char).
Proof.
  intros H1 H2 H3. split; [|split].
  - unfold B92.sift, Py.for_range. rewrite sift_loop by lia. reflexivity.
  - apply omap_filter_length.
  - apply key_bit_Some.
Qed.

Lemma b92_sift_conclusive_witness :
  length ["H"; "+"; "H"]%char = 3%nat
  /\ B92.sift 3 ["H"; "+"; "H"]%char [1; 0; 0] "111"
     = Py.Ok (["0"; "1"]%char, [0%nat; 1%nat]).
Proof.
  split; [reflexivity|].
  exact (proj1 (b92_sift_conclusive 3 ["H"; "+"; "H"]%char [1; 0; 0] "111"
                  eq_refl eq_refl eq_refl)).
Defined.

(** ** b92.py: encoding and the protocol *)

Section Encoding.
Import Py Qiskit B92.

Lemma with_data_append (qc : QuantumCircuit) (ins : instruction)
  (more : list instruction) :
  with_data (append qc ins) more = with_data qc (ins :: more).
Proof. unfold with_data, append. cbn. now rewrite <- app_assoc. Qed.

Lemma encode_loop (bits : list ascii) :
  forall (bases : list Z) (a : nat) (qc : QuantumCircuit),
  for_each (zip (seq a (length (zip bits bases))) (zip bits bases)) encode_step qc
  = (gates ← encode_trace a bits bases; Ok (with_data qc gates)).
Proof.
  induction bits as [|bit bits IH]; intros bases a qc.
  - cbn. now rewrite with_data_nil.
  - destruct bases as [|basis bases].
    + cbn. now rewrite with_data_nil.
    + cbn [zip zip_with length seq for_each encode_step encode_trace].
      destruct (basis =? 0).
      * destruct (Ascii.eqb bit "1"); [reflexivity|].
        cbn [Py.bind]. apply IH.
      * destruct (basis =? 1); [|reflexivity].
        destruct (Ascii.eqb bit "0"); [reflexivity|].
        cbn [Py.bind]. rewrite IH.
        destruct (encode_trace (S a) bits bases) as [gates|e]; [|reflexivity].
        rewrite !bind_Ok. now rewrite with_data_append.
Qed.

Lemma binary_bases_tail (basis : Z) (bases : list Z) :
  binary_bases (basis :: bases) -> (basis = 0 \/ basis = 1) /\ binary_bases bases.
Proof.
  intros H. split; [apply (H 0%nat); reflexivity|].
  intros i b Hi. apply (H (S i)). exact Hi.
Qed.

Lemma bases_ok_inv (n : nat) (bases : list Z) :
  bases_ok n bases = true -> length bases = n /\ binary_bases bases.
Proof.
  unfold bases_ok. intros H. apply andb_prop in H as [Hn Hall].
  split; [now apply Nat.eqb_eq|].
  intros i v Hv. rewrite forallb_forall in Hall.
  assert (Hin : In v bases).
  { apply list_elem_of_In. eapply list_elem_of_lookup_2; eauto. }
  apply Hall, orb_prop in Hin. destruct Hin as [H|H]; apply Z.eqb_eq in H; auto.
Qed.

Lemma encode_trace_spec (bits : list ascii) :
  forall (bases : list Z) (a : nat),
  length bits = length bases -> binary_bases bases ->
  encode_trace a bits bases
  = match first_violation bits bases with
    | Some i => Raise (ValueError (violation_message (nth i bits "0"%char)))
    | None => Ok (h_gates a bases)
    end.
Proof.
  induction bits as [|bit bits IH]; intros [|basis bases] a Hl Hb;
    try discriminate; [reflexivity|].
  apply binary_bases_tail in Hb as [Hbasis Hb].
  cbn [encode_trace first_violation h_gates]. unfold violates.
  rewrite (IH bases (S a)) by (cbn in Hl; auto; lia).
  destruct Hbasis as [-> | ->]; cbn [Z.eqb Pos.eqb andb orb].
  - rewrite andb_false_r, orb_false_r, andb_true_r.
    destruct (Ascii.eqb_spec bit "1") as [-> |]; [reflexivity|].
    destruct (first_violation bits bases); reflexivity.
  - rewrite andb_false_r, andb_true_r. cbn [orb].
    destruct (Ascii.eqb_spec bit "0") as [-> |]; [reflexivity|].
    destruct (first_violation bits bases); reflexivity.
Qed.

Lemma first_violation_Some (bits : list ascii) :
  forall (bases : list Z) (i : nat),
  first_violation bits bases = Some i ->
  exists bit basis,
    bits !! i = Some bit /\ bases !! i = Some basis /\ violates bit basis = true
    /\ nth i bits "0"%char = bit
    /\ forall j b s, (j < i)%nat -> bits !! j = Some b -> bases !! j = Some s ->
                     violates b s = false.
Proof.
  induction bits as [|bit bits IH]; intros [|basis bases] i; try discriminate.
  cbn [first_violation]. destruct (violates bit basis) eqn:V.
  - intros [= <-]. exists bit, basis. repeat split; auto. intros j b s Hj. lia.
  - destruct (first_violation bits bases) as [k|] eqn:F; [|discriminate].
    intros [= <-]. destruct (IH bases k F) as (b & s & Hb & Hs & Hv & Hn & Hfirst).
    exists b, s. repeat split; auto.
    intros [|j] b' s' Hj Hb' Hs'.
    + cbn in Hb', Hs'. congruence.
    + eapply (Hfirst j); eauto. lia.
Qed.

Lemma first_violation_None (bits : list ascii) :
  forall (bases : list Z),
  first_violation bits bases = None ->
  forall j b s, bits !! j = Some b -> bases !! j = Some s -> violates b s = false.
Proof.
  induction bits as [|bit bits IH]; intros [|basis bases] F j b s Hb Hs;
    try (destruct j; discriminate).
  cbn [first_violation] in F. destruct (violates bit basis) eqn:V; [discriminate|].
  destruct (first_violation bits bases) eqn:F'; [discriminate|].
  destruct j as [|j]; cbn in Hb, Hs; [congruence|].
  eapply IH; eauto.
Qed.

Lemma h_gates_preparation (bases : list Z) : forall (a i : nat),
  filter (fun ins => target ins = i) (h_gates a bases)
  = if decide (a <= i)%nat
    then match bases !! (i - a)%nat with
         | Some basis => if basis =? 1 then [h i] else []
         | None => []
         end
    else [].
Proof.
  induction bases as [|basis bases IH]; intros a i.
  - cbn. now destruct (decide _).
  - cbn [h_gates]. rewrite filter_app, IH.
    destruct (decide (a <= i)%nat) as [Hle|Hgt].
    + destruct (decide (a = i)) as [<- | Hne].
      * rewrite Nat.sub_diag. cbn [lookup list_lookup].
        destruct (decide (S a <= a)%nat); [lia|].
        destruct (basis =? 1); [|reflexivity].
        rewrite filter_cons_True by reflexivity. reflexivity.
      * destruct (decide (S a <= i)%nat); [|lia].
        replace (i - a)%nat with (S (i - S a)) by lia. cbn [lookup list_lookup].
        destruct (basis =? 1); [|reflexivity].
        rewrite filter_cons_False by (cbn; lia). reflexivity.
    + destruct (decide (S a <= i)%nat); [lia|].
      destruct (basis =? 1); [|reflexivity].
      rewrite filter_cons_False by (cbn; lia). reflexivity.
Qed.

Lemma sent_states_loop (bases : list Z) : forall (states : list ascii),
  binary_bases bases ->
  for_each bases sent_state_step states = Ok (states ++ map state_of_basis bases).
Proof.
  induction bases as [|basis bases IH]; intros states Hb.
  - cbn. now rewrite app_nil_r.
  - apply binary_bases_tail in Hb as [Hbasis Hb].
    cbn [for_each map]. unfold sent_state_step at 1, state_of_basis at 1.
    destruct Hbasis as [-> | ->]; cbn [Z.eqb Pos.eqb Py.bind];
      rewrite IH by exact Hb; now rewrite <- app_assoc.
Qed.
End Encoding.

Section Protocol.
Import Py Qiskit B92.

Lemma measure_loop_ok (bases : list Z) : forall (a : nat) (meas : QuantumCircuit),
  binary_bases bases ->
  exists meas', for_each (zip (seq a (length bases)) bases) measure_step meas
                = Ok meas'.
Proof.
  induction bases as [|basis bases IH]; intros a meas Hb; [cbn; eauto|].
  apply binary_bases_tail in Hb as [Hbasis Hb].
  cbn [length seq zip zip_with for_each measure_step].
  destruct Hbasis as [-> | ->]; cbn [Z.eqb Pos.eqb Py.bind]; apply IH, Hb.
Qed.

Lemma agreed_key_loop (alice_bits : list ascii) (idxs : list nat) :
  forall (key : list ascii),
  Forall (fun i => (i < length alice_bits)%nat) idxs ->
  for_each idxs (fun key i => bit ← getitem alice_bits i; Ok (key ++ [bit])) key
  = Ok (key ++ omap (fun i => alice_bits !! i) idxs).
Proof.
  induction idxs as [|i idxs IH]; intros key Hall.
  - cbn. now rewrite app_nil_r.
  - inversion Hall as [|? ? Hi Hrest]; subst.
    cbn [for_each omap list_omap].
    destruct (getitem_lt _ _ Hi) as (bit & Hbit & ->).
    rewrite bind_Ok. cbn [Py.bind]. rewrite IH by exact Hrest.
    rewrite Hbit. now rewrite <- app_assoc.
Qed.

Lemma omap_filter_agree {A B : Type} (f g : A -> option B) (l : list A) :
  (forall v k, v ∈ l -> f v = Some k -> g v = Some k) ->
  omap g (filter (fun v => is_Some (f v)) l) = omap f l.
Proof.
  induction l as [|v l IH]; intros H; [reflexivity|].
  cbn [omap list_omap]. destruct (f v) as [k|] eqn:E.
  - rewrite filter_cons_True by (rewrite E; eauto).
    cbn [omap list_omap]. rewrite (H v k) by (auto; left).
    rewrite IH; [reflexivity|]. intros w k' Hw. apply H. now right.
  - rewrite filter_cons_False by (rewrite E; intros [? ?]; discriminate).
    apply IH. intros w k' Hw. apply H. now right.
Qed.

Lemma bits_ok_inv (n : nat) (bits : list ascii) :
  bits_ok n bits = true ->
  length bits = n
  /\ forall i bit, bits !! i = Some bit -> bit = "0"%char \/ bit = "1"%char.
Proof.
  unfold bits_ok. intros H. apply andb_prop in H as [Hn Hall].
  split; [now apply Nat.eqb_eq|].
  intros i v Hv. rewrite forallb_forall in Hall.
  assert (Hin : In v bits).
  { apply list_elem_of_In. eapply list_elem_of_lookup_2; eauto. }
  apply Hall, orb_prop in Hin.
  destruct Hin as [H|H]; apply Ascii.eqb_eq in H; auto.
Qed.

Lemma key_bit_is_sent_bit (alice_bases : list Z) (alice_bits : list ascii)
  (bob_bases : list Z) (outcomes : string) (i : nat) (key : ascii) :
  (forall i bit, alice_bits !! i = Some bit -> bit = "0"%char \/ bit = "1"%char) ->
  binary_bases alice_bases ->
  length alice_bits = length alice_bases ->
  first_violation alice_bits alice_bases = None ->
  key_bit_at (map state_of_basis alice_bases) bob_bases outcomes i = Some key ->
  alice_bits !! i = Some key.
Proof.
  intros Hbits Hbases Hl Hnone. unfold key_bit_at.
  change (map state_of_basis alice_bases) with (state_of_basis <$> alice_bases).
  rewrite list_lookup_fmap.
  destruct (alice_bases !! i) as [basis|] eqn:Hbasis; [|discriminate].
  cbn [fmap option_fmap option_map mbind option_bind].
  destruct (bob_bases !! i) as [bb|]; [|discriminate].
  cbn [mbind option_bind].
  destruct (String.get i outcomes) as [o|]; [|discriminate].
  cbn [mbind option_bind]. intros Hk.
  destruct (lookup_lt_is_Some_2 alice_bits i) as [bit Hbit].
  { rewrite Hl. eapply lookup_lt_Some; eauto. }
  pose proof (first_violation_None _ _ Hnone i bit basis Hbit Hbasis) as Hv.
  rewrite Hbit. f_equal.
  apply key_bit_Some in Hk.
  destruct (Hbases i basis Hbasis) as [-> | ->];
    destruct (Hbits i bit Hbit) as [-> | ->];
    destruct Hk as [(Hs & _ & _ & ->) | (Hs & _ & _ & ->)];
    try reflexivity; try discriminate Hs; discriminate Hv.
Qed.

End Protocol.

(** C5, the claim fails in one point: the error does not identify the
    offending index.  The first violation is at position 0 in one input and
    at position 1 in the other, and the two calls raise the same error. *)
Lemma b92_encode_error_hides_index :
  B92.first_violation ["1"; "0"]%char [0; 0] = Some 0%nat
  /\ B92.first_violation ["0"; "1"]%char [0; 0] = Some 1%nat
  /\ B92.encode_b92_with_alice_basis ["1"; "0"]%char [0; 0]
     = Py.Raise (Py.ValueError "Inconsistent input: bit '1' with basis '0' in B92")
  /\ B92.encode_b92_with_alice_basis ["0"; "1"]%char [0; 0]
     = Py.Raise (Py.ValueError "Inconsistent input: bit '1' with basis '0' in B92").
Proof. repeat split; reflexivity. Qed.

(** C5, as the code has it.  For [num_bits] bits and [num_bits] bases, each
    basis 0 or 1: when some position violates the pairing rule, encoding
    stops at the first such position with a [ValueError] whose message names
    the violated pairing, not the position, and the protocol returns two
    empty keys without handing any circuit to the simulator; when no
    position violates the rule, encoding returns a circuit on [num_bits]
    qubits that prepares qubit [i] with one Hadamard gate for basis 1 and
    with nothing for basis 0. *)
Theorem b92_encode_pairing_rule (num_bits : nat) (alice_bits : list ascii)
  (alice_bases : list Z) :
  length alice_bits = num_bits ->
  B92.bases_ok num_bits alice_bases = true ->
  match B92.first_violation alice_bits alice_bases with
  | Some i =>
      exists bit basis,
        alice_bits !! i = Some bit /\ alice_bases !! i = Some basis
        /\ B92.violates bit basis = true
        /\ (forall j b s, (j < i)%nat -> alice_bits !! j = Some b ->
                          alice_bases !! j = Some s -> B92.violates b s = false)
        /\ B92.encode_b92_with_alice_basis alice_bits alice_bases
           = Py.Raise (Py.ValueError (B92.violation_message bit))
        /\ forall simulator bob_measurement_bases ch,
             B92.b92_protocol_user_input_bases_bits_bob simulator num_bits
               alice_bases alice_bits bob_measurement_bases ch
             = Py.Ok (""%string, ""%string, ch)
  | None =>
      exists qc,
        B92.encode_b92_with_alice_basis alice_bits alice_bases = Py.Ok qc
        /\ Qiskit.num_qubits qc = num_bits
        /\ forall i basis, alice_bases !! i = Some basis ->
             B92.preparation qc i = if basis =? 1 then [Qiskit.h i] else []
  end.
Proof.
  intros Hl Hbases. apply bases_ok_inv in Hbases as [Hlb Hbin].
  assert (Henc : B92.encode_b92_with_alice_basis alice_bits alice_bases
                 = match B92.first_violation alice_bits alice_bases with
                   | Some i => Py.Raise (Py.ValueError
                                 (B92.violation_message (nth i alice_bits "0"%char)))
                   | None => Py.Ok (Qiskit.with_data
                                      (Qiskit.new (length alice_bits) (length alice_bits))
                                      (B92.h_gates 0 alice_bases))
                   end).
  { unfold B92.encode_b92_with_alice_basis, B92.enumerate.
    rewrite encode_loop, encode_trace_spec by (auto; congruence).
    now destruct (B92.first_violation alice_bits alice_bases). }
  destruct (B92.first_violation alice_bits alice_bases) as [i|] eqn:F.
  - destruct (first_violation_Some _ _ _ F) as (bit & basis & Hb & Hs & Hv & Hn & Hfirst).
    exists bit, basis. rewrite Hn in Henc. repeat split; auto.
    intros simulator bob ch. unfold B92.b92_protocol_user_input_bases_bits_bob.
    rewrite sent_states_loop, bind_Ok by exact Hbin. now rewrite Henc.
  - eexists. split; [exact Henc|]. split; [cbn; exact Hl|].
    intros i basis Hi. unfold B92.preparation. cbn [Qiskit.with_data Qiskit.data
      Qiskit.new app]. rewrite h_gates_preparation.
    destruct (decide (0 <= i)%nat); [|lia].
    rewrite Nat.sub_0_r, Hi. reflexivity.
Qed.

Lemma b92_encode_pairing_rule_witness :
  B92.bases_ok 2 [0; 1] = true
  /\ B92.encode_b92_with_alice_basis ["0"; "0"]%char [0; 1]
     = Py.Raise (Py.ValueError "Inconsistent input: bit '0' with basis '1' in B92")
  /\ exists qc, B92.encode_b92_with_alice_basis ["0"; "1"]%char [0; 1] = Py.Ok qc
                /\ Qiskit.num_qubits qc = 2%nat.
Proof.
  split; [reflexivity|]. split.
  - destruct (b92_encode_pairing_rule 2 ["0"; "0"]%char [0; 1] eq_refl eq_refl)
      as (bit & basis & Hb & _ & _ & _ & He & _).
    injection Hb as <-. exact He.
  - destruct (b92_encode_pairing_rule 2 ["0"; "1"]%char [0; 1] eq_refl eq_refl)
      as (qc & He & Hn & _).
    exists qc. split; assumption.
Defined.

(** C9. For the bases and bits the prompts let through, whenever encoding
    succeeds, the protocol returns the same key to both parties, whatever
    string of [num_bits] outcomes the simulator answers: the key is the
    receiver's sequence of derived bits. *)
Theorem b92_keys_agree (simulator : Qiskit.QuantumCircuit -> string)
  (num_bits : nat) (alice_bases : list Z) (alice_bits : list ascii)
  (bob_measurement_bases : list Z) (ch : B92.channel)
  (quantum_channel : Qiskit.QuantumCircuit) :
  B92.bases_ok num_bits alice_bases = true ->
  B92.bits_ok num_bits alice_bits = true ->
  B92.bases_ok num_bits bob_measurement_bases = true ->
  (forall qc, String.length (simulator qc) = num_bits) ->
  B92.encode_b92_with_alice_basis alice_bits alice_bases = Py.Ok quantum_channel ->
  exists combined_circuit,
    let key := string_of_list_ascii
                 (B92.receiver_bits num_bits (map B92.state_of_basis alice_bases)
                    bob_measurement_bases (simulator combined_circuit)) in
    B92.b92_protocol_user_input_bases_bits_bob simulator num_bits alice_bases
      alice_bits bob_measurement_bases ch
    = Py.Ok (key, key, ch ++ [combined_circuit]).
Proof.
  intros Hab Hbits Hbb Hsim Henc.
  apply bases_ok_inv in Hab as [Lab Bab]. apply bases_ok_inv in Hbb as [Lbb Bbb].
  apply bits_ok_inv in Hbits as [Lbits Bbits].
  assert (Hnone : B92.first_violation alice_bits alice_bases = None).
  { revert Henc. unfold B92.encode_b92_with_alice_basis, B92.enumerate.
    rewrite encode_loop, encode_trace_spec by (auto; congruence).
    destruct (B92.first_violation alice_bits alice_bases); [discriminate|auto]. }
  unfold B92.b92_protocol_user_input_bases_bits_bob.
  rewrite sent_states_loop, bind_Ok by exact Bab. cbn [app]. rewrite Henc.
  unfold B92.measure_b92, B92.enumerate.
  destruct (measure_loop_ok bob_measurement_bases 0
              (Qiskit.new num_bits num_bits) Bbb) as [meas ->].
  rewrite !bind_Ok.
  exists (Qiskit.compose quantum_channel meas). cbn zeta.
  unfold B92.sift, Py.for_range.
  rewrite sift_loop by (rewrite ?length_map, ?Hsim; lia).
  rewrite !bind_Ok. cbn [app]. unfold B92.agreed_key.
  rewrite agreed_key_loop.
  - rewrite bind_Ok. cbn [app].
    rewrite (omap_filter_agree
               (B92.key_bit_at (map B92.state_of_basis alice_bases)
                  bob_measurement_bases
                  (simulator (Qiskit.compose quantum_channel meas)))).
    + reflexivity.
    + intros i key _ Hk.
      apply (key_bit_is_sent_bit alice_bases alice_bits bob_measurement_bases
               _ i key Bbits Bab ltac:(congruence) Hnone Hk).
  - apply list.Forall_forall. intros i Hi.
    apply list_elem_of_filter in Hi as [_ Hi]. apply elem_of_seq in Hi. lia.
Qed.

Lemma b92_keys_agree_witness :
  B92.bits_ok 2 ["0"; "1"]%char = true
  /\ exists combined_circuit,
       B92.b92_protocol_user_input_bases_bits_bob (fun _ => "11"%string) 2
         [0; 1] ["0"; "1"]%char [1; 0] []
       = Py.Ok ("01"%string, "01"%string, [combined_circuit]).
Proof.
  split; [reflexivity|].
  exact (b92_keys_agree (fun _ => "11"%string) 2 [0; 1] ["0"; "1"]%char [1; 0] []
           {| Qiskit.num_qubits := 2; Qiskit.num_clbits := 2;
              Qiskit.data := [Qiskit.h 1] |}
           eq_refl eq_refl eq_refl (fun _ => eq_refl) eq_refl).
Defined.

(** ** e91.py *)

Section Estimator.
Import E91.

Lemma in_chsh_set_off_diagonal (a b : Z) (ar br : string) :
  in_chsh_set a b = off_diagonal ((a, ar), (b, br)).
Proof.
  unfold in_chsh_set, off_diagonal, basis_index.
  destruct (Z.eqb_spec a 0), (Z.eqb_spec a 1), (Z.eqb_spec a 2),
    (Z.eqb_spec b 0), (Z.eqb_spec b 1), (Z.eqb_spec b 2), (Z.eqb_spec a b);
    subst; try reflexivity; try discriminate; congruence.
Qed.

Lemma collect_contributions (bell_data : list sample) :
  forall correlations : list Z,
  collect bell_data correlations = correlations ++ contributions bell_data.
Proof.
  induction bell_data as [|[[a ar] [b br]] rest IH]; intros acc.
  - cbn. now rewrite app_nil_r.
  - cbn [collect]. rewrite (in_chsh_set_off_diagonal a b ar br).
    unfold contributions. cbn [List.filter].
    destruct (off_diagonal (a, ar, (b, br))).
    + rewrite IH, <- app_assoc. reflexivity.
    + apply IH.
Qed.
End Estimator.

(** C3. A sample enters the list of correlations, with the product of its
    two mapped values, exactly when its pair of basis indices is one of the
    six ordered pairs of different indices among 0, 1 and 2.  The statistic
    is the mean of that list times the square root of 2, in double
    precision, and 0 when the list is empty. *)
Theorem e91_statistic_spec (bell_data : list E91.sample) :
  E91.collect bell_data [] = E91.contributions bell_data
  /\ E91.evaluate_bell_statistic bell_data = E91.statistic_spec bell_data
  /\ (E91.contributions bell_data = [] ->
      E91.evaluate_bell_statistic bell_data = PrimFloat.zero)
  /\ forall a b : Z,
       E91.off_diagonal ((a, "0"%string), (b, "0"%string)) = true
       <-> ((a, b) = (0, 1) \/ (a, b) = (0, 2) \/ (a, b) = (1, 0)
            \/ (a, b) = (1, 2) \/ (a, b) = (2, 0) \/ (a, b) = (2, 1)).
Proof.
  assert (Hc : E91.collect bell_data [] = E91.contributions bell_data)
    by apply collect_contributions.
  assert (He : E91.evaluate_bell_statistic bell_data = E91.statistic_spec bell_data).
  { unfold E91.evaluate_bell_statistic, E91.statistic_spec. rewrite Hc.
    destruct (E91.contributions bell_data); reflexivity. }
  split; [exact Hc|]. split; [exact He|]. split.
  - intros Hnil. rewrite He. unfold E91.statistic_spec. now rewrite Hnil.
  - intros a b. unfold E91.off_diagonal, E91.basis_index. split.
    + destruct (Z.eqb_spec a 0), (Z.eqb_spec a 1), (Z.eqb_spec a 2),
        (Z.eqb_spec b 0), (Z.eqb_spec b 1), (Z.eqb_spec b 2), (Z.eqb_spec a b);
        subst; cbn; try discriminate; intros _; try lia; auto 10.
    + intros [H|[H|[H|[H|[H|H]]]]]; injection H as -> ->; reflexivity.
Qed.

(** Sample runs; the two values are 0.4714045207910317 and
    -1.4142135623730951. *)
Example e91_statistic_examples :
  E91.evaluate_bell_statistic
    [((0, "0"), (1, "1")); ((0, "0"), (0, "1")); ((2, "0"), (1, "0"));
     ((2, "1"), (1, "1"))]%string
  = 0x1.e2b7dddfefa66p-2%float
  /\ E91.evaluate_bell_statistic [((0, "0"), (1, "1"))]%string
     = (-0x1.6a09e667f3bcdp+0)%float
  /\ E91.evaluate_bell_statistic [((1, "0"), (1, "1"))]%string = 0%float
  /\ E91.violated [((0, "0"), (1, "1")); ((1, "1"), (2, "0"))]%string = false.
Proof. repeat split; reflexivity. Qed.

Section Decision.
Import E91.

Lemma drawn_S (g : rng) (n : nat) :
  drawn g (S n)
  = tape g (cursor g)
    :: drawn {| tape := tape g; cursor := S (cursor g) |} n.
Proof.
  unfold drawn. cbn [seq map tape cursor]. rewrite Nat.add_0_r. f_equal.
  rewrite <- seq_shift, map_map. apply map_ext. intros k. f_equal. lia.
Qed.

Lemma draw_key_spec (n : nat) : forall (key : list Z) (g : rng),
  draw_key n key g = (key ++ drawn g n, advance g n).
Proof.
  induction n as [|n IH]; intros key g.
  - cbn. rewrite app_nil_r. destruct g as [t c]. unfold advance. cbn.
    now rewrite Nat.add_0_r.
  - cbn [draw_key randint01]. rewrite IH, drawn_S, <- app_assoc.
    unfold advance. cbn [tape cursor app]. do 2 f_equal. lia.
Qed.

Lemma length_drawn (g : rng) (n : nat) : length (drawn g n) = n.
Proof. unfold drawn. now rewrite length_map, length_seq. Qed.

Lemma advance_0 (g : rng) : advance g 0 = g.
Proof. destruct g as [t c]. unfold advance. cbn. now rewrite Nat.add_0_r. Qed.

Lemma e91_protocol_spec (bell_test_data : list sample) (g : rng) :
  e91_protocol_qiskit_user_input bell_test_data g
  = let n := if violated bell_test_data then (length bell_test_data / 2)%nat
             else 0%nat in
    (drawn g n, drawn g n, advance g n).
Proof.
  unfold e91_protocol_qiskit_user_input.
  destruct bell_test_data as [|s rest].
  - assert (Hv : violated [] = false) by reflexivity.
    rewrite Hv. cbn zeta. now rewrite advance_0.
  - destruct (violated (s :: rest)); cbn zeta.
    + now rewrite draw_key_spec.
    + now rewrite advance_0.
Qed.
End Decision.

(** C4. For a sample list that is not empty, of length [n]: when the
    absolute value of the statistic exceeds 2.0 both returned keys have
    length [n / 2], rounded down; otherwise both are empty. *)
Theorem e91_decision_rule (bell_test_data : list E91.sample) (g : E91.rng) :
  bell_test_data <> [] ->
  exists alice_key bob_key g',
    E91.e91_protocol_qiskit_user_input bell_test_data g = (alice_key, bob_key, g')
    /\ E91.bell_violation_threshold = 2%float
    /\ if PrimFloat.ltb E91.bell_violation_threshold
            (PrimFloat.abs (E91.evaluate_bell_statistic bell_test_data))
       then length alice_key = (length bell_test_data / 2)%nat
            /\ length bob_key = (length bell_test_data / 2)%nat
       else alice_key = [] /\ bob_key = [].
Proof.
  intros _. rewrite e91_protocol_spec. fold (E91.violated bell_test_data).
  destruct (E91.violated bell_test_data); cbn zeta;
    do 3 eexists; (split; [reflexivity|]); (split; [reflexivity|]).
  - now rewrite length_drawn.
  - split; reflexivity.
Qed.

Lemma e91_decision_rule_witness :
  [((0, "0"), (1, "1")); ((2, "1"), (1, "1"))]%string <> []
  /\ exists alice_key bob_key g',
       E91.e91_protocol_qiskit_user_input
         [((0, "0"), (1, "1")); ((2, "1"), (1, "1"))]%string
         {| E91.tape := fun _ => 1; E91.cursor := 0 |}
       = (alice_key, bob_key, g')
       /\ alice_key = [] /\ bob_key = [].
Proof.
  split; [discriminate|].
  destruct (e91_decision_rule [((0, "0"), (1, "1")); ((2, "1"), (1, "1"))]%string
              {| E91.tape := fun _ => 1; E91.cursor := 0 |})
    as (ka & kb & g' & Hrun & _ & Hkeys); [discriminate|].
  exists ka, kb, g'. split; [exact Hrun|exact Hkeys].
Defined.

(** C10. The protocol always returns the same key twice.  When the bound is
    exceeded the key is the next [n / 2] draws of the random source, [n]
    being the number of samples; otherwise it is empty.  The result depends
    on the samples only through their number and the outcome of the bound
    check: two sample lists that agree on both give the same result. *)
Theorem e91_keys_equal (bell_test_data : list E91.sample) (g : E91.rng) :
  (exists key g',
     E91.e91_protocol_qiskit_user_input bell_test_data g = (key, key, g')
     /\ key = if E91.violated bell_test_data
              then E91.drawn g (length bell_test_data / 2)
              else [])
  /\ forall other : list E91.sample,
       length other = length bell_test_data ->
       E91.violated other = E91.violated bell_test_data ->
       E91.e91_protocol_qiskit_user_input other g
       = E91.e91_protocol_qiskit_user_input bell_test_data g.
Proof.
  split.
  - rewrite e91_protocol_spec. cbn zeta. do 2 eexists. split; [reflexivity|].
    now destruct (E91.violated bell_test_data).
  - intros other Hl Hv. rewrite !e91_protocol_spec, Hl, Hv. reflexivity.
Qed.

Lemma e91_keys_equal_witness :
  E91.e91_protocol_qiskit_user_input
    [((0, "0"), (1, "1")); ((2, "1"), (1, "0"))]%string
    {| E91.tape := fun _ => 1; E91.cursor := 0 |}
  = E91.e91_protocol_qiskit_user_input
      [((0, "1"), (1, "0")); ((2, "0"), (1, "1"))]%string
      {| E91.tape := fun _ => 1; E91.cursor := 0 |}.
Proof.
  exact (proj2 (e91_keys_equal [((0, "1"), (1, "0")); ((2, "0"), (1, "1"))]%string
                  {| E91.tape := fun _ => 1; E91.cursor := 0 |})
           [((0, "0"), (1, "1")); ((2, "1"), (1, "0"))]%string eq_refl eq_refl).
Defined.

(* ===================================================================== *)
(** * Part III: further properties of the three scripts                   *)
(* ===================================================================== *)

(** ** bb84.py: reconciliation on any four sequences *)

Section ReconciliationEdges.
Import Py BB84.

Variables Sam_bases Ron_bases Sam_bits Ron_results : list Z.

Local Abbreviation step :=
  (reconcile_step Sam_bases Ron_bases Sam_bits Ron_results).
Local Abbreviation agree := (fun i : nat => Sam_bases !! i = Ron_bases !! i).

(** Position [i] can be visited without an [IndexError]. *)
Local Abbreviation safe := (fun i : nat =>
  (i < length Ron_bases)%nat
  /\ (Sam_bases !! i = Ron_bases !! i ->
      (i < length Sam_bits)%nat /\ (i < length Ron_results)%nat)).

Lemma reconcile_step_safe (ks kr : list Z) (i : nat) :
  (i < length Sam_bases)%nat -> safe i ->
  step (ks, kr) i = Ok (ks ++ pick Sam_bits (filter agree [i]),
                        kr ++ pick Ron_results (filter agree [i])).
Proof.
  intros H1 [H2 H34]. unfold reconcile_step.
  destruct (getitem_lt _ _ H1) as (sb & Hsb & ->).
  destruct (getitem_lt _ _ H2) as (rb & Hrb & ->).
  rewrite !bind_Ok.
  destruct (Z.eqb_spec sb rb) as [->|Hne].
  - destruct H34 as [H3 H4]; [congruence|].
    destruct (getitem_lt _ _ H3) as (b & Hb & ->).
    destruct (getitem_lt _ _ H4) as (r & Hr & ->).
    rewrite !bind_Ok.
    rewrite filter_cons_True by congruence.
    unfold pick. simpl. now rewrite Hb, Hr.
  - rewrite filter_cons_False by congruence.
    unfold pick. simpl. now rewrite !app_nil_r.
Qed.

Lemma reconcile_step_Ok_safe (keys keys' : list Z * list Z) (i : nat) :
  step keys i = Ok keys' -> (i < length Sam_bases)%nat /\ safe i.
Proof.
  unfold reconcile_step, getitem. destruct keys as [ks kr].
  destruct (Sam_bases !! i) as [sb|] eqn:Hsb; cbn [mbind res_bind Py.bind];
    [|discriminate].
  destruct (Ron_bases !! i) as [rb|] eqn:Hrb; cbn [mbind res_bind Py.bind];
    [|discriminate].
  apply lookup_lt_Some in Hsb, Hrb.
  destruct (Z.eqb_spec sb rb) as [->|Hne].
  - destruct (Sam_bits !! i) eqn:Hb; cbn [mbind res_bind Py.bind]; [|discriminate].
    destruct (Ron_results !! i) eqn:Hr; cbn [mbind res_bind Py.bind];
      [|discriminate].
    apply lookup_lt_Some in Hb, Hr. intros _. auto.
  - intros _. repeat split; auto; congruence.
Qed.

Lemma reconcile_loop_safe (k : nat) : forall (a : nat) (ks kr : list Z),
  (forall i, (a <= i < a + k)%nat -> (i < length Sam_bases)%nat /\ safe i) ->
  for_each (seq a k) step (ks, kr)
  = Ok (ks ++ pick Sam_bits (filter agree (seq a k)),
        kr ++ pick Ron_results (filter agree (seq a k))).
Proof.
  induction k as [|k IH]; intros a ks kr Hsafe.
  - cbn. now rewrite !app_nil_r.
  - cbn [seq for_each].
    destruct (Hsafe a) as [Ha Hs]; [lia|].
    rewrite reconcile_step_safe by assumption. cbn [Py.bind].
    rewrite IH by (intros i Hi; apply Hsafe; lia).
    change (a :: seq (S a) k) with ([a] ++ seq (S a) k).
    now rewrite filter_app, !pick_app, !app_assoc.
Qed.

Lemma reconcile_loop_Ok_safe (k : nat) :
  forall (a : nat) (keys keys' : list Z * list Z),
  for_each (seq a k) step keys = Ok keys' ->
  forall i, (a <= i < a + k)%nat -> (i < length Sam_bases)%nat /\ safe i.
Proof.
  induction k as [|k IH]; intros a keys keys' Hrun i Hi; [lia|].
  cbn [seq for_each] in Hrun.
  destruct (step keys a) as [keys1|e] eqn:E; [|discriminate].
  cbn [Py.bind] in Hrun.
  destruct (decide (i = a)) as [->|Hne].
  - eapply reconcile_step_Ok_safe, E.
  - eapply IH; [exact Hrun|lia].
Qed.

Lemma reconcile_loop_raises (k : nat) :
  forall (a : nat) (keys : list Z * list Z) (e : exn),
  for_each (seq a k) step keys = Raise e ->
  e = IndexError "list index out of range".
Proof.
  induction k as [|k IH]; intros a keys e Hrun; [discriminate|].
  cbn [seq for_each] in Hrun.
  destruct (step keys a) as [keys1|e1] eqn:E; cbn [Py.bind] in Hrun.
  - eapply IH, Hrun.
  - injection Hrun as <-. eapply reconcile_step_raises, E.
Qed.

Lemma pick_sublist (vs : list Z) (P : nat -> Prop) `{!forall i, Decision (P i)}
  (k : nat) : forall a : nat,
  pick vs (filter P (seq a k)) `sublist_of` drop a vs.
Proof.
  induction k as [|k IH]; intros a; [apply sublist_nil_l|].
  cbn [seq]. specialize (IH (S a)).
  destruct (vs !! a) as [v|] eqn:Hv.
  - rewrite (drop_S _ _ _ Hv).
    destruct (decide (P a)).
    + rewrite filter_cons_True by assumption. unfold pick in *.
      cbn [omap list_omap]. rewrite Hv. now apply sublist_skip.
    + rewrite filter_cons_False by assumption. now apply sublist_cons.
  - apply lookup_ge_None in Hv.
    rewrite drop_ge in IH by lia. apply sublist_nil_r in IH.
    destruct (decide (P a)).
    + rewrite filter_cons_True by assumption. unfold pick in *.
      cbn [omap list_omap]. rewrite (lookup_ge_None_2 vs a) by lia.
      rewrite IH. apply sublist_nil_l.
    + rewrite filter_cons_False by assumption. unfold pick in *.
      rewrite IH. apply sublist_nil_l.
Qed.

Lemma pick_seq_all (vs : list Z) (k : nat) : forall a : nat,
  (a + k <= length vs)%nat -> pick vs (seq a k) = take k (drop a vs).
Proof.
  induction k as [|k IH]; intros a Ha; [reflexivity|].
  cbn [seq]. unfold pick in *. cbn [omap list_omap].
  destruct (lookup_lt_is_Some_2 vs a) as [v Hv]; [lia|].
  rewrite Hv, (drop_S _ _ _ Hv). cbn [take]. f_equal. apply IH. lia.
Qed.
End ReconciliationEdges.

(** X1.  When the receiver used the sender's bases at every position,
    nothing is discarded: the two keys are the two value sequences. *)
Theorem basis_reconciliation_same_bases (bases Sam_bits Ron_results : list Z) :
  length Sam_bits = length bases ->
  length Ron_results = length bases ->
  BB84.basis_reconciliation bases bases Sam_bits Ron_results
  = Py.Ok (Sam_bits, Ron_results).
Proof.
  intros H1 H2. unfold BB84.basis_reconciliation, Py.for_range.
  rewrite reconcile_loop by lia. cbn [app].
  assert (Hall : filter (fun i : nat => bases !! i = bases !! i)
                   (seq 0 (length bases)) = seq 0 (length bases)).
  { induction (seq 0 (length bases)) as [|i l IH]; [reflexivity|].
    rewrite filter_cons_True by reflexivity. now rewrite IH. }
  rewrite Hall, !pick_seq_all by lia.
  rewrite !drop_0, <- H1 at 1. rewrite <- H2, !firstn_all. reflexivity.
Qed.

Lemma basis_reconciliation_same_bases_witness :
  BB84.basis_reconciliation [0; 1; 1] [0; 1; 1] [1; 0; 1] [0; 0; 1]
  = Py.Ok ([1; 0; 1], [0; 0; 1]).
Proof.
  exact (basis_reconciliation_same_bases [0; 1; 1] [1; 0; 1] [0; 0; 1]
           eq_refl eq_refl).
Defined.

(** X2.  [basis_reconciliation] returns exactly when every position of
    [Sam_bases] exists in [Ron_bases] and, where the two bases agree, in
    [Sam_bits] and [Ron_results] too; it then returns the values at the
    agreeing positions.  In every other case it stops with Python's
    [IndexError], and with no other error. *)
Theorem basis_reconciliation_fails_exactly
  (Sam_bases Ron_bases Sam_bits Ron_results : list Z) :
  ((forall i, (i < length Sam_bases)%nat ->
      (i < length Ron_bases)%nat
      /\ (Sam_bases !! i = Ron_bases !! i ->
          (i < length Sam_bits)%nat /\ (i < length Ron_results)%nat))
   <-> BB84.basis_reconciliation Sam_bases Ron_bases Sam_bits Ron_results
       = Py.Ok (BB84.reconcile_spec Sam_bases Ron_bases Sam_bits Ron_results))
  /\ (forall keys,
        BB84.basis_reconciliation Sam_bases Ron_bases Sam_bits Ron_results
        = Py.Ok keys ->
        keys = BB84.reconcile_spec Sam_bases Ron_bases Sam_bits Ron_results)
  /\ (forall e,
        BB84.basis_reconciliation Sam_bases Ron_bases Sam_bits Ron_results
        = Py.Raise e ->
        e = Py.IndexError "list index out of range").
Proof.
  unfold BB84.basis_reconciliation, Py.for_range.
  assert (Hok : forall keys,
    Py.for_each (seq 0 (length Sam_bases))
      (BB84.reconcile_step Sam_bases Ron_bases Sam_bits Ron_results) ([], [])
    = Py.Ok keys ->
    forall i, (i < length Sam_bases)%nat ->
      (i < length Ron_bases)%nat
      /\ (Sam_bases !! i = Ron_bases !! i ->
          (i < length Sam_bits)%nat /\ (i < length Ron_results)%nat)).
  { intros keys Hrun i Hi.
    eapply (reconcile_loop_Ok_safe _ _ _ _ _ 0); [exact Hrun|lia]. }
  split; [split|split].
  - intros Hsafe. rewrite reconcile_loop_safe; [reflexivity|].
    intros i Hi. split; [lia|]. apply Hsafe. lia.
  - apply Hok.
  - intros keys Hrun. pose proof (Hok keys Hrun) as Hsafe.
    rewrite reconcile_loop_safe in Hrun.
    + injection Hrun as <-. reflexivity.
    + intros i Hi. split; [lia|]. apply Hsafe. lia.
  - intros e Hrun. eapply reconcile_loop_raises, Hrun.
Qed.

(** X3.  Whatever the lengths, a returned key is a subsequence of the
    values it was taken from: reconciliation drops elements and never
    reorders or adds any. *)
Theorem basis_reconciliation_subsequences
  (Sam_bases Ron_bases Sam_bits Ron_results shared_key_Sam shared_key_Ron : list Z) :
  BB84.basis_reconciliation Sam_bases Ron_bases Sam_bits Ron_results
  = Py.Ok (shared_key_Sam, shared_key_Ron) ->
  shared_key_Sam `sublist_of` Sam_bits /\ shared_key_Ron `sublist_of` Ron_results.
Proof.
  unfold BB84.basis_reconciliation, Py.for_range. intros Hrun.
  pose proof (reconcile_loop_Ok_safe _ _ _ _ _ 0 _ _ Hrun) as Hsafe.
  rewrite reconcile_loop_safe in Hrun by (intros i Hi; apply Hsafe; lia).
  injection Hrun as <- <-. cbn [app].
  split.
  - exact (pick_sublist Sam_bits _ (length Sam_bases) 0).
  - exact (pick_sublist Ron_results _ (length Sam_bases) 0).
Qed.

Lemma basis_reconciliation_subsequences_witness :
  [1; 1] `sublist_of` [1; 0; 1] /\ [0; 1] `sublist_of` [0; 0; 1].
Proof.
  exact (basis_reconciliation_subsequences [0; 1; 1] [0; 0; 1] [1; 0; 1] [0; 0; 1]
           [1; 1] [0; 1] eq_refl).
Defined.

(** ** bb84.py: transmission, measurement and the whole script *)

Section Transmission.
Import Py Qiskit BB84.

Lemma Sam_loop_data_longer (bits : list Z) : forall (bases pb ps : list Z) qc,
  length pb = length ps -> (length bits <= length bases)%nat ->
  for_each (seq (length pb) (length bits))
    (Sam_step (pb ++ bits) (ps ++ bases)) qc
  = Ok (with_data qc (Sam_data (length pb) bits bases)).
Proof.
  induction bits as [|bit bits IH]; intros bases pb ps qc Hp Hl.
  - cbn. now rewrite with_data_nil.
  - destruct bases as [|basis bases]; [cbn in Hl; lia|].
    cbn [length seq for_each Sam_data].
    rewrite (Sam_step_data _ _ _ _ bit basis).
    + cbn [Py.bind].
      specialize (IH bases (pb ++ [bit]) (ps ++ [basis])).
      rewrite !length_app in IH. cbn [length] in IH.
      rewrite <- !app_assoc in IH. cbn [app] in IH.
      replace (length pb + 1)%nat with (S (length pb)) in IH by lia.
      rewrite IH, ?with_data_app; [reflexivity| lia |]. cbn in Hl. lia.
    + apply list_lookup_middle. reflexivity.
    + apply list_lookup_middle. exact Hp.
Qed.

Lemma Sam_step_raises (Sam_bits Sam_bases : list Z) qc i e :
  Sam_step Sam_bits Sam_bases qc i = Raise e ->
  e = IndexError "list index out of range".
Proof.
  unfold Sam_step, getitem.
  destruct (Sam_bits !! i) as [bit|]; cbn [mbind res_bind Py.bind]; [|congruence].
  destruct (Sam_bases !! i) as [basis|]; cbn [mbind res_bind Py.bind];
    [|congruence].
  destruct (basis =? 0), (bit =? 1), (bit =? 0); discriminate.
Qed.

Lemma Sam_loop_short (Sam_bits Sam_bases : list Z) (k : nat) :
  forall (a : nat) qc,
  (a + k <= length Sam_bits)%nat -> (a <= length Sam_bases < a + k)%nat ->
  for_each (seq a k) (Sam_step Sam_bits Sam_bases) qc
  = Raise (IndexError "list index out of range").
Proof.
  induction k as [|k IH]; intros a qc H1 H2; [lia|].
  cbn [seq for_each].
  destruct (Sam_step Sam_bits Sam_bases qc a) as [qc'|e] eqn:E.
  - cbn [Py.bind]. apply IH; [lia|]. split; [|lia].
    destruct (decide (length Sam_bases <= a)%nat) as [Hle|]; [|lia].
    exfalso. revert E. unfold Sam_step.
    destruct (getitem_lt Sam_bits a) as (b & _ & ->); [lia|].
    rewrite (getitem_ge Sam_bases a Hle). discriminate.
  - cbn [Py.bind]. f_equal. eapply Sam_step_raises, E.
Qed.

Lemma outcomes_own_bases (bits : list Z) :
  forall (bases : list Z) (cs : nat -> bool) (n : nat),
  length bits = length bases ->
  (forall i v, bits !! i = Some v -> v = 0 \/ v = 1) ->
  (forall i v, bases !! i = Some v -> v = 0 \/ v = 1) ->
  map Z_of_bool (outcomes (zip_with prepared bits bases) bases cs n) = bits.
Proof.
  intros bases cs n Hl Hb Hs. apply list_eq. intros i.
  destruct (bits !! i) as [bit|] eqn:Hbit.
  - destruct (lookup_lt_is_Some_2 bases i) as [basis Hbasis].
    { rewrite <- Hl. eapply lookup_lt_Some; eauto. }
    eapply outcomes_match; eauto.
  - apply lookup_ge_None in Hbit. apply lookup_ge_None.
    rewrite length_map, outcomes_length; [lia|].
    rewrite length_zip_with. lia.
Qed.
End Transmission.

(** X4.  [Sam_transmission_multi_qubit] returns one circuit, on as many
    qubits as there are bits, whenever there are at least as many bases as
    bits; bases beyond the last bit are ignored.  With fewer bases than
    bits it stops with Python's [IndexError]. *)
Theorem Sam_transmission_lengths (Sam_bits Sam_bases : list Z) :
  ((length Sam_bits <= length Sam_bases)%nat ->
   BB84.Sam_transmission_multi_qubit Sam_bits Sam_bases
   = Py.Ok [ {| Qiskit.num_qubits := length Sam_bits;
                Qiskit.num_clbits := length Sam_bits;
                Qiskit.data := BB84.Sam_data 0 Sam_bits Sam_bases |} ])
  /\ ((length Sam_bases < length Sam_bits)%nat ->
      BB84.Sam_transmission_multi_qubit Sam_bits Sam_bases
      = Py.Raise (Py.IndexError "list index out of range")).
Proof.
  unfold BB84.Sam_transmission_multi_qubit, Py.for_range. split; intros H.
  - rewrite (Sam_loop_data_longer Sam_bits Sam_bases [] []) by auto.
    reflexivity.
  - rewrite Sam_loop_short by lia. reflexivity.
Qed.

Lemma Sam_transmission_lengths_witness :
  BB84.Sam_transmission_multi_qubit [1; 0] [0; 1; 1]
  = Py.Ok [ {| Qiskit.num_qubits := 2; Qiskit.num_clbits := 2;
               Qiskit.data := [Qiskit.x 0; Qiskit.h 1] |} ]
  /\ BB84.Sam_transmission_multi_qubit [1; 0] [0]
     = Py.Raise (Py.IndexError "list index out of range").
Proof.
  split.
  - apply (proj1 (Sam_transmission_lengths [1; 0] [0; 1; 1])). simpl. lia.
  - apply (proj2 (Sam_transmission_lengths [1; 0] [0])). simpl. lia.
Defined.

(** X5.  Round trip on the simulator: measuring the transmitted circuit in
    the bases it was prepared in, before any noise, returns the bits that
    were sent, whatever the coins of the simulator. *)
Theorem bb84_measure_own_bases (cs : nat -> bool) (num_bits : nat)
  (Sam_bits Sam_bases : list Z) (circuits : list Qiskit.QuantumCircuit) :
  BB84.user_input_ok num_bits Sam_bits = true ->
  BB84.user_input_ok num_bits Sam_bases = true ->
  BB84.Sam_transmission_multi_qubit Sam_bits Sam_bases = Py.Ok circuits ->
  BB84.Ron_measure (Qiskit.run_shot cs) circuits Sam_bases = Py.Ok Sam_bits.
Proof.
  intros Hb Hs Hc.
  destruct (user_input_ok_inv _ _ Hb) as [Lb Bb].
  destruct (user_input_ok_inv _ _ Hs) as [Ls Bs].
  rewrite Sam_transmission_data in Hc by congruence. injection Hc as <-.
  rewrite Ron_measure_run_shot by congruence.
  rewrite outcomes_own_bases; auto. congruence.
Qed.

Lemma bb84_measure_own_bases_witness :
  BB84.user_input_ok 3 [1; 0; 1] = true
  /\ BB84.Ron_measure (Qiskit.run_shot (fun _ => false))
       [ {| Qiskit.num_qubits := 3; Qiskit.num_clbits := 3;
            Qiskit.data := [Qiskit.x 0; Qiskit.h 1; Qiskit.h 2; Qiskit.z 2] |} ]
       [0; 1; 1]
     = Py.Ok [1; 0; 1].
Proof.
  split; [reflexivity|].
  exact (bb84_measure_own_bases (fun _ => false) 3 [1; 0; 1] [0; 1; 1] _
           eq_refl eq_refl eq_refl).
Defined.

(** X6.  The whole pipeline for any noise probability, on the simulator:
    the sender's key is the sender's bits at the positions where the bases
    agree and does not depend on the noise; the receiver's key is the same
    bits, each flipped exactly when the draw of its own position is below
    the probability; one draw is taken per transmitted bit. *)
Theorem bb84_main_any_noise (cs : nat -> bool) (p : Q) (num_bits : nat)
  (Sam_bits Sam_bases Ron_bases : list Z) (g : BB84.rng) :
  BB84.user_input_ok num_bits Sam_bits = true ->
  BB84.user_input_ok num_bits Sam_bases = true ->
  BB84.user_input_ok num_bits Ron_bases = true ->
  BB84.main (Qiskit.run_shot cs) p Sam_bits Sam_bases Ron_bases g
  = Py.Ok (BB84.pick Sam_bits (BB84.matching_positions Sam_bases Ron_bases),
           BB84.pick (imap (BB84.flipped_by g p) Sam_bits)
             (BB84.matching_positions Sam_bases Ron_bases),
           BB84.advance g num_bits).
Proof.
  intros Hb Hs Hr.
  destruct (user_input_ok_inv _ _ Hb) as [Lb _].
  destruct (user_input_ok_inv _ _ Hs) as [Ls _].
  destruct (user_input_ok_inv _ _ Hr) as [Lr _].
  unfold BB84.main.
  rewrite Sam_transmission_data, bind_Ok by congruence.
  unfold BB84.Ron_measurement_multi_qubit_with_noise.
  rewrite Ron_measure_run_shot, !bind_Ok by congruence.
  rewrite noise_loop_spec. cbn [app].
  unfold BB84.basis_reconciliation, Py.for_range.
  assert (Lo : length (BB84.outcomes (zip_with BB84.prepared Sam_bits Sam_bases)
                         Ron_bases cs 0) = num_bits).
  { rewrite outcomes_length; [exact Lr|]. rewrite length_zip_with. lia. }
  rewrite reconcile_loop by (rewrite ?length_imap, ?length_map; lia).
  rewrite bind_Ok. cbn [app].
  rewrite (pick_ext (imap _ (map BB84.Z_of_bool _))
             (imap (BB84.flipped_by g p) Sam_bits)).
  - rewrite length_map, Lo. reflexivity.
  - intros i Hi. rewrite !list_lookup_imap.
    now rewrite (measured_at_matching cs num_bits Sam_bits Sam_bases Ron_bases i).
Qed.

Lemma bb84_main_any_noise_witness :
  BB84.user_input_ok 4 [0;1;1;0] = true
  /\ BB84.main (Qiskit.run_shot (fun _ => true)) (1#2) [0;1;1;0] [0;1;0;1] [0;1;1;1]
       {| BB84.tape := fun k => (Z.of_nat k # 4)%Q; BB84.cursor := 0 |}
     = Py.Ok ([0;1;0], [1;0;0],
              {| BB84.tape := fun k => (Z.of_nat k # 4)%Q; BB84.cursor := 4 |}).
Proof.
  split; [reflexivity|].
  exact (bb84_main_any_noise (fun _ => true) (1#2) 4
           [0;1;1;0] [0;1;0;1] [0;1;1;1]
           {| BB84.tape := fun k => (Z.of_nat k # 4)%Q; BB84.cursor := 0 |}
           eq_refl eq_refl eq_refl).
Defined.

Lemma bind_unfold {A B : Type} (m : Console.io A) (k : A -> Console.io B)
  (stdin : list string) :
  Console.bind m k stdin
  = match m stdin with
    | Console.Got v rest => k v rest
    | Console.EOFError => Console.EOFError
    | Console.Raised e => Console.Raised e
    end.
Proof. reflexivity. Qed.

Lemma bind_Got {A B : Type} (m : Console.io A) (k : A -> Console.io B)
  (stdin : list string) (v : A) (rest : list string) :
  m stdin = Console.Got v rest -> Console.bind m k stdin = k v rest.
Proof. unfold Console.bind. now intros ->. Qed.

Lemma bind_EOF {A B : Type} (m : Console.io A) (k : A -> Console.io B)
  (stdin : list string) :
  m stdin = Console.EOFError -> Console.bind m k stdin = Console.EOFError.
Proof. unfold Console.bind. now intros ->. Qed.

Section BB84Prompts.
Import Py Console BB84_script.

Lemma ints_of_chars_01 (cs : list ascii) :
  forallb in_01 cs = true ->
  BB84.ints_of_chars cs = Ok (map (fun c => if Ascii.eqb c "1" then 1 else 0) cs).
Proof.
  induction cs as [|c cs IH]; [reflexivity|].
  cbn [forallb]. intros H. apply andb_prop in H as [Hc Hcs].
  cbn [BB84.ints_of_chars map]. rewrite (IH Hcs).
  unfold in_01 in Hc. apply orb_prop in Hc as [Hc|Hc];
    apply Ascii.eqb_eq in Hc; subst c; reflexivity.
Qed.

Lemma accepts_iff (num_bits : nat) (line : string) :
  (String.length line =? num_bits)%nat
  && forallb in_01 (list_ascii_of_string line) = true
  <-> acceptable num_bits line.
Proof.
  unfold acceptable. rewrite andb_true_iff, Nat.eqb_eq, forallb_forall.
  split; intros [Hl Hc]; (split; [exact Hl|]); intros c Hin.
  - specialize (Hc c Hin). unfold in_01 in Hc.
    apply orb_prop in Hc as [Hc|Hc]; apply Ascii.eqb_eq in Hc; auto.
  - unfold in_01. destruct (Hc c Hin) as [-> | ->]; reflexivity.
Qed.

Lemma length_list_ascii_of_string (s : string) :
  length (list_ascii_of_string s) = String.length s.
Proof. induction s as [|c s IH]; cbn; [reflexivity|]. now rewrite IH. Qed.

Lemma digits_ok (num_bits : nat) (line : string) :
  acceptable num_bits line -> BB84.user_input_ok num_bits (digits line) = true.
Proof.
  intros [Hl Hc]. unfold BB84.user_input_ok, digits.
  rewrite length_map, length_list_ascii_of_string, Hl, Nat.eqb_refl.
  cbn [andb]. apply forallb_forall. intros v Hv.
  apply in_map_iff in Hv as (c & <- & _).
  now destruct (Ascii.eqb c "1").
Qed.

Lemma get_user_bases_multi_same (num_bits : nat) (stdin : list string) :
  get_user_bases_multi num_bits stdin = get_user_bits_multi num_bits stdin.
Proof.
  induction stdin as [|line rest IH]; [reflexivity|].
  cbn [get_user_bases_multi get_user_bits_multi]. now rewrite IH.
Qed.

Lemma get_user_bits_multi_cases (num_bits : nat) (stdin : list string) :
  get_user_bits_multi num_bits stdin = EOFError
  \/ exists line rest,
       get_user_bits_multi num_bits stdin = Got (digits line) rest
       /\ acceptable num_bits line /\ In line stdin /\ suffix rest stdin.
Proof.
  induction stdin as [|line rest IH]; [now left|].
  cbn [get_user_bits_multi].
  destruct ((String.length line =? num_bits)%nat
            && forallb in_01 (list_ascii_of_string line)) eqn:E.
  - right. exists line, rest.
    rewrite ints_of_chars_01 by (apply andb_prop in E; tauto).
    repeat split; try (apply accepts_iff in E; apply E); [now left|].
    exists [line]. reflexivity.
  - destruct IH as [->|(l & r & -> & Ha & Hin & Hs)]; [now left|].
    right. exists l, r. repeat split; try apply Ha; [now right|].
    now apply suffix_cons_r.
Qed.
End BB84Prompts.

(** X7.  Each of the two prompts of bb84.py skips the lines it refuses and
    returns the digits of the first line that has [num_bits] characters,
    all '0' or '1', leaving the lines after it unread; when no such line
    comes, [input()] ends the script with [EOFError]. *)
Theorem bb84_prompt_first_acceptable (num_bits : nat) (refused : list string)
  (line : string) (rest : list string) :
  Forall (fun l => ~ BB84_script.acceptable num_bits l) refused ->
  BB84_script.acceptable num_bits line ->
  BB84_script.get_user_bits_multi num_bits (refused ++ line :: rest)
  = Console.Got (BB84_script.digits line) rest
  /\ BB84_script.get_user_bases_multi num_bits (refused ++ line :: rest)
     = Console.Got (BB84_script.digits line) rest
  /\ BB84_script.get_user_bits_multi num_bits refused = Console.EOFError
  /\ BB84_script.get_user_bases_multi num_bits refused = Console.EOFError.
Proof.
  intros Hrefused Hline.
  change BB84_script.get_user_bases_multi with BB84_script.get_user_bits_multi.
  assert (H : BB84_script.get_user_bits_multi num_bits (refused ++ line :: rest)
              = Console.Got (BB84_script.digits line) rest
              /\ BB84_script.get_user_bits_multi num_bits refused
                 = Console.EOFError).
  { induction Hrefused as [|l refused Hl _ IH].
    - split; [|reflexivity]. cbn [app BB84_script.get_user_bits_multi].
      rewrite (proj2 (accepts_iff num_bits line) Hline).
      rewrite ints_of_chars_01; [reflexivity|].
      apply accepts_iff in Hline. apply andb_prop in Hline. tauto.
    - cbn [app BB84_script.get_user_bits_multi].
      destruct ((String.length l =? num_bits)%nat
                && forallb BB84_script.in_01 (list_ascii_of_string l)) eqn:E.
      + apply accepts_iff in E. contradiction.
      + exact IH. }
  tauto.
Qed.

Lemma bb84_prompt_first_acceptable_witness :
  BB84_script.get_user_bits_multi 3 ["01"; "012"; "011"; "111"]%string
  = Console.Got [0; 1; 1] ["111"%string].
Proof.
  refine (proj1 (bb84_prompt_first_acceptable 3 ["01"; "012"]%string
                   "011" ["111"%string] _ _)).
  - repeat constructor; intros [Hl Hc]; try discriminate Hl.
    destruct (Hc "2"%char) as [H|H]; [simpl; tauto|discriminate H|discriminate H].
  - split; [reflexivity|]. simpl. intros c [<-|[<-|[<-|[]]]]; tauto.
Defined.

(** X8.  Whatever comes on standard input, a prompt of bb84.py never
    raises [ValueError], and what it returns has exactly [num_bits]
    entries, each 0 or 1, and leaves a suffix of the input unread. *)
Theorem bb84_prompt_postcondition (num_bits : nat) (stdin : list string) :
  match BB84_script.get_user_bits_multi num_bits stdin with
  | Console.Got bits rest =>
      BB84.user_input_ok num_bits bits = true /\ suffix rest stdin
  | Console.EOFError => True
  | Console.Raised _ => False
  end
  /\ BB84_script.get_user_bases_multi num_bits stdin
     = BB84_script.get_user_bits_multi num_bits stdin.
Proof.
  split; [|apply get_user_bases_multi_same].
  destruct (get_user_bits_multi_cases num_bits stdin)
    as [->|(l & r & -> & Ha & _ & Hs)]; [exact I|].
  split; [now apply digits_ok|exact Hs].
Qed.

(** X9.  The script as configured (29 bits, noise level 0), on the
    simulator: whatever comes on standard input, it either runs out of
    input or ends with two equal keys and prints "Shared keys match!"; it
    never stops with another exception. *)
Theorem bb84_script_keys_match (cs : nat -> bool) (g : BB84.rng)
  (stdin : list string) :
  BB84.unit_draws g ->
  BB84_script.script (Qiskit.run_shot cs) g stdin = Console.EOFError
  \/ exists key rest,
       BB84_script.script (Qiskit.run_shot cs) g stdin
       = Console.Got (key, key, true, BB84.advance g 29) rest.
Proof.
  intros Hg. unfold BB84_script.script.
  change BB84_script.get_user_bases_multi with BB84_script.get_user_bits_multi.
  destruct (get_user_bits_multi_cases BB84_script.num_bits stdin)
    as [E1|(l1 & r1 & E1 & Ha1 & _ & _)];
    [left; now apply bind_EOF|rewrite (bind_Got _ _ _ _ _ E1)].
  destruct (get_user_bits_multi_cases BB84_script.num_bits r1)
    as [E2|(l2 & r2 & E2 & Ha2 & _ & _)];
    [left; now apply bind_EOF|rewrite (bind_Got _ _ _ _ _ E2)].
  apply digits_ok in Ha1, Ha2.
  destruct (user_input_ok_inv _ _ Ha1) as [L1 _].
  destruct (user_input_ok_inv _ _ Ha2) as [L2 _].
  erewrite bind_Got
    by (rewrite Sam_transmission_data by congruence; reflexivity).
  destruct (get_user_bits_multi_cases BB84_script.num_bits r2)
    as [E3|(l3 & r3 & E3 & Ha3 & _ & _)];
    [left; now apply bind_EOF|rewrite (bind_Got _ _ _ _ _ E3)].
  apply digits_ok in Ha3.
  pose proof (bb84_noiseless_keys_agree cs _ _ _ _ g Ha1 Ha2 Ha3 Hg) as Hmain.
  unfold BB84.main in Hmain.
  rewrite Sam_transmission_data, bind_Ok in Hmain by congruence.
  unfold BB84_script.noise_level.
  destruct (BB84.Ron_measurement_multi_qubit_with_noise _ _ _ _ _)
    as [[measured g']|e]; [|discriminate].
  rewrite bind_Ok in Hmain.
  erewrite bind_Got by reflexivity. cbn [fst snd].
  destruct (BB84.basis_reconciliation _ _ _ _) as [[ks kr]|e]; [|discriminate].
  rewrite bind_Ok in Hmain. injection Hmain as -> -> ->.
  erewrite bind_Got by reflexivity.
  right. unfold Console.ret. cbn [fst snd].
  rewrite bool_decide_eq_true_2 by reflexivity.
  do 2 eexists. reflexivity.
Qed.

Lemma bb84_script_keys_match_witness :
  BB84_script.script (Qiskit.run_shot (fun _ => true))
    {| BB84.tape := fun _ => (1#2)%Q; BB84.cursor := 0 |} ["01011010010110100101101001011"; "00110011001100110011001100110"; "01100110011001100110011001100"]%string
  = Console.EOFError
  \/ exists key rest,
       BB84_script.script (Qiskit.run_shot (fun _ => true))
         {| BB84.tape := fun _ => (1#2)%Q; BB84.cursor := 0 |} ["01011010010110100101101001011"; "00110011001100110011001100110"; "01100110011001100110011001100"]%string
       = Console.Got (key, key, true,
                      BB84.advance
                        {| BB84.tape := fun _ => (1#2)%Q; BB84.cursor := 0 |} 29)
           rest.
Proof.
  apply (bb84_script_keys_match (fun _ => true)
           {| BB84.tape := fun _ => (1#2)%Q; BB84.cursor := 0 |} ["01011010010110100101101001011"; "00110011001100110011001100110"; "01100110011001100110011001100"]%string).
  intros k. split; unfold Qle, Qlt; simpl; lia.
Defined.

(** ** b92.py: measurement, edge cases and the whole protocol *)

Section B92Measure.
Import Py Qiskit B92 B92_script.

Lemma measure_data_Ron_data (bases : list Z) : forall i : nat,
  measure_data i bases = BB84.Ron_data i bases.
Proof.
  induction bases as [|basis bases IH]; intros i; [reflexivity|].
  cbn [measure_data BB84.Ron_data]. now rewrite IH.
Qed.

Lemma measure_loop_data (bases : list Z) : forall (a : nat) (meas : QuantumCircuit),
  binary_bases bases ->
  for_each (zip (seq a (length bases)) bases) measure_step meas
  = Ok (with_data meas (measure_data a bases)).
Proof.
  induction bases as [|basis bases IH]; intros a meas Hb.
  - cbn. now rewrite with_data_nil.
  - apply binary_bases_tail in Hb as [Hbasis Hb].
    cbn [length seq zip zip_with for_each measure_step measure_data].
    destruct Hbasis as [-> | ->]; cbn [Z.eqb Pos.eqb Py.bind];
      rewrite IH by exact Hb; f_equal; unfold with_data, append; cbn;
      now rewrite <- !app_assoc.
Qed.


Lemma encode_result (alice_bits : list ascii) (alice_bases : list Z) :
  length alice_bits = length alice_bases -> binary_bases alice_bases ->
  encode_b92_with_alice_basis alice_bits alice_bases
  = match first_violation alice_bits alice_bases with
    | Some i => Raise (ValueError (violation_message (nth i alice_bits "0"%char)))
    | None => Ok (with_data (new (length alice_bits) (length alice_bits))
                    (h_gates 0 alice_bases))
    end.
Proof.
  intros Hl Hb. unfold encode_b92_with_alice_basis, enumerate.
  rewrite encode_loop, encode_trace_spec by auto.
  now destruct (first_violation alice_bits alice_bases).
Qed.

Lemma string_get_ge (s : string) : forall i : nat,
  (String.length s <= i)%nat -> String.get i s = None.
Proof.
  induction s as [|c s IH]; intros i Hi; [reflexivity|].
  destruct i as [|i]; cbn in *; [lia|]. apply IH. lia.
Qed.

Lemma sift_step_raises_IndexError (states : list ascii) (bases : list Z)
  (outcomes : string) (kept : list ascii * list nat) (i : nat) (e : exn) :
  (i < length states)%nat -> (i < length bases)%nat ->
  sift_step states bases outcomes kept i = Raise e ->
  e = IndexError "string index out of range".
Proof.
  intros H1 H2. unfold sift_step. destruct kept as [bits idxs].
  destruct (getitem_lt _ _ H1) as (s & _ & ->).
  destruct (getitem_lt _ _ H2) as (b & _ & ->).
  rewrite !bind_Ok. unfold str_getitem.
  destruct (String.get i outcomes) as [o|]; cbn [mbind res_bind Py.bind].
  - destruct (_ && _); [discriminate|]. destruct (_ && _); discriminate.
  - congruence.
Qed.

Lemma sift_loop_short (states : list ascii) (bases : list Z) (outcomes : string)
  (k : nat) : forall (a : nat) (kept : list ascii * list nat),
  (a + k <= length states)%nat -> (a + k <= length bases)%nat ->
  (a <= String.length outcomes < a + k)%nat ->
  for_each (seq a k) (sift_step states bases outcomes) kept
  = Raise (IndexError "string index out of range").
Proof.
  induction k as [|k IH]; intros a kept H1 H2 H3; [lia|].
  cbn [seq for_each].
  destruct (sift_step states bases outcomes kept a) as [kept'|e] eqn:E.
  - cbn [Py.bind]. apply IH; [lia|lia|]. split; [|lia].
    destruct (decide (String.length outcomes <= a)%nat) as [Hle|]; [|lia].
    exfalso. revert E. unfold sift_step. destruct kept as [bits idxs].
    destruct (getitem_lt states a) as (s & _ & ->); [lia|].
    destruct (getitem_lt bases a) as (b & _ & ->); [lia|].
    rewrite !bind_Ok. unfold str_getitem.
    rewrite (string_get_ge _ _ Hle). discriminate.
  - cbn [Py.bind]. f_equal. eapply sift_step_raises_IndexError; [| |exact E]; lia.
Qed.

(** The protocol once encoding has succeeded. *)
Lemma b92_protocol_after_encode (simulator : QuantumCircuit -> string)
  (num_bits : nat) (alice_bases : list Z) (alice_bits : list ascii)
  (bob_bases : list Z) (ch : channel) (qc : QuantumCircuit) :
  length alice_bases = num_bits -> binary_bases alice_bases ->
  length alice_bits = num_bits ->
  length bob_bases = num_bits -> binary_bases bob_bases ->
  encode_b92_with_alice_basis alice_bits alice_bases = Ok qc ->
  let c := with_data qc (measure_data 0 bob_bases) in
  let states := map state_of_basis alice_bases in
  (String.length (simulator c) = num_bits ->
   b92_protocol_user_input_bases_bits_bob simulator num_bits alice_bases
     alice_bits bob_bases ch
   = Ok (string_of_list_ascii
           (omap (fun i => alice_bits !! i)
              (conclusive_positions num_bits states bob_bases (simulator c))),
         string_of_list_ascii
           (receiver_bits num_bits states bob_bases (simulator c)),
         ch ++ [c]))
  /\ ((String.length (simulator c) < num_bits)%nat ->
      b92_protocol_user_input_bases_bits_bob simulator num_bits alice_bases
        alice_bits bob_bases ch
      = Raise (IndexError "string index out of range")).
Proof.
  intros La Ba Lb Lbob Bbob Henc c states.
  assert (Hrun : b92_protocol_user_input_bases_bits_bob simulator num_bits
                   alice_bases alice_bits bob_bases ch
                 = (kept ← sift num_bits states bob_bases (simulator c);
                    agreed_alice_key ← agreed_key alice_bits (snd kept);
                    Ok (string_of_list_ascii agreed_alice_key,
                        string_of_list_ascii (fst kept), ch ++ [c]))).
  { unfold b92_protocol_user_input_bases_bits_bob.
    rewrite sent_states_loop, bind_Ok by exact Ba. cbn [app]. rewrite Henc.
    unfold measure_b92, enumerate.
    rewrite measure_loop_data, !bind_Ok by exact Bbob.
    assert (Hc : compose qc (with_data (new num_bits num_bits)
                               (measure_data 0 bob_bases)) = c) by reflexivity.
    rewrite Hc. fold states.
    destruct (sift num_bits states bob_bases (simulator c)) as [[bits idxs]|e];
      reflexivity. }
  rewrite Hrun. unfold sift, for_range. split; intros Hlen.
  - rewrite sift_loop by (unfold states; rewrite ?length_map; lia).
    rewrite bind_Ok. cbn [app fst snd]. unfold agreed_key.
    rewrite agreed_key_loop; [reflexivity|].
    apply list.Forall_forall. intros i Hi.
    apply list_elem_of_filter in Hi as [_ Hi]. apply elem_of_seq in Hi. lia.
  - rewrite sift_loop_short by (unfold states; rewrite ?length_map; lia).
    reflexivity.
Qed.

Lemma no_key_bit_no_keys (num_bits : nat) (states : list ascii) (bases : list Z)
  (outcomes : string) (alice_bits : list ascii) :
  (forall i, key_bit_at states bases outcomes i = None) ->
  omap (fun i => alice_bits !! i)
    (conclusive_positions num_bits states bases outcomes) = []
  /\ receiver_bits num_bits states bases outcomes = [].
Proof.
  intros Hnone. unfold conclusive_positions, receiver_bits.
  induction (seq 0 num_bits) as [|i l [IH1 IH2]]; [split; reflexivity|].
  rewrite filter_cons_False by (rewrite Hnone; intros [? ?]; discriminate).
  cbn [omap list_omap]. rewrite Hnone. split; assumption.
Qed.
End B92Measure.



Section B92Edges.
Import Py Qiskit B92 B92_script.

Lemma encode_Ok_or_ValueError (alice_bits : list ascii) (alice_bases : list Z) :
  length alice_bits = length alice_bases -> binary_bases alice_bases ->
  (exists qc, encode_b92_with_alice_basis alice_bits alice_bases = Ok qc
              /\ first_violation alice_bits alice_bases = None
              /\ qc = with_data (new (length alice_bits) (length alice_bits))
                        (h_gates 0 alice_bases))
  \/ (exists msg, encode_b92_with_alice_basis alice_bits alice_bases
                  = Raise (ValueError msg)).
Proof.
  intros Hl Hb. rewrite encode_result by assumption.
  destruct (first_violation alice_bits alice_bases); eauto.
Qed.

Lemma same_basis_no_key_bit (bases : list Z) (outcomes : string) (i : nat) :
  key_bit_at (map state_of_basis bases) bases outcomes i = None.
Proof.
  unfold key_bit_at.
  change (map state_of_basis bases) with (state_of_basis <$> bases).
  rewrite list_lookup_fmap.
  destruct (bases !! i) as [basis|]; [|reflexivity].
  cbn [fmap option_fmap option_map mbind option_bind].
  destruct (String.get i outcomes) as [o|]; [|reflexivity].
  cbn [mbind option_bind].
  destruct (key_bit (state_of_basis basis) basis o) as [k|] eqn:E; [|reflexivity].
  exfalso. apply key_bit_Some in E. unfold state_of_basis in E.
  destruct E as [(Hs & -> & _) | (Hs & -> & _)]; discriminate Hs.
Qed.

Lemma no_one_no_key_bit (states : list ascii) (bases : list Z)
  (outcomes : string) (i : nat) :
  (forall j, String.get j outcomes <> Some "1"%char) ->
  key_bit_at states bases outcomes i = None.
Proof.
  intros Hno. unfold key_bit_at.
  destruct (states !! i) as [s|]; [|reflexivity]. cbn [mbind option_bind].
  destruct (bases !! i) as [b|]; [|reflexivity]. cbn [mbind option_bind].
  destruct (String.get i outcomes) as [o|] eqn:Ho; [|reflexivity].
  cbn [mbind option_bind].
  destruct (key_bit s b o) as [k|] eqn:E; [|reflexivity].
  exfalso. apply key_bit_Some in E.
  destruct E as [(_ & _ & -> & _) | (_ & _ & -> & _)]; now apply (Hno i).
Qed.
End B92Edges.

(** X11.  When Bob measures every position in the basis Alice used, no
    position is conclusive: the protocol returns two empty keys, whatever
    the outcomes are and whether or not the encoding was accepted. *)
Theorem b92_same_bases_empty_keys (simulator : Qiskit.QuantumCircuit -> string)
  (num_bits : nat) (bases : list Z) (alice_bits : list ascii) (ch : B92.channel) :
  B92.bases_ok num_bits bases = true ->
  length alice_bits = num_bits ->
  (forall qc, String.length (simulator qc) = num_bits) ->
  exists ch',
    B92.b92_protocol_user_input_bases_bits_bob simulator num_bits bases
      alice_bits bases ch
    = Py.Ok (""%string, ""%string, ch').
Proof.
  intros Hb Hl Hsim. apply bases_ok_inv in Hb as [Lb Bb].
  destruct (encode_Ok_or_ValueError alice_bits bases) as [(qc & He & _)|(msg & He)];
    auto; [congruence| |].
  - destruct (b92_protocol_after_encode simulator num_bits bases alice_bits bases
                ch qc Lb Bb Hl Lb Bb He) as [Hrun _].
    rewrite Hrun by apply Hsim.
    destruct (no_key_bit_no_keys num_bits (map B92.state_of_basis bases) bases
                (simulator (Qiskit.with_data qc (B92_script.measure_data 0 bases)))
                alice_bits) as [-> ->]; [apply same_basis_no_key_bit|].
    eexists. reflexivity.
  - exists ch. unfold B92.b92_protocol_user_input_bases_bits_bob.
    rewrite sent_states_loop, bind_Ok by exact Bb. now rewrite He.
Qed.

Lemma b92_same_bases_empty_keys_witness :
  B92.bases_ok 2 [0; 1] = true
  /\ exists ch',
       B92.b92_protocol_user_input_bases_bits_bob (fun _ => "11"%string) 2
         [0; 1] ["0"; "1"]%char [0; 1] []
       = Py.Ok (""%string, ""%string, ch').
Proof.
  split; [reflexivity|].
  exact (b92_same_bases_empty_keys (fun _ => "11"%string) 2 [0; 1]
           ["0"; "1"]%char [] eq_refl eq_refl (fun _ => eq_refl)).
Defined.

(** X12.  When no outcome is '1', no position is conclusive either: for
    accepted bases and an accepted encoding the protocol returns two empty
    keys. *)
Theorem b92_no_one_empty_keys (simulator : Qiskit.QuantumCircuit -> string)
  (num_bits : nat) (alice_bases : list Z) (alice_bits : list ascii)
  (bob_measurement_bases : list Z) (ch : B92.channel)
  (quantum_channel : Qiskit.QuantumCircuit) :
  B92.bases_ok num_bits alice_bases = true ->
  length alice_bits = num_bits ->
  B92.bases_ok num_bits bob_measurement_bases = true ->
  (forall qc, String.length (simulator qc) = num_bits) ->
  (forall qc j, String.get j (simulator qc) <> Some "1"%char) ->
  B92.encode_b92_with_alice_basis alice_bits alice_bases = Py.Ok quantum_channel ->
  exists ch',
    B92.b92_protocol_user_input_bases_bits_bob simulator num_bits alice_bases
      alice_bits bob_measurement_bases ch
    = Py.Ok (""%string, ""%string, ch').
Proof.
  intros Ha Hl Hb Hsim Hno He.
  apply bases_ok_inv in Ha as [La Ba]. apply bases_ok_inv in Hb as [Lb Bb].
  destruct (b92_protocol_after_encode simulator num_bits alice_bases alice_bits
              bob_measurement_bases ch quantum_channel La Ba Hl Lb Bb He)
    as [Hrun _].
  rewrite Hrun by apply Hsim.
  destruct (no_key_bit_no_keys num_bits (map B92.state_of_basis alice_bases)
              bob_measurement_bases
              (simulator (Qiskit.with_data quantum_channel
                            (B92_script.measure_data 0 bob_measurement_bases)))
              alice_bits) as [-> ->].
  - intros i. apply no_one_no_key_bit. intros j. apply Hno.
  - eexists. reflexivity.
Qed.

Lemma b92_no_one_empty_keys_witness :
  B92.bases_ok 2 [0; 1] = true
  /\ exists ch',
       B92.b92_protocol_user_input_bases_bits_bob (fun _ => "00"%string) 2
         [0; 1] ["0"; "1"]%char [1; 0] []
       = Py.Ok (""%string, ""%string, ch').
Proof.
  split; [reflexivity|].
  refine (b92_no_one_empty_keys (fun _ => "00"%string) 2 [0; 1]
            ["0"; "1"]%char [1; 0] []
            {| Qiskit.num_qubits := 2; Qiskit.num_clbits := 2;
               Qiskit.data := [Qiskit.h 1] |}
            eq_refl eq_refl eq_refl (fun _ => eq_refl) _ eq_refl).
  intros _ [|[|[|j]]]; discriminate.
Defined.

(** X13.  When the simulator answers fewer characters than there are
    transmissions, the sifting loop reads past the end of the answer and
    the protocol stops with [IndexError]; no key is returned. *)
Theorem b92_short_answer_raises (simulator : Qiskit.QuantumCircuit -> string)
  (num_bits : nat) (alice_bases : list Z) (alice_bits : list ascii)
  (bob_measurement_bases : list Z) (ch : B92.channel)
  (quantum_channel : Qiskit.QuantumCircuit) :
  B92.bases_ok num_bits alice_bases = true ->
  length alice_bits = num_bits ->
  B92.bases_ok num_bits bob_measurement_bases = true ->
  (forall qc, (String.length (simulator qc) < num_bits)%nat) ->
  B92.encode_b92_with_alice_basis alice_bits alice_bases = Py.Ok quantum_channel ->
  B92.b92_protocol_user_input_bases_bits_bob simulator num_bits alice_bases
    alice_bits bob_measurement_bases ch
  = Py.Raise (Py.IndexError "string index out of range").
Proof.
  intros Ha Hl Hb Hsim He.
  apply bases_ok_inv in Ha as [La Ba]. apply bases_ok_inv in Hb as [Lb Bb].
  destruct (b92_protocol_after_encode simulator num_bits alice_bases alice_bits
              bob_measurement_bases ch quantum_channel La Ba Hl Lb Bb He)
    as [_ Hrun].
  apply Hrun, Hsim.
Qed.

Lemma b92_short_answer_raises_witness :
  B92.bases_ok 2 [0; 1] = true
  /\ B92.b92_protocol_user_input_bases_bits_bob (fun _ => "1"%string) 2
       [0; 1] ["0"; "1"]%char [1; 0] []
     = Py.Raise (Py.IndexError "string index out of range").
Proof.
  split; [reflexivity|].
  refine (b92_short_answer_raises (fun _ => "1"%string) 2 [0; 1]
            ["0"; "1"]%char [1; 0] []
            {| Qiskit.num_qubits := 2; Qiskit.num_clbits := 2;
               Qiskit.data := [Qiskit.h 1] |}
            eq_refl eq_refl eq_refl _ eq_refl).
  intros _. simpl. lia.
Defined.

Section B92Simulation.
Import Py Qiskit B92 B92_script.

Lemma exec_h_gates (bases : list Z) : forall (pre : list ket) (s : shot),
  qubits s = pre ++ replicate (length bases) Ket0 ->
  fold_left exec (h_gates (length pre) bases) s
  = {| qubits := pre ++ map sent_ket bases;
       clbits := clbits s; coins := coins s; flips := flips s |}.
Proof.
  induction bases as [|basis bases IH]; intros pre s Hq.
  - destruct s. cbn in *. now rewrite Hq.
  - cbn [h_gates]. rewrite fold_left_app.
    cbn [length replicate] in Hq.
    assert (Hstep : fold_left exec (if basis =? 1 then [h (length pre)] else []) s
                    = {| qubits := pre ++ sent_ket basis
                                     :: replicate (length bases) Ket0;
                         clbits := clbits s; coins := coins s;
                         flips := flips s |}).
    { unfold sent_ket. destruct s as [qs cl cs n]. cbn in Hq. subst qs.
      destruct (basis =? 1); cbn; [|reflexivity].
      unfold on_qubit. cbn. now rewrite alter_middle. }
    rewrite Hstep. specialize (IH (pre ++ [sent_ket basis])).
    rewrite length_app in IH. cbn [length] in IH.
    replace (length pre + 1)%nat with (S (length pre)) in IH by lia.
    rewrite IH; cbn; now rewrite <- app_assoc.
Qed.

Lemma string_get_of_list (l : list ascii) : forall i : nat,
  String.get i (string_of_list_ascii l) = l !! i.
Proof.
  induction l as [|c l IH]; intros [|i]; cbn; auto.
Qed.

Lemma rev_lookup {A : Type} (l : list A) (i : nat) :
  (i < length l)%nat -> rev l !! i = l !! (length l - S i)%nat.
Proof.
  intros Hi. rewrite rev_alt. now apply (reverse_lookup l i).
Qed.

Lemma outcomes_same_basis (alice : list Z) :
  forall (bob : list Z) (cs : nat -> bool) (n j : nat) (basis : Z),
  alice !! j = Some basis -> bob !! j = Some basis ->
  BB84.outcomes (map sent_ket alice) bob cs n !! j = Some false.
Proof.
  induction alice as [|a alice IH]; intros bob cs n j basis Ha Hb.
  - destruct j; discriminate.
  - destruct bob as [|b bob]; [destruct j; discriminate|].
    cbn [map BB84.outcomes]. destruct j as [|j].
    + cbn in Ha, Hb. injection Ha as ->. injection Hb as ->.
      unfold BB84.rotated, sent_ket. destruct (basis =? 1); reflexivity.
    + cbn in Ha, Hb.
      destruct (BB84.rotated b (sent_ket a)); cbn [lookup list_lookup];
        eapply IH; eauto.
Qed.

Lemma key_bit_binary (a b : Z) (m : bool) :
  a = 0 \/ a = 1 -> b = 0 \/ b = 1 ->
  is_Some (key_bit (state_of_basis a) b (char_of_bool m)) <-> a <> b /\ m = true.
Proof.
  intros [-> | ->] [-> | ->]; destruct m; cbn; split;
    try (intros [k Hk]; discriminate Hk);
    try (intros [H1 H2]; congruence);
    try (intros _; split; [discriminate|reflexivity]);
    intros _; eauto.
Qed.

Lemma b92_run_shot_clbits (cs : nat -> bool) (alice_bits : list ascii)
  (alice_bases bob_bases : list Z) :
  length alice_bits = length alice_bases ->
  length bob_bases = length alice_bases ->
  let c := with_data (with_data (new (length alice_bits) (length alice_bits))
                        (h_gates 0 alice_bases))
             (measure_data 0 bob_bases) in
  clbits (fold_left exec (data c) (start cs c))
  = BB84.outcomes (map sent_ket alice_bases) bob_bases cs 0.
Proof.
  intros Hl Hb c. unfold c, with_data, start.
  cbn [data num_qubits num_clbits new app].
  rewrite fold_left_app.
  rewrite (exec_h_gates alice_bases []) by (cbn; congruence).
  cbn [app qubits clbits coins flips].
  rewrite measure_data_Ron_data.
  rewrite (exec_Ron_data bob_bases (map sent_ket alice_bases) [] []);
    cbn [app qubits clbits coins flips length]; try reflexivity.
  - rewrite length_map. lia.
  - congruence.
Qed.
End B92Simulation.

(** X14.  On the simulator, with accepted bases and an accepted encoding:
    the classical bits of the shot are the outcomes of the qubits, bit [j]
    for qubit [j]; an outcome can be 1 only where the two parties' bases
    differ; and the sifting loop, which reads the answer from its first
    character, declares position [i] conclusive exactly when the bases
    differ at [i] and the outcome of qubit [num_bits - 1 - i] is 1. *)
Theorem b92_sift_reads_mirrored_qubit (cs : nat -> bool) (num_bits : nat)
  (alice_bases : list Z) (alice_bits : list ascii)
  (bob_measurement_bases : list Z) (quantum_channel : Qiskit.QuantumCircuit) :
  B92.bases_ok num_bits alice_bases = true ->
  length alice_bits = num_bits ->
  B92.bases_ok num_bits bob_measurement_bases = true ->
  B92.encode_b92_with_alice_basis alice_bits alice_bases = Py.Ok quantum_channel ->
  let c := Qiskit.with_data quantum_channel
             (B92_script.measure_data 0 bob_measurement_bases) in
  let measured := BB84.outcomes (map B92_script.sent_ket alice_bases)
                    bob_measurement_bases cs 0 in
  Qiskit.clbits (fold_left Qiskit.exec (Qiskit.data c) (Qiskit.start cs c))
  = measured
  /\ (forall j, measured !! j = Some true ->
                alice_bases !! j <> bob_measurement_bases !! j)
  /\ (forall i,
        i ∈ B92.conclusive_positions num_bits
              (map B92.state_of_basis alice_bases) bob_measurement_bases
              (Qiskit.run_shot cs c)
        <-> (i < num_bits)%nat
            /\ alice_bases !! i <> bob_measurement_bases !! i
            /\ measured !! (num_bits - 1 - i)%nat = Some true).
Proof.
  intros Ha Hl Hb He c measured.
  apply bases_ok_inv in Ha as [La Ba]. apply bases_ok_inv in Hb as [Lb Bb].
  destruct (encode_Ok_or_ValueError alice_bits alice_bases)
    as [(qc & He' & _ & Hqc)|(msg & He')]; auto; try congruence.
  assert (quantum_channel = qc) by congruence. subst quantum_channel.
  assert (Hcl : Qiskit.clbits
                  (fold_left Qiskit.exec (Qiskit.data c) (Qiskit.start cs c))
                = measured).
  { unfold c. rewrite Hqc. apply b92_run_shot_clbits; congruence. }
  assert (Lm : length measured = num_bits).
  { unfold measured. rewrite outcomes_length; [exact Lb|].
    rewrite length_map. congruence. }
  assert (Hdiff : forall j, measured !! j = Some true ->
                            alice_bases !! j <> bob_measurement_bases !! j).
  { intros j Hj Heq. unfold measured in Hj.
    destruct (alice_bases !! j) as [a|] eqn:Ea.
    - symmetry in Heq.
      rewrite (outcomes_same_basis alice_bases bob_measurement_bases cs 0 j a
                 Ea Heq) in Hj. discriminate.
    - apply lookup_ge_None in Ea. fold measured in Hj.
      rewrite lookup_ge_None_2 in Hj by lia. discriminate. }
  split; [exact Hcl|]. split; [exact Hdiff|].
  intros i. unfold B92.conclusive_positions.
  rewrite list_elem_of_filter, elem_of_seq.
  split.
  - intros [Hk Hi]. assert (Hin : (i < num_bits)%nat) by lia.
    destruct (lookup_lt_is_Some_2 alice_bases i) as [a Ea]; [lia|].
    destruct (lookup_lt_is_Some_2 bob_measurement_bases i) as [b Eb]; [lia|].
    destruct (lookup_lt_is_Some_2 measured (num_bits - 1 - i)) as [m Em]; [lia|].
    revert Hk. unfold B92.key_bit_at.
    change (map B92.state_of_basis alice_bases)
      with (B92.state_of_basis <$> alice_bases).
    rewrite list_lookup_fmap, Ea, Eb.
    cbn [fmap option_fmap option_map mbind option_bind].
    unfold Qiskit.run_shot. rewrite string_get_of_list, Hcl.
    rewrite rev_lookup by (rewrite length_map; lia).
    rewrite length_map, Lm.
    change (map Qiskit.char_of_bool measured) with (Qiskit.char_of_bool <$> measured).
    rewrite list_lookup_fmap.
    replace (num_bits - S i)%nat with (num_bits - 1 - i)%nat by lia.
    rewrite Em. cbn [fmap option_fmap option_map mbind option_bind].
    intros Hk. apply key_bit_binary in Hk as [Hne ->]; eauto.
    repeat split; auto. congruence.
  - intros (Hin & Hne & Hm). split; [|lia].
    destruct (lookup_lt_is_Some_2 alice_bases i) as [a Ea]; [lia|].
    destruct (lookup_lt_is_Some_2 bob_measurement_bases i) as [b Eb]; [lia|].
    unfold B92.key_bit_at.
    change (map B92.state_of_basis alice_bases)
      with (B92.state_of_basis <$> alice_bases).
    rewrite list_lookup_fmap, Ea, Eb.
    cbn [fmap option_fmap option_map mbind option_bind].
    unfold Qiskit.run_shot. rewrite string_get_of_list, Hcl.
    rewrite rev_lookup by (rewrite length_map; lia).
    rewrite length_map, Lm.
    change (map Qiskit.char_of_bool measured) with (Qiskit.char_of_bool <$> measured).
    rewrite list_lookup_fmap.
    replace (num_bits - S i)%nat with (num_bits - 1 - i)%nat by lia.
    rewrite Hm. cbn [fmap option_fmap option_map mbind option_bind].
    apply key_bit_binary; eauto. split; [congruence|reflexivity].
Qed.

Lemma b92_sift_reads_mirrored_qubit_witness :
  B92.bases_ok 2 [0; 0] = true
  /\ B92.conclusive_positions 2 (map B92.state_of_basis [0; 0]) [1; 0]
       (Qiskit.run_shot (fun _ => true)
          {| Qiskit.num_qubits := 2; Qiskit.num_clbits := 2;
             Qiskit.data := [Qiskit.h 0; Qiskit.measure 0 0;
                             Qiskit.measure 1 1] |}) = []
  /\ BB84.outcomes (map B92_script.sent_ket [0; 0]) [1; 0] (fun _ => true) 0
     = [true; false].
Proof.
  split; [reflexivity|].
  pose proof (b92_sift_reads_mirrored_qubit (fun _ => true) 2 [0; 0]
                ["0"; "0"]%char [1; 0]
                {| Qiskit.num_qubits := 2; Qiskit.num_clbits := 2;
                   Qiskit.data := [] |}
                eq_refl eq_refl eq_refl eq_refl) as (H1 & _ & _).
  split; [reflexivity|]. rewrite <- H1. reflexivity.
Defined.

Section B92Prompts.
Import Py Console B92_script.

Lemma digits_bases_ok (num_bits : nat) (line : string) :
  BB84_script.acceptable num_bits line ->
  B92.bases_ok num_bits (BB84_script.digits line) = true.
Proof.
  intros [Hl Hc]. unfold B92.bases_ok, BB84_script.digits.
  rewrite length_map, length_list_ascii_of_string, Hl, Nat.eqb_refl.
  cbn [andb]. apply forallb_forall. intros v Hv.
  apply in_map_iff in Hv as (c & <- & _).
  now destruct (Ascii.eqb c "1").
Qed.

Lemma chars_bits_ok (num_bits : nat) (line : string) :
  BB84_script.acceptable num_bits line ->
  B92.bits_ok num_bits (list_ascii_of_string line) = true.
Proof.
  intros [Hl Hc]. unfold B92.bits_ok.
  rewrite length_list_ascii_of_string, Hl, Nat.eqb_refl.
  cbn [andb]. apply forallb_forall. intros c Hin.
  destruct (Hc c Hin) as [-> | ->]; reflexivity.
Qed.

Lemma get_user_alice_bases_cases (strip : string -> string)
  (num_bits : nat) (stdin : list string) :
  get_user_alice_bases strip num_bits stdin = EOFError
  \/ exists line rest,
       get_user_alice_bases strip num_bits stdin
       = Got (BB84_script.digits (strip line)) rest
       /\ BB84_script.acceptable num_bits (strip line)
       /\ In line stdin /\ suffix rest stdin.
Proof.
  induction stdin as [|line rest IH]; [now left|].
  cbn [get_user_alice_bases]. cbv zeta.
  destruct ((String.length (strip line) =? num_bits)%nat
            && forallb in_01 (list_ascii_of_string (strip line))) eqn:E.
  - right. exists line, rest.
    rewrite ints_of_chars_01 by (apply andb_prop in E; tauto).
    repeat split; try (apply accepts_iff in E; apply E); [now left|].
    exists [line]. reflexivity.
  - destruct IH as [->|(l & r & -> & Ha & Hin & Hs)]; [now left|].
    right. exists l, r. repeat split; try apply Ha; [now right|].
    now apply suffix_cons_r.
Qed.

Lemma get_user_alice_bits_cases (strip : string -> string)
  (num_bits : nat) (stdin : list string) :
  get_user_alice_bits strip num_bits stdin = EOFError
  \/ exists line rest,
       get_user_alice_bits strip num_bits stdin
       = Got (list_ascii_of_string (strip line)) rest
       /\ BB84_script.acceptable num_bits (strip line)
       /\ In line stdin /\ suffix rest stdin.
Proof.
  induction stdin as [|line rest IH]; [now left|].
  cbn [get_user_alice_bits]. cbv zeta.
  destruct ((String.length (strip line) =? num_bits)%nat
            && forallb in_01 (list_ascii_of_string (strip line))) eqn:E.
  - right. exists line, rest.
    repeat split; try (apply accepts_iff in E; apply E); [now left|].
    exists [line]. reflexivity.
  - destruct IH as [->|(l & r & -> & Ha & Hin & Hs)]; [now left|].
    right. exists l, r. repeat split; try apply Ha; [now right|].
    now apply suffix_cons_r.
Qed.

Lemma read_num_bits_cases (py_int : string -> option Z) (stdin : list string) :
  read_num_bits py_int stdin = EOFError
  \/ exists line n rest,
       read_num_bits py_int stdin = Got n rest
       /\ py_int line = Some n /\ 0 < n /\ In line stdin /\ suffix rest stdin.
Proof.
  induction stdin as [|line rest IH]; [now left|].
  cbn [read_num_bits].
  assert (Hskip : read_num_bits py_int rest = EOFError
                  \/ exists l n r,
                       read_num_bits py_int rest = Got n r
                       /\ py_int l = Some n /\ 0 < n /\ In l (line :: rest)
                       /\ suffix r (line :: rest)).
  { destruct IH as [->|(l & n & r & -> & Hp & Hn & Hin & Hs)]; [now left|].
    right. exists l, n, r. repeat split; auto; [now right|].
    now apply suffix_cons_r. }
  destruct (py_int line) as [n|] eqn:E; [|exact Hskip].
  destruct (Z.ltb_spec 0 n); [|exact Hskip].
  right. exists line, n, rest. repeat split; auto; [now left|].
  exists [line]. reflexivity.
Qed.
End B92Prompts.

(** X15.  Whatever [strip] and [int] do and whatever comes on standard
    input, the prompts of b92.py never raise, leave a suffix of the input
    unread, and return only what the protocol expects: a positive number of
    transmissions, [num_bits] bases each 0 or 1, [num_bits] bits each '0' or
    '1'. *)
Theorem b92_prompts_postconditions (strip : string -> string)
  (py_int : string -> option Z) (num_bits : nat) (stdin : list string) :
  match B92_script.read_num_bits py_int stdin with
  | Console.Got n rest => 0 < n /\ suffix rest stdin
  | Console.EOFError => True
  | Console.Raised _ => False
  end
  /\ match B92_script.get_user_alice_bases strip num_bits stdin with
     | Console.Got bases rest =>
         B92.bases_ok num_bits bases = true /\ suffix rest stdin
     | Console.EOFError => True
     | Console.Raised _ => False
     end
  /\ match B92_script.get_user_alice_bits strip num_bits stdin with
     | Console.Got bits rest =>
         B92.bits_ok num_bits bits = true /\ suffix rest stdin
     | Console.EOFError => True
     | Console.Raised _ => False
     end
  /\ B92_script.get_user_bob_bases strip num_bits stdin
     = B92_script.get_user_alice_bases strip num_bits stdin.
Proof.
  split; [|split; [|split]].
  - destruct (read_num_bits_cases py_int stdin)
      as [->|(l & n & r & -> & _ & Hn & _ & Hs)]; auto.
  - destruct (get_user_alice_bases_cases strip num_bits stdin)
      as [->|(l & r & -> & Ha & _ & Hs)]; [exact I|].
    split; [now apply digits_bases_ok|exact Hs].
  - destruct (get_user_alice_bits_cases strip num_bits stdin)
      as [->|(l & r & -> & Ha & _ & Hs)]; [exact I|].
    split; [now apply chars_bits_ok|exact Hs].
  - reflexivity.
Qed.

(** X16.  The whole protocol of b92.py, prompts included, for a simulator
    that answers one character per classical bit: whatever comes on
    standard input, it either runs out of input or returns the same key to
    both parties; it never raises, and the closing message is never the
    one about potential errors. *)
Theorem b92_protocol_keys_always_agree (strip : string -> string)
  (py_int : string -> option Z) (simulator : Qiskit.QuantumCircuit -> string)
  (ch : B92.channel) (stdin : list string) :
  (forall qc, String.length (simulator qc) = Qiskit.num_clbits qc) ->
  B92_script.protocol strip py_int simulator ch stdin = Console.EOFError
  \/ exists key ch' rest,
       B92_script.protocol strip py_int simulator ch stdin
       = Console.Got (key, key, ch') rest
       /\ B92_script.closing_message key key <> B92_script.PotentialErrors.
Proof.
  intros Hsim. unfold B92_script.protocol.
  change B92_script.get_user_bob_bases with B92_script.get_user_alice_bases.
  destruct (read_num_bits_cases py_int stdin)
    as [E0|(l0 & n & r0 & E0 & _ & Hn & _ & _)];
    [left; now apply bind_EOF|rewrite (bind_Got _ _ _ _ _ E0)].
  cbv zeta.
  destruct (get_user_alice_bases_cases strip (Z.to_nat n) r0)
    as [E1|(l1 & r1 & E1 & Ha1 & _ & _)];
    [left; now apply bind_EOF|rewrite (bind_Got _ _ _ _ _ E1)].
  destruct (get_user_alice_bits_cases strip (Z.to_nat n) r1)
    as [E2|(l2 & r2 & E2 & Ha2 & _ & _)];
    [left; now apply bind_EOF|rewrite (bind_Got _ _ _ _ _ E2)].
  destruct (get_user_alice_bases_cases strip (Z.to_nat n) r2)
    as [E3|(l3 & r3 & E3 & Ha3 & _ & _)];
    [left; now apply bind_EOF|rewrite (bind_Got _ _ _ _ _ E3)].
  right.
  apply digits_bases_ok in Ha1, Ha3. apply chars_bits_ok in Ha2.
  set (alice_bases := BB84_script.digits (strip l1)) in *.
  set (alice_bits := list_ascii_of_string (strip l2)) in *.
  set (bob_bases := BB84_script.digits (strip l3)) in *.
  destruct (bases_ok_inv _ _ Ha1) as [La Ba].
  destruct (bases_ok_inv _ _ Ha3) as [Lb Bb].
  destruct (bits_ok_inv _ _ Ha2) as [Lbits Bbits].
  assert (Hclose : forall key, B92_script.closing_message key key
                               <> B92_script.PotentialErrors).
  { intros key. unfold B92_script.closing_message.
    rewrite bool_decide_eq_true_2 by reflexivity. cbn [andb].
    destruct (bool_decide (key = ""%string)); discriminate. }
  destruct (encode_Ok_or_ValueError alice_bits alice_bases)
    as [(qc & He & Hnone & Hqc)|(msg & He)]; auto; [congruence| |].
  - destruct (b92_protocol_after_encode simulator (Z.to_nat n) alice_bases
                alice_bits bob_bases ch qc La Ba Lbits Lb Bb He) as [Hrun _].
    unfold Console.lift. rewrite Hrun.
    + unfold B92.conclusive_positions, B92.receiver_bits.
      rewrite (omap_filter_agree
                 (B92.key_bit_at (map B92.state_of_basis alice_bases) bob_bases _)).
      * do 3 eexists. split; [reflexivity|apply Hclose].
      * intros i key _ Hk.
        apply (key_bit_is_sent_bit alice_bases alice_bits bob_bases _ i key
                 Bbits Ba ltac:(congruence) Hnone Hk).
    + rewrite Hsim, Hqc. cbn. exact Lbits.
  - unfold Console.lift, B92.b92_protocol_user_input_bases_bits_bob.
    rewrite sent_states_loop, bind_Ok by exact Ba. rewrite He.
    do 3 eexists. split; [reflexivity|apply Hclose].
Qed.

Lemma b92_protocol_keys_always_agree_witness :
  B92_script.protocol (fun s => s) (fun _ => Some 2)
    (fun qc => string_of_list_ascii (replicate (Qiskit.num_clbits qc) "1"%char))
    [] ["2"; "01"; "01"; "10"]%string
  = Console.EOFError
  \/ exists key ch' rest,
       B92_script.protocol (fun s => s) (fun _ => Some 2)
         (fun qc => string_of_list_ascii
                      (replicate (Qiskit.num_clbits qc) "1"%char))
         [] ["2"; "01"; "01"; "10"]%string
       = Console.Got (key, key, ch') rest
       /\ B92_script.closing_message key key <> B92_script.PotentialErrors.
Proof.
  apply (b92_protocol_keys_always_agree (fun s => s) (fun _ => Some 2)
           (fun qc => string_of_list_ascii
                        (replicate (Qiskit.num_clbits qc) "1"%char))
           [] ["2"; "01"; "01"; "10"]%string).
  intros qc. induction (Qiskit.num_clbits qc) as [|k IH]; simpl; congruence.
Defined.

(** ** e91.py: the estimator, the prompts and the Bell pairs *)

Section EstimatorFacts.
Import E91.

Lemma sum_Permutation (l l' : list Z) :
  l ≡ₚ l' -> foldr Z.add 0 l = foldr Z.add 0 l'.
Proof.
  induction 1; cbn; lia.
Qed.

Lemma evaluate_from_contributions (bell_data : list sample) :
  evaluate_bell_statistic bell_data
  = match contributions bell_data with
    | [] => PrimFloat.zero
    | _ :: _ => PrimFloat.mul (np_mean (contributions bell_data))
                  (PrimFloat.sqrt 2)
    end.
Proof.
  unfold evaluate_bell_statistic. rewrite collect_contributions. cbn [app].
  destruct (contributions bell_data); reflexivity.
Qed.

Lemma evaluate_Permutation (d d' : list sample) :
  contributions d ≡ₚ contributions d' ->
  evaluate_bell_statistic d = evaluate_bell_statistic d'.
Proof.
  intros Hp. rewrite !evaluate_from_contributions.
  destruct (contributions d) as [|v l], (contributions d') as [|v' l'].
  - reflexivity.
  - apply Permutation_nil in Hp. discriminate.
  - symmetry in Hp. apply Permutation_nil in Hp. discriminate.
  - unfold np_mean.
    now rewrite (sum_Permutation _ _ Hp), (Permutation_length Hp).
Qed.

Lemma product_pm1 (s : sample) : product s = 1 \/ product s = -1.
Proof.
  destruct s as [[a ar] [b br]]. unfold product, mapped.
  destruct (String.eqb ar "0"), (String.eqb br "0"); auto.
Qed.

Lemma sum_bound (l : list Z) :
  Forall (fun v => v = 1 \/ v = -1) l ->
  Z.abs (foldr Z.add 0 l) <= Z.of_nat (length l).
Proof.
  induction 1 as [|v l Hv _ IH]; cbn [foldr length]; [reflexivity|].
  destruct Hv as [-> | ->]; lia.
Qed.
End EstimatorFacts.

(** X17.  The statistic depends on the samples only through the collection
    of those whose two basis indices differ (both among 0, 1 and 2): the
    order of the samples does not matter, and samples measured in one and
    the same basis, or with another index, can be added or removed without
    changing it. *)
Theorem e91_statistic_permutation (bell_data other : list E91.sample) :
  List.filter E91.off_diagonal bell_data ≡ₚ List.filter E91.off_diagonal other ->
  E91.evaluate_bell_statistic bell_data = E91.evaluate_bell_statistic other.
Proof.
  intros Hp. apply evaluate_Permutation. unfold E91.contributions.
  now apply Permutation_map.
Qed.

Lemma e91_statistic_permutation_witness :
  E91.evaluate_bell_statistic
    [((0, "0"), (1, "1")); ((1, "0"), (1, "0")); ((2, "1"), (0, "1"))]%string
  = E91.evaluate_bell_statistic
      [((2, "1"), (0, "1")); ((0, "0"), (1, "1")); ((5, "0"), (1, "0"))]%string.
Proof.
  apply (e91_statistic_permutation
           [((0, "0"), (1, "1")); ((1, "0"), (1, "0")); ((2, "1"), (0, "1"))]%string
           [((2, "1"), (0, "1")); ((0, "0"), (1, "1")); ((5, "0"), (1, "0"))]%string).
  simpl. apply perm_swap.
Defined.

(** X18.  Exchanging the roles of the two parties in every sample leaves
    the statistic unchanged. *)
Theorem e91_statistic_symmetric (bell_data : list E91.sample) :
  E91.evaluate_bell_statistic (map (fun s => (snd s, fst s)) bell_data)
  = E91.evaluate_bell_statistic bell_data.
Proof.
  apply evaluate_Permutation.
  assert (H : E91.contributions (map (fun s => (snd s, fst s)) bell_data)
              = E91.contributions bell_data); [|now rewrite H].
  unfold E91.contributions.
  induction bell_data as [|[[a ar] [b br]] rest IH]; [reflexivity|].
  cbn [map List.filter fst snd].
  assert (Hoff : E91.off_diagonal ((b, br), (a, ar))
                 = E91.off_diagonal ((a, ar), (b, br))).
  { unfold E91.off_diagonal. rewrite (Z.eqb_sym b a).
    now rewrite (andb_comm (E91.basis_index b)). }
  rewrite Hoff. destruct (E91.off_diagonal ((a, ar), (b, br))); [|exact IH].
  cbn [map]. rewrite IH. f_equal. unfold E91.product. apply Z.mul_comm.
Qed.

(** X19.  Every correlation the estimator collects is +1 or -1, there is
    at most one per sample, and so their sum, the numerator of the mean,
    is between minus and plus their number. *)
Theorem e91_correlations_bounded (bell_data : list E91.sample) :
  Forall (fun v => v = 1 \/ v = -1) (E91.collect bell_data [])
  /\ (length (E91.collect bell_data []) <= length bell_data)%nat
  /\ Z.abs (foldr Z.add 0 (E91.collect bell_data []))
     <= Z.of_nat (length (E91.collect bell_data [])).
Proof.
  rewrite collect_contributions. cbn [app].
  assert (H : Forall (fun v => v = 1 \/ v = -1) (E91.contributions bell_data)).
  { unfold E91.contributions. apply list.Forall_forall. intros v Hv.
    apply list_elem_of_fmap in Hv as (s & -> & _). apply product_pm1. }
  split; [exact H|]. split; [|now apply sum_bound].
  unfold E91.contributions. rewrite length_map.
  pose proof (List.filter_length E91.off_diagonal bell_data). lia.
Qed.

(** X20.  With fewer than two samples the protocol returns two empty keys
    and leaves the random source untouched, whatever the statistic is:
    half the number of samples, rounded down, is zero. *)
Theorem e91_single_sample_empty_keys (bell_test_data : list E91.sample)
  (g : E91.rng) :
  (length bell_test_data < 2)%nat ->
  E91.e91_protocol_qiskit_user_input bell_test_data g = ([], [], g).
Proof.
  intros Hl. rewrite e91_protocol_spec.
  assert (Hn : (length bell_test_data / 2 = 0)%nat)
    by (apply Nat.div_small; exact Hl).
  rewrite Hn. destruct (E91.violated bell_test_data); cbn zeta;
    now rewrite advance_0.
Qed.

Lemma e91_single_sample_empty_keys_witness :
  E91.e91_protocol_qiskit_user_input [((0, "0"), (1, "1"))]%string
    {| E91.tape := fun _ => 1; E91.cursor := 0 |}
  = ([], [], {| E91.tape := fun _ => 1; E91.cursor := 0 |}).
Proof.
  apply (e91_single_sample_empty_keys [((0, "0"), (1, "1"))]%string
           {| E91.tape := fun _ => 1; E91.cursor := 0 |}).
  simpl. lia.
Defined.

Section E91Prompts.
Import Py Console E91_script.

Lemma read_pair_cases (py_int : string -> option Z) (n : nat) :
  forall stdin : list string,
  (length stdin <= n)%nat ->
  read_pair py_int stdin = EOFError
  \/ exists s rest,
       read_pair py_int stdin = Got s rest
       /\ sample_ok s = true /\ suffix rest stdin.
Proof.
  induction n as [|n IH]; intros stdin Hl.
  { destruct stdin; [now left|cbn in Hl; lia]. }
  destruct stdin as [|l1 r1]; [now left|]. cbn in Hl.
  assert (Hrec : forall r, suffix r (l1 :: r1) -> (length r <= n)%nat ->
            read_pair py_int r = EOFError
            \/ exists s rest, read_pair py_int r = Got s rest
                              /\ sample_ok s = true /\ suffix rest (l1 :: r1)).
  { intros r Hs Hr. destruct (IH r Hr) as [->|(s & rest & -> & Hok & Hsuf)];
      [now left|right]. exists s, rest. repeat split; auto.
    etransitivity; eauto. }
  cbn [read_pair].
  destruct (py_int l1) as [a|];
    [|apply Hrec; [exists [l1]; reflexivity|lia]].
  destruct (basis_index_ok a) eqn:Ea; cbn [negb];
    [|apply Hrec; [exists [l1]; reflexivity|lia]].
  destruct r1 as [|l2 r2]; [now left|]. cbn in Hl.
  destruct (result_ok l2) eqn:E2; cbn [negb];
    [|apply Hrec; [exists [l1; l2]; reflexivity|lia]].
  destruct r2 as [|l3 r3]; [now left|]. cbn in Hl.
  destruct (py_int l3) as [b|];
    [|apply Hrec; [exists [l1; l2; l3]; reflexivity|lia]].
  destruct (basis_index_ok b) eqn:Eb; cbn [negb];
    [|apply Hrec; [exists [l1; l2; l3]; reflexivity|lia]].
  destruct r3 as [|l4 r4]; [now left|]. cbn in Hl.
  destruct (result_ok l4) eqn:E4; cbn [negb];
    [|apply Hrec; [exists [l1; l2; l3; l4]; reflexivity|lia]].
  right. exists ((a, l2), (b, l4)), r4. repeat split.
  - unfold sample_ok. now rewrite Ea, E2, Eb, E4.
  - exists [l1; l2; l3; l4]. reflexivity.
Qed.

Lemma pairs_loop_cases (py_int : string -> option Z) (num_pairs : nat) :
  forall (bell_data : list E91.sample) (stdin : list string),
  pairs_loop py_int num_pairs bell_data stdin = EOFError
  \/ exists more rest,
       pairs_loop py_int num_pairs bell_data stdin = Got (bell_data ++ more) rest
       /\ length more = num_pairs
       /\ Forall (fun s => sample_ok s = true) more
       /\ suffix rest stdin.
Proof.
  induction num_pairs as [|n IH]; intros bell_data stdin.
  - right. exists [], stdin. cbn. rewrite app_nil_r. repeat split; auto.
  - cbn [pairs_loop].
    destruct (read_pair_cases py_int (length stdin) stdin (le_n _))
      as [->|(s & r & -> & Hok & Hs)]; [now left|].
    destruct (IH (bell_data ++ [s]) r)
      as [->|(more & rest & -> & Hl & Hall & Hs')]; [now left|].
    right. exists (s :: more), rest. rewrite <- app_assoc. cbn [app].
    repeat split; auto; [cbn; lia|]. etransitivity; eauto.
Qed.
End E91Prompts.

(** X21.  Whatever [int] does and whatever comes on standard input,
    [get_bell_test_input_from_user] never raises; when it returns, it
    returns exactly [num_pairs] samples, each with basis indices among 0,
    1 and 2 and results '0' or '1', and leaves a suffix of the input
    unread.  So after a positive number of pairs the data is not empty. *)
Theorem e91_prompt_postcondition (py_int : string -> option Z)
  (num_pairs : nat) (stdin : list string) :
  match E91_script.get_bell_test_input_from_user py_int num_pairs stdin with
  | Console.Got bell_data rest =>
      length bell_data = num_pairs
      /\ Forall (fun s => E91_script.sample_ok s = true) bell_data
      /\ suffix rest stdin
  | Console.EOFError => True
  | Console.Raised _ => False
  end.
Proof.
  unfold E91_script.get_bell_test_input_from_user.
  destruct (pairs_loop_cases py_int num_pairs [] stdin)
    as [->|(more & rest & -> & Hl & Hall & Hs)]; [exact I|].
  cbn [app]. auto.
Qed.



(** ** e91.py: the Bell pairs *)

(** X23.  On two qubits starting in the ground state, each of the four
    names prepares its Bell state, up to the common factor one over the
    square root of 2: phi_plus gives 00 + 11, phi_minus 00 - 11, psi_plus
    01 + 10 and psi_minus 01 - 10 (qubit 0 written first).  Any other name
    raises nothing and leaves the two qubits in the ground state. *)
Theorem create_bell_pair_states (state : string) :
  Bell.state_of (Bell.create_bell_pair state)
  = if String.eqb state "phi_plus" then
      {| Bell.a_00 := 1; Bell.a_10 := 0; Bell.a_01 := 0; Bell.a_11 := 1;
         Bell.halvings := 1 |}
    else if String.eqb state "phi_minus" then
      {| Bell.a_00 := 1; Bell.a_10 := 0; Bell.a_01 := 0; Bell.a_11 := -1;
         Bell.halvings := 1 |}
    else if String.eqb state "psi_plus" then
      {| Bell.a_00 := 0; Bell.a_10 := 1; Bell.a_01 := 1; Bell.a_11 := 0;
         Bell.halvings := 1 |}
    else if String.eqb state "psi_minus" then
      {| Bell.a_00 := 0; Bell.a_10 := -1; Bell.a_01 := 1; Bell.a_11 := 0;
         Bell.halvings := 1 |}
    else Bell.ground.
Proof.
  unfold Bell.create_bell_pair.
  destruct (String.eqb state "phi_plus"); [reflexivity|].
  destruct (String.eqb state "phi_minus"); [reflexivity|].
  destruct (String.eqb state "psi_plus"); [reflexivity|].
  destruct (String.eqb state "psi_minus"); reflexivity.
Qed.

(** ** e91.py: the script *)

Section E91Script.
Import Py Console E91_script.

Lemma read_num_pairs_cases (py_int : string -> option Z) (stdin : list string) :
  read_num_pairs py_int stdin = EOFError
  \/ exists n rest,
       read_num_pairs py_int stdin = Got n rest /\ 0 < n /\ suffix rest stdin.
Proof.
  induction stdin as [|line rest IH]; [now left|].
  cbn [read_num_pairs].
  assert (Hskip : read_num_pairs py_int rest = EOFError
                  \/ exists n r, read_num_pairs py_int rest = Got n r
                                 /\ 0 < n /\ suffix r (line :: rest)).
  { destruct IH as [->|(n & r & -> & Hn & Hs)]; [now left|].
    right. exists n, r. repeat split; auto. now apply suffix_cons_r. }
  destruct (py_int line) as [n|]; [|exact Hskip].
  destruct (Z.leb_spec n 0); [exact Hskip|].
  right. exists n, rest. repeat split; auto. exists [line]. reflexivity.
Qed.
End E91Script.

(** X24.  The script reports a successful exchange exactly when the bound
    test holds and at least two samples were given. *)
Theorem e91_reports_success_iff (bell_test_data : list E91.sample) (g : E91.rng) :
  E91_script.reports_success
    (fst (fst (E91.e91_protocol_qiskit_user_input bell_test_data g)))
    (snd (fst (E91.e91_protocol_qiskit_user_input bell_test_data g)))
  = E91.violated bell_test_data && (2 <=? length bell_test_data)%nat.
Proof.
  rewrite e91_protocol_spec. cbn zeta. cbn [fst snd].
  unfold E91_script.reports_success. rewrite Nat.eqb_refl, andb_true_r, andb_diag.
  destruct (E91.violated bell_test_data); cbn [andb].
  - destruct (Nat.leb_spec 2 (length bell_test_data)) as [Hle|Hlt].
    + assert (Hn : (1 <= length bell_test_data / 2)%nat)
        by (apply Nat.div_le_lower_bound; lia).
      destruct (length bell_test_data / 2)%nat as [|k]; [lia|].
      rewrite drawn_S. reflexivity.
    + rewrite Nat.div_small by lia. reflexivity.
  - reflexivity.
Qed.

(** X25.  The whole protocol of e91.py, prompts included: whatever [int]
    does and whatever comes on standard input, it never raises; it either
    runs out of input or runs the estimator on data that is not empty and
    holds only accepted samples, so the guard against empty data never
    fires. *)
Theorem e91_protocol_data_not_empty (py_int : string -> option Z)
  (g : E91.rng) (stdin : list string) :
  E91_script.protocol py_int g stdin = Console.EOFError
  \/ exists bell_test_data rest,
       E91_script.protocol py_int g stdin
       = Console.Got (E91.e91_protocol_qiskit_user_input bell_test_data g) rest
       /\ bell_test_data <> []
       /\ Forall (fun s => E91_script.sample_ok s = true) bell_test_data
       /\ suffix rest stdin.
Proof.
  unfold E91_script.protocol.
  destruct (read_num_pairs_cases py_int stdin) as [E0|(n & r0 & E0 & Hn & Hs0)];
    [left; now apply bind_EOF|rewrite (bind_Got _ _ _ _ _ E0)].
  unfold E91_script.get_bell_test_input_from_user.
  destruct (pairs_loop_cases py_int (Z.to_nat n) [] r0)
    as [E1|(more & rest & E1 & Hl & Hall & Hs1)];
    [left; now apply bind_EOF|rewrite (bind_Got _ _ _ _ _ E1)].
  right. exists more, rest. cbn [app]. unfold Console.ret.
  repeat split; auto.
  - intros ->. cbn in Hl. lia.
  - etransitivity; eauto.
Qed.
